(** * Forest: task selection, strategy evolution and roadmap generation

    A shallow embedding of the decision logic of two modules of the Forest
    server,

    - [TaskIntelligence] (task admission, scoring, stall detection and the
      synthesis of remediation tasks), and
    - [HtaTreeBuilder]   (goal decomposition into branches and the
      level-banded post-processing of the tasks an LLM proposes),

    of the operations around them,

    - the reply of [getNextTask] and the entry point [buildHTATree],
    - the server's [storeGeneratedTasks] and [getGenerationHistory], and
      the task counts of its [currentStatus],
    - the cache of [DataPersistence],

    followed by the properties of that logic.

    The operations are embedded at two levels.  On a store, a load
    returns the value that the last save stored and every save succeeds:
    this is the level of [TaskIntelligence], [TreeBuild] and [Ingestion].
    On the files, [buildHTATree], [storeGeneratedTasks] and
    [getGenerationHistory] go through the cache of [DataPersistence]: a
    write can fail, and an object that a load returned and that its
    caller changes is the object that the cache holds.

    Conventions of the embedding.

    - A JavaScript string is a [string]: a sequence of code units below 256
      (Latin-1).  Inside the string functions it is handled as a
      [list ascii].
    - A JavaScript number that the code treats as a count, a level, a
      priority or a number of minutes is a [Z].  The comparisons of the
      source that involve a decimal constant ([x * 1.2], [x * 0.8],
      [x * 0.5], [avg < 2.5]) are written with the constant cleared to
      integers ([5 * a > 6 * b] and so on).  The module [Double] states the
      same comparisons in binary64, and the two forms are checked against
      each other on whole minutes up to four hours.
    - A field that may be absent ([undefined]) is an [option]; the idiom
      [x || d] is [truthy]-directed defaulting.
    - The LLM interface is an arbitrary state machine: a state type and a
      function from a state and a request to a response and a new state.
      A request always resolves, as it does on the interface the server
      installs; [JSON.parse] is an arbitrary function that may fail.
    - What is parsed from the LLM is typed as the prompts ask for it: a
      list of strings for domains, and for tasks a list of objects whose
      fields, when present, have the requested types (the duration a
      whole number or a text). *)

From Stdlib Require Import ZArith Lia Ascii String.
From Stdlib Require Floats Uint63.
From stdpp Require Import gmap strings list pretty sorting.

Open Scope Z_scope.

(** ** JavaScript strings *)

Module JS.

Definition chars (s : string) : list ascii := String.list_ascii_of_string s.
Definition str (l : list ascii) : string := String.string_of_list_ascii l.

Definition code (c : ascii) : N := N_of_ascii c.

Definition between (lo hi : N) (c : ascii) : bool :=
  ((lo <=? code c) && (code c <=? hi))%N.

(** [\d] *)
Definition isDigit (c : ascii) : bool := between 48 57 c.

(** [\s]: tab, line feed, vertical tab, form feed, carriage return, space
    and the no-break space. *)
Definition isSpace (c : ascii) : bool :=
  bool_decide (code c ∈ [9; 10; 11; 12; 13; 32; 160]%N).

(** [\w] is [[A-Za-z0-9_]]. *)
Definition isWord (c : ascii) : bool :=
  between 65 90 c || between 97 122 c || isDigit c || (code c =? 95)%N.

Definition isUpper (c : ascii) : bool :=
  between 65 90 c || (between 192 222 c && negb (code c =? 215)%N).

Definition isLower (c : ascii) : bool :=
  between 97 122 c || (between 224 254 c && negb (code c =? 247)%N).

Definition toLowerChar (c : ascii) : ascii :=
  if isUpper c then ascii_of_N (code c + 32) else c.

(** The upper-case forms of U+00B5, U+00DF and U+00FF lie outside
    Latin-1; those three code units are left as they are. *)
Definition toUpperChar (c : ascii) : ascii :=
  if isLower c then ascii_of_N (code c - 32) else c.

Definition toLowerCase (s : string) : string := str (toLowerChar <$> chars s).

Fixpoint startsWithL (p s : list ascii) : bool :=
  match p, s with
  | [], _ => true
  | a :: p', b :: s' => bool_decide (a = b) && startsWithL p' s'
  | _ :: _, [] => false
  end.

Fixpoint includesL (s sub : list ascii) : bool :=
  startsWithL sub s ||
  match s with
  | [] => false
  | _ :: s' => includesL s' sub
  end.

(** [s.startsWith(p)] and [s.includes(sub)] *)
Definition startsWith (s p : string) : bool := startsWithL (chars p) (chars s).
Definition includes (s sub : string) : bool := includesL (chars s) (chars sub).

(** The longest prefix whose characters satisfy [p], and the rest. *)
Fixpoint span (p : ascii → bool) (s : list ascii) : list ascii * list ascii :=
  match s with
  | c :: s' =>
      if p c then let '(a, b) := span p s' in (c :: a, b) else ([], s)
  | [] => ([], [])
  end.

(** [s.split(sep)] for a one-character separator: every occurrence
    separates, so adjacent separators give empty fields. *)
Fixpoint splitL (sep : ascii) (s : list ascii) : list (list ascii) :=
  match s with
  | [] => [[]]
  | c :: s' =>
      if bool_decide (c = sep) then [] :: splitL sep s'
      else match splitL sep s' with
           | w :: ws => (c :: w) :: ws
           | [] => [[c]]
           end
  end.

Definition split (sep : ascii) (s : string) : list string :=
  str <$> splitL sep (chars s).

(** [s.split(/C+/)] for a character class [C]: a maximal run of
    separator characters separates once; a run at either end leaves an
    empty field there.  [sep] records that the previous character was a
    separator. *)
Fixpoint splitRunsL (p : ascii → bool) (sep : bool) (s : list ascii)
  : list (list ascii) :=
  match s with
  | [] => [[]]
  | c :: s' =>
      if p c then
        if sep then splitRunsL p true s' else [] :: splitRunsL p true s'
      else match splitRunsL p false s' with
           | w :: ws => (c :: w) :: ws
           | [] => [[c]]
           end
  end.

Definition splitRuns (p : ascii → bool) (s : string) : list string :=
  str <$> splitRunsL p false (chars s).

(** [s.trim()] *)
Definition trim (s : string) : string :=
  str (reverse (snd (span isSpace (reverse (snd (span isSpace (chars s))))))).

Definition length (s : string) : Z := Z.of_nat (String.length s).

(** Truthiness of the values the code tests. *)
Definition truthyStr (s : string) : bool := negb (bool_decide (s = "")).
Definition truthyNum (n : Z) : bool := negb (n =? 0).

(** [o || d] where [o] is a string or [undefined]. *)
Definition orStr (o : option string) (d : string) : string :=
  match o with
  | Some s => if truthyStr s then s else d
  | None => d
  end.

(** [o || d] where [o] is a number or [undefined]. *)
Definition orNum (o : option Z) (d : Z) : Z :=
  match o with
  | Some n => if truthyNum n then n else d
  | None => d
  end.

(** A string or [undefined] inside a concatenation or a template. *)
Definition toString (o : option string) : string :=
  match o with
  | Some s => s
  | None => "undefined"
  end.

(** [parseInt] on a run of decimal digits (exact; the double that
    [parseInt] returns is this number when it is below 2^53). *)
Definition digitVal (c : ascii) : Z := Z.of_N (code c) - 48.

Definition parseDigits (ds : list ascii) : Z :=
  foldl (λ acc c, 10 * acc + digitVal c) 0 ds.

End JS.

(** ** [parseTimeToMinutes]

    [timeStr.match(/(\d+)\s*(minute|hour|min|hr)/i)].  The matcher tries
    each start position from the left.  At a position, [\d+] takes the whole
    run of digits and [\s*] the whole run of white space; giving back a
    digit or a space cannot help, because the next pattern element would
    then have to match that digit or space, so the only attempt that can
    succeed at a position is the greedy one.  The alternatives of the unit
    are tried in the order written. *)

Module Minutes.
Import JS.

Definition units : list string := ["minute"; "hour"; "min"; "hr"].

(** The prefix of [s] that equals [u] up to case, if there is one. *)
Fixpoint matchWord (u s : list ascii) : option (list ascii) :=
  match u, s with
  | [], _ => Some []
  | a :: u', b :: s' =>
      if bool_decide (toLowerChar b = a)
      then cons b <$> matchWord u' s'
      else None
  | _ :: _, [] => None
  end.

Fixpoint matchUnit (us : list string) (s : list ascii) : option (list ascii) :=
  match us with
  | [] => None
  | u :: us' =>
      match matchWord (chars u) s with
      | Some m => Some m
      | None => matchUnit us' s
      end
  end.

(** A match that starts at the head of [s]: the two captured groups. *)
Definition matchHere (s : list ascii) : option (list ascii * list ascii) :=
  let '(ds, r1) := span isDigit s in
  match ds with
  | [] => None
  | _ :: _ =>
      let '(_, r2) := span isSpace r1 in
      pair ds <$> matchUnit units r2
  end.

Fixpoint regexMatch (s : list ascii) : option (list ascii * list ascii) :=
  match matchHere s with
  | Some m => Some m
  | None =>
      match s with
      | [] => None
      | _ :: s' => regexMatch s'
      end
  end.

Definition parseTimeToMinutes (timeStr : string) : Z :=
  match regexMatch (chars timeStr) with
  | None => 30
  | Some (g1, g2) =>
      let value := parseDigits g1 in
      let unit := toLowerCase (str g2) in
      if startsWith unit "hour" || startsWith unit "hr"
      then value * 60 else value
  end.

End Minutes.

(** ** The persisted documents *)

Module Model.

(** A frontier node of [hta.json]. *)
Record Task := {
  id : string;
  title : option string;
  description : option string;
  branch : option string;
  difficulty : option Z;
  priority : option Z;
  duration : option string;
  prerequisites : option (list string);
  completed : bool;
  generated : bool;
  opportunityType : option string;
  learningOutcome : option string
}.

Record SubBranch := {
  sub_id : string;
  sub_title : string;
  sub_description : string
}.

Record Branch := {
  branch_id : string;
  branch_title : string;
  branch_priority : string;
  branch_completed : bool;
  branch_description : string;
  expected_duration : string;
  subBranches : list SubBranch
}.

Record HtaData := {
  pathName : option string;
  hta_goal : option string;
  strategicBranches : list Branch;
  frontierNodes : option (list Task);
  hta_learningStyle : option string;
  hta_focusAreas : list string;
  hta_knowledgeLevel : option Z;
  created : option string;
  lastUpdated : option string
}.

(** The object [{}] that stands in for a missing document. *)
Definition emptyHta : HtaData :=
  {| pathName := None; hta_goal := None; strategicBranches := [];
     frontierNodes := None; hta_learningStyle := None; hta_focusAreas := [];
     hta_knowledgeLevel := None; created := None; lastUpdated := None |}.

(** [config.json] *)
Record Config := {
  goal : option string;
  domain : option string;
  learningStyle : option string;
  activePath : option string;
  knowledge_level : option Z;
  specific_interests : option (list string);
  context : option string
}.

(** An entry of [learning_history.json].  [completedAt] is the instant in
    milliseconds that [new Date(t.completedAt)] denotes, [None] when that
    date is invalid. *)
Record Topic := {
  completedAt : option Z;
  energyAfter : option Z
}.

Record LearningHistory := {
  completedTopics : option (list Topic)
}.

(** The data-persistence layer together with the project manager: what is
    stored under a project, and under a project and a path. *)
Record Store := {
  activeProject : option string;
  configs : gmap string Config;
  htas : gmap (string * string) HtaData;
  histories : gmap (string * string) LearningHistory;
  errorLog : list string
}.

End Model.

(** ** [TaskIntelligence] *)

Module TaskIntelligence.
Import JS Model.
Export Minutes.

Record ProjectContext := {
  pc_goal : option string;
  pc_domain : option string;
  pc_learningStyle : option string;
  pc_activePath : string
}.

(** [task.title + ' ' + task.description] *)
Definition taskText (task : Task) : string :=
  toLowerCase (toString (title task) +:+ " " +:+ toString (description task)).

Definition isDomainRelevant (task : Task) (projectContext : ProjectContext) : bool :=
  let domainText :=
    toLowerCase (toString (pc_goal projectContext) +:+ " "
                 +:+ toString (pc_domain projectContext)) in
  let domainKeywords :=
    List.filter
      (λ word, negb (bool_decide (word ∈ ["research"; "learning"; "study"; "project"])))
      (List.filter (λ word, 3 <? JS.length word) (split " " domainText)) in
  existsb (λ keyword, includes (taskText task) keyword) domainKeywords.

(** The context is a string here; the branches of the source for other
    kinds of value are not reached from [getNextTask]'s string argument. *)
Definition isContextRelevant (task : Task) (context : string) : bool :=
  let contextLower := toLowerCase context in
  let keywords :=
    List.filter (λ word, 3 <? JS.length word)
                (splitRuns (λ c, negb (isWord c)) contextLower) in
  existsb (λ keyword, includes (taskText task) keyword) keywords.

Definition taskMinutesOf (task : Task) : Z :=
  parseTimeToMinutes (orStr (duration task) "30 minutes").

Definition calculateTaskScore (task : Task) (energyLevel timeInMinutes : Z)
    (contextFromMemory : string) (projectContext : ProjectContext) : Z :=
  let score := orNum (priority task) 200 in
  let taskDifficulty := orNum (difficulty task) 3 in
  let energyMatch := 5 - Z.abs (energyLevel - taskDifficulty) in
  let score := score + energyMatch * 20 in
  let taskDuration := taskMinutesOf task in
  let score :=
    if timeInMinutes >=? taskDuration then score + 50
    else if 5 * timeInMinutes >=? 4 * taskDuration then score + 20
    else if 2 * timeInMinutes >=? taskDuration then score - 20
    else score - 100 in
  let score :=
    if isDomainRelevant task projectContext then score + 100 else score in
  let score :=
    if truthyStr contextFromMemory && isContextRelevant task contextFromMemory
    then score + 50 else score in
  let score :=
    if bool_decide (opportunityType task = Some "breakthrough_amplification")
    then score + 100 else score in
  let score := if generated task then score + 25 else score in
  score.

(** [new Set(nodes.filter(n => n.completed).map(n => n.id))] *)
Definition completedIdSet (nodes : list Task) : gset string :=
  list_to_set (id <$> List.filter completed nodes).

(** The [Map] filled by the first loop of [selectOptimalTask]. *)
Definition completedByTitle (nodes : list Task) : gmap (option string) Task :=
  foldl (λ m node, if completed node then <[title node := node]> m else m)
        ∅ nodes.

(** The inner loop over [node.prerequisites], with its [break]. *)
Fixpoint prerequisitesMet (completedNodeIds : gset string)
    (nodesByTitle : gmap (option string) Task) (prereqs : list string) : bool :=
  match prereqs with
  | [] => true
  | prereq :: rest =>
      if negb (bool_decide (prereq ∈ completedNodeIds))
         && negb (bool_decide (is_Some (nodesByTitle !! Some prereq)))
      then false
      else prerequisitesMet completedNodeIds nodesByTitle rest
  end.

(** One turn of the loop that fills [availableTasks]: [true] when the node
    is pushed, [false] when a [continue] is taken. *)
Definition admits (completedNodeIds : gset string)
    (nodesByTitle : gmap (option string) Task) (timeAvailable : string)
    (node : Task) : bool :=
  if completed node then false
  else if match prerequisites node with
          | Some (p :: ps) =>
              negb (prerequisitesMet completedNodeIds nodesByTitle (p :: ps))
          | _ => false
          end then false
  else
    let timeInMinutes := parseTimeToMinutes timeAvailable in
    let taskMinutes := taskMinutesOf node in
    if 5 * taskMinutes >? 6 * timeInMinutes then false
    else true.

Definition availableTasks (htaData : HtaData) (timeAvailable : string) : list Task :=
  let nodes := default [] (frontierNodes htaData) in
  let completedNodeIds := completedIdSet nodes in
  let nodesByTitle := completedByTitle nodes in
  List.filter (admits completedNodeIds nodesByTitle timeAvailable) nodes.

(** The scoring loop: the best task so far with its score, [None] while
    [bestScore] is still minus infinity. *)
Definition better (score : Z) (best : option (Task * Z)) : bool :=
  match best with
  | None => true
  | Some (_, bestScore) => score >? bestScore
  end.

Definition selectOptimalTask (htaData : HtaData) (energyLevel : Z)
    (timeAvailable contextFromMemory : string) (projectContext : ProjectContext)
    : option (Task * Z) :=
  let available := availableTasks htaData timeAvailable in
  match available with
  | [] => None
  | _ :: _ =>
      let timeInMinutes := parseTimeToMinutes timeAvailable in
      foldl (λ best task,
               let score := calculateTaskScore task energyLevel timeInMinutes
                              contextFromMemory projectContext in
               if better score best then Some (task, score) else best)
            None available
  end.

(** *** Strategy evolution *)

Definition getAvailableTasksCount (htaData : HtaData) : Z :=
  let nodes := default [] (frontierNodes htaData) in
  let completedNodeIds := id <$> List.filter completed nodes in
  Z.of_nat (List.length (List.filter
    (λ node,
       if completed node then false
       else match prerequisites node with
            | Some (p :: ps) =>
                forallb
                  (λ prereq,
                     bool_decide (prereq ∈ completedNodeIds)
                     || existsb (λ n, bool_decide (title n = Some prereq)
                                      && completed n) nodes)
                  (p :: ps)
            | _ => true
            end)
    nodes)).

Definition msPerDay : Z := 1000 * 60 * 60 * 24.

(** [now] is the value of [Date.now()]. *)
Definition recentCompletions (now : Z) (learningHistory : LearningHistory)
    : list Topic :=
  match completedTopics learningHistory with
  | Some topics =>
      List.filter
        (λ t, match completedAt t with
              | Some at_ => now - at_ <=? 7 * msPerDay
              | None => false
              end)
        topics
  | None => []
  end.

Definition detectStuckIndicators (now : Z) (htaData : HtaData)
    (learningHistory : LearningHistory) : list string :=
  let indicators := [] in
  let indicators :=
    if getAvailableTasksCount htaData =? 0
    then indicators ++ ["no_available_tasks"] else indicators in
  let recent := recentCompletions now learningHistory in
  let indicators :=
    if Z.of_nat (List.length recent) =? 0
    then indicators ++ ["no_recent_progress"] else indicators in
  let total := foldl (λ sum c, sum + orNum (energyAfter c) 3) 0 recent in
  let count := Z.max (Z.of_nat (List.length recent)) 1 in
  (* avgEngagement = total / count < 2.5 *)
  let indicators :=
    if 2 * total <? 5 * count
    then indicators ++ ["low_engagement"] else indicators in
  indicators.

Record Feedback := {
  sentiment : string;
  keywords : list string;
  original : option string
}.

Definition positiveWords : list string :=
  ["great"; "interesting"; "progress"; "excellent"; "perfect"; "energized";
   "proud"; "good"; "working"].
Definition negativeWords : list string :=
  ["boring"; "stuck"; "difficult"; "difficulty"; "frustrated"; "overwhelmed";
   "bad"; "problem"].

Definition analyzeFeedback (feedback : string) : Feedback :=
  if negb (truthyStr feedback)
  then {| sentiment := "neutral"; keywords := []; original := None |}
  else
    let feedbackLower := toLowerCase feedback in
    let positiveCount :=
      List.length (List.filter (λ w, includes feedbackLower w) positiveWords) in
    let negativeCount :=
      List.length (List.filter (λ w, includes feedbackLower w) negativeWords) in
    let sentiment :=
      if (negativeCount <? positiveCount)%nat then "positive"
      else if (positiveCount <? negativeCount)%nat then "negative"
      else "neutral" in
    {| sentiment := sentiment;
       keywords := List.filter (λ word, 3 <? JS.length word)
                               (splitRuns isSpace feedback);
       original := Some feedback |}.

Record Analysis := {
  completedTasks : Z;
  totalTasks : Z;
  availableCount : Z;      (* [analysis.availableTasks] *)
  stuckIndicators : list string;
  userFeedback : Feedback;
  recommendedEvolution : option string
}.

Definition determineEvolutionStrategy (analysis : Analysis) : string :=
  if bool_decide ("no_available_tasks" ∈ stuckIndicators analysis)
  then "generate_new_tasks"
  else if bool_decide ("low_engagement" ∈ stuckIndicators analysis)
  then "increase_variety_and_interest"
  else if bool_decide (sentiment (userFeedback analysis) = "negative")
  then "address_user_concerns"
  else if availableCount analysis <? 3
  then "expand_task_frontier"
  else "optimize_existing_sequence".

Definition generateExplorationTasks (config : Config) (startId : Z)
    : list Task :=
  let goal := orStr (goal config) "learning" in
  [ {| id := "explore_" +:+ pretty startId;
       title := Some ("Explore: What's Next in " +:+ goal);
       description := Some "Open exploration of next steps and possibilities";
       difficulty := Some 1;
       duration := Some "15 minutes";
       branch := Some "exploration";
       priority := Some 250;
       generated := true;
       learningOutcome := Some "Clarity on next learning directions";
       prerequisites := None; completed := false; opportunityType := None |};
    {| id := "sample_" +:+ pretty (startId + 1);
       title := Some "Sample: Try Something Different";
       description := Some "Experiment with a new approach or technique";
       difficulty := Some 2;
       duration := Some "25 minutes";
       branch := Some "experimentation";
       priority := Some 240;
       generated := true;
       learningOutcome := Some "Experience with alternative approaches";
       prerequisites := None; completed := false; opportunityType := None |} ].

(** The loop [for (i = 0; i < Math.min(3, interests.length); i++)]. *)
Fixpoint interestTasks (interests : list string) (startId i : Z) (fuel : nat)
    : list Task :=
  match fuel, interests with
  | S fuel', interest :: rest =>
      {| id := "interest_" +:+ pretty (startId + i);
         title := Some ("Focus: " +:+ interest);
         description :=
           Some ("Dedicated work on your specific interest: " +:+ interest);
         difficulty := Some 2;
         duration := Some "30 minutes";
         branch := Some "interests";
         priority := Some 300;
         generated := true;
         learningOutcome := Some ("Progress in " +:+ interest);
         prerequisites := None; completed := false; opportunityType := None |}
      :: interestTasks rest startId (i + 1) fuel'
  | _, _ => []
  end.

Definition generateInterestBasedTasks (config : Config) (startId : Z)
    : list Task :=
  let interests := default [] (specific_interests config) in
  interestTasks interests startId 0 3.

Definition generateConcernAddressingTasks (feedback : Feedback) (startId : Z)
    : list Task :=
  [ {| id := "address_" +:+ pretty startId;
       title := Some "Address: Current Challenge";
       description :=
         Some ("Work on overcoming the challenge: "
               +:+ toString (original feedback));
       difficulty := Some 1;
       duration := Some "20 minutes";
       branch := Some "problem_solving";
       priority := Some 280;
       generated := true;
       learningOutcome := Some "Resolution of current learning obstacle";
       prerequisites := None; completed := false; opportunityType := None |} ].

Definition generateProgressiveTasks (htaData : HtaData) (startId : Z)
    : list Task :=
  let completedTasks :=
    List.filter completed (default [] (frontierNodes htaData)) in
  match last completedTasks with
  | None =>
      generateExplorationTasks
        {| goal := Some "general learning"; domain := None;
           learningStyle := None; activePath := None; knowledge_level := None;
           specific_interests := None; context := None |}
        startId
  | Some lastCompleted =>
      [ {| id := "build_" +:+ pretty startId;
           title := Some ("Build On: " +:+ toString (title lastCompleted));
           description :=
             Some ("Continue building on the foundation from "
                   +:+ toString (title lastCompleted));
           difficulty := Some (Z.min 5 (orNum (difficulty lastCompleted) 3 + 1));
           duration := Some "35 minutes";
           branch := Some (orStr (branch lastCompleted) "progression");
           prerequisites := Some [id lastCompleted];
           priority := Some 270;
           generated := true;
           learningOutcome :=
             Some ("Advanced understanding beyond "
                   +:+ toString (title lastCompleted));
           completed := false; opportunityType := None |} ]
  end.

Definition generateBalancedTasks (config : option Config) (htaData : HtaData)
    (startId : Z) : list Task := [].

(** *** The operations on the store

    What a [try] block can throw, and a monad for the code inside it. *)

Inductive Error :=
| NoActiveProject
| ConfigNotFound (operation projectId : string)
| TypeError.

Definition Exn (A : Type) : Type := Error + A.
Definition ret {A} (a : A) : Exn A := inr a.
Definition throw {A} (e : Error) : Exn A := inl e.
Definition bind {A B} (m : Exn A) (k : A → Exn B) : Exn B :=
  match m with
  | inl e => inl e
  | inr a => k a
  end.

Notation "'let*' x ':=' m 'in' k" := (bind m (λ x, k))
  (at level 10, x name, m at level 100, k at level 200, only parsing).

Definition requireActiveProject (st : Store) : Exn string :=
  match activeProject st with
  | Some projectId => ret projectId
  | None => throw NoActiveProject
  end.

Definition loadConfig (st : Store) (projectId : string) : option Config :=
  configs st !! projectId.

(** [hta.json] of the project for the path [general], of the path
    otherwise: one document per project and path. *)
Definition loadPathHTA (st : Store) (projectId pathName : string)
    : option HtaData :=
  htas st !! (projectId, pathName).

Definition savePathHTA (st : Store) (projectId pathName : string)
    (htaData : HtaData) : Store :=
  {| activeProject := activeProject st; configs := configs st;
     htas := <[(projectId, pathName) := htaData]> (htas st);
     histories := histories st; errorLog := errorLog st |}.

Definition loadLearningHistory (st : Store) (projectId pathName : string)
    : option LearningHistory :=
  histories st !! (projectId, pathName).

Definition logError (st : Store) (operation : string) : Store :=
  {| activeProject := activeProject st; configs := configs st;
     htas := htas st; histories := histories st;
     errorLog := errorLog st ++ [operation] |}.

Definition analyzeCurrentStrategy (now : Z) (st : Store)
    (projectId pathName feedback : string) : Analysis :=
  let htaData := default emptyHta (loadPathHTA st projectId pathName) in
  let learningHistory :=
    default {| completedTopics := None |}
            (loadLearningHistory st projectId pathName) in
  let analysis :=
    {| completedTasks :=
         Z.of_nat (List.length
           (List.filter completed (default [] (frontierNodes htaData))));
       totalTasks :=
         Z.of_nat (List.length (default [] (frontierNodes htaData)));
       availableCount := getAvailableTasksCount htaData;
       stuckIndicators := detectStuckIndicators now htaData learningHistory;
       userFeedback := analyzeFeedback feedback;
       recommendedEvolution := None |} in
  {| completedTasks := completedTasks analysis;
     totalTasks := totalTasks analysis;
     availableCount := availableCount analysis;
     stuckIndicators := stuckIndicators analysis;
     userFeedback := userFeedback analysis;
     recommendedEvolution := Some (determineEvolutionStrategy analysis) |}.

(** [newTasks.slice(0, 5)] *)
Definition slice05 (l : list Task) : list Task := take 5 l.

(** A property read of [config] throws when the document is missing. *)
Definition withConfig {A} (config : option Config) (k : Config → A) : Exn A :=
  match config with
  | Some c => ret (k c)
  | None => throw TypeError
  end.

Definition generateSmartNextTasks (st : Store) (projectId pathName : string)
    (analysis : Analysis) : Exn (list Task) :=
  let config := loadConfig st projectId in
  let htaData := default emptyHta (loadPathHTA st projectId pathName) in
  let taskId :=
    Z.of_nat (List.length (default [] (frontierNodes htaData))) + 3000 in
  let strategy := recommendedEvolution analysis in
  let* newTasks :=
    if bool_decide (strategy = Some "generate_new_tasks") then
      withConfig config (λ c, generateExplorationTasks c taskId)
    else if bool_decide (strategy = Some "increase_variety_and_interest") then
      withConfig config (λ c, generateInterestBasedTasks c taskId)
    else if bool_decide (strategy = Some "address_user_concerns") then
      ret (generateConcernAddressingTasks (userFeedback analysis) taskId)
    else if bool_decide (strategy = Some "expand_task_frontier") then
      ret (generateProgressiveTasks htaData taskId)
    else
      ret (generateBalancedTasks config htaData taskId) in
  ret (slice05 newTasks).

Record EvolutionResult := {
  strategy_analysis : Analysis;
  new_tasks : list Task;
  feedback_processed : string
}.

(** The [try] block of [evolveStrategy]; [nowIso] is
    [new Date().toISOString()].  The text of the reply is left out. *)
Definition evolveStrategyTry (now : Z) (nowIso : string) (feedback : string)
    (st : Store) : Exn (EvolutionResult * Store) :=
  let* projectId := requireActiveProject st in
  let* config :=
    match loadConfig st projectId with
    | Some config => ret config
    | None => throw (ConfigNotFound "evolveStrategy" projectId)
    end in
  let activePath := orStr (activePath config) "general" in
  let analysis := analyzeCurrentStrategy now st projectId activePath feedback in
  let* newTasks := generateSmartNextTasks st projectId activePath analysis in
  let st' :=
    if 0 <? Z.of_nat (List.length newTasks) then
      let htaData := default emptyHta (loadPathHTA st projectId activePath) in
      let htaData :=
        {| pathName := pathName htaData; hta_goal := hta_goal htaData;
           strategicBranches := strategicBranches htaData;
           frontierNodes :=
             Some (default [] (frontierNodes htaData) ++ newTasks);
           hta_learningStyle := hta_learningStyle htaData;
           hta_focusAreas := hta_focusAreas htaData;
           hta_knowledgeLevel := hta_knowledgeLevel htaData;
           created := created htaData;
           lastUpdated := Some nowIso |} in
      savePathHTA st projectId activePath htaData
    else st in
  ret ({| strategy_analysis := analysis;
          new_tasks := newTasks;
          feedback_processed := orStr (Some feedback) "none" |}, st').

(** [evolveStrategy]: the [catch] logs the error and replies with it. *)
Definition evolveStrategy (now : Z) (nowIso : string) (feedback : string)
    (st : Store) : Exn EvolutionResult * Store :=
  match evolveStrategyTry now nowIso feedback st with
  | inr (result, st') => (inr result, st')
  | inl error => (inl error, logError st "evolveStrategy")
  end.

Inductive NextTask :=
| NoActionableTasks          (* no document, or no frontier nodes *)
| NoMoreTasks                (* [selectOptimalTask] returned [null] *)
| Selected (selected_task : Task) (score : Z).

Definition getNextTaskTry (contextFromMemory : string) (energyLevel : Z)
    (timeAvailable : string) (st : Store) : Exn NextTask :=
  let* projectId := requireActiveProject st in
  let* config :=
    match loadConfig st projectId with
    | Some config => ret config
    | None => throw (ConfigNotFound "getNextTask" projectId)
    end in
  let projectContext :=
    {| pc_goal := goal config; pc_domain := domain config;
       pc_learningStyle := learningStyle config;
       pc_activePath := orStr (activePath config) "general" |} in
  match loadPathHTA st projectId (pc_activePath projectContext) with
  | None => ret NoActionableTasks
  | Some htaData =>
      match frontierNodes htaData with
      | None | Some [] => ret NoActionableTasks
      | Some (_ :: _) =>
          match selectOptimalTask htaData energyLevel timeAvailable
                  contextFromMemory projectContext with
          | None => ret NoMoreTasks
          | Some (task, score) => ret (Selected task score)
          end
      end
  end.

Definition getNextTask (contextFromMemory : string) (energyLevel : Z)
    (timeAvailable : string) (st : Store) : Exn NextTask * Store :=
  match getNextTaskTry contextFromMemory energyLevel timeAvailable st with
  | inr result => (inr result, st)
  | inl error => (inl error, logError st "getNextTask")
  end.

End TaskIntelligence.

(** ** The comparisons of the source in double precision

    The source compares minutes after multiplying by 1.2, 0.8 and 0.5, and
    an average with 2.5, all in binary64.  These are the comparisons as the
    source writes them, on the doubles of whole numbers; the properties
    below check them against the integer forms used above. *)

Module Double.
Import Floats.PrimFloat.

Definition ofZ (n : Z) : float := of_uint63 (Uint63.of_Z n).

(** The doubles nearest to 1.2 and to 0.8. *)
Definition d1_2 : float := 0x1.3333333333333p+0%float.
Definition d0_8 : float := 0x1.999999999999ap-1%float.

(** [taskMinutes > timeInMinutes * 1.2] *)
Definition exceedsSlot (taskMinutes timeInMinutes : Z) : bool :=
  ltb (mul (ofZ timeInMinutes) d1_2) (ofZ taskMinutes).

(** [timeInMinutes >= taskDuration * 0.8] *)
Definition fitsFourFifths (timeInMinutes taskDuration : Z) : bool :=
  leb (mul (ofZ taskDuration) d0_8) (ofZ timeInMinutes).

(** [timeInMinutes >= taskDuration * 0.5] *)
Definition fitsHalf (timeInMinutes taskDuration : Z) : bool :=
  leb (mul (ofZ taskDuration) 0.5%float) (ofZ timeInMinutes).

(** [total / count < 2.5] *)
Definition belowTwoAndAHalf (total count : Z) : bool :=
  ltb (div (ofZ total) (ofZ count)) 2.5%float.

End Double.

(** ** [HtaTreeBuilder] *)

Module HtaTreeBuilder.
Import JS Model.

(** *** The LLM interface *)

(** What a request carries: the values interpolated into the prompt text
    (the wording of the prompts is not modelled). *)
Inductive Prompt :=
| DomainPrompt (goal : option string)
| SubdomainPrompt (domainTitle : string) (knowledgeLevel : Z)
| TaskPrompt (branch : Branch) (knowledgeLevel : Z) (context : string)
             (interests : list string) (learningStyle : string).

(** The object the interface resolves to. *)
Record LlmResponse := {
  request_for_claude : bool;
  completion : option string;
  answer : option string;
  text : option string
}.

(** [requestIntelligence(type, { prompt })] on an interface in state [O];
    [None] is a [null] or [undefined] reply. *)
Class LlmInterface (O : Type) :=
  requestIntelligence : O → string → Prompt → option LlmResponse * O.

(** [resp.completion || resp.answer || resp.text || '[]'] *)
Definition responseText (resp : LlmResponse) : string :=
  orStr (completion resp) (orStr (answer resp) (orStr (text resp) "[]")).

(** The outcome of [JSON.parse] as its caller looks at it: a thrown
    [SyntaxError], a value that is not an array, or an array. *)
Inductive Parsed (A : Type) :=
| SyntaxError
| NotArray
| Array (elements : list A).
Arguments SyntaxError {A}.
Arguments NotArray {A}.
Arguments Array {A} elements.

(** A task object as the LLM proposes it. *)
Inductive AiDuration :=
| DurNumber (minutes : Z)
| DurText (s : string)
| DurAbsent.

Record AiTask := {
  ai_title : option string;
  ai_description : option string;
  ai_difficulty : option Z;
  ai_duration : AiDuration;
  ai_prerequisites : option (list string);
  ai_opportunityType : option string
}.

Record PendingRequest := {
  claude_request : Prompt;
  request_type : string;
  request_branchId : string;
  request_pathName : string
}.

(** The builder: its LLM interface and its queue of pending requests. *)
Record Builder (O : Type) := {
  llm : O;
  pendingClaudeRequests : list PendingRequest
}.
Arguments llm {O} _.
Arguments pendingClaudeRequests {O} _.

(** *** Slugs *)

(** [s.replace(/C+/g, r)]: every maximal run of characters of the class
    becomes one [r]. *)
Fixpoint replaceRunsL (p : ascii → bool) (r : ascii) (inRun : bool)
    (s : list ascii) : list ascii :=
  match s with
  | [] => []
  | c :: s' =>
      if p c then
        if inRun then replaceRunsL p r true s'
        else r :: replaceRunsL p r true s'
      else c :: replaceRunsL p r false s'
  end.

Definition underscore : ascii := "_"%char.
Definition isUnderscore (c : ascii) : bool := bool_decide (c = underscore).
Definition notSlugChar (c : ascii) : bool :=
  negb (between 97 122 c || isDigit c).

(** [.replace(/[^a-z0-9]+/g, '_')] *)
Definition slugRuns (s : string) : string :=
  str (replaceRunsL notSlugChar underscore false (chars s)).

(** [.replace(/_+/g, '_')] *)
Definition collapseUnderscores (s : string) : string :=
  str (replaceRunsL isUnderscore underscore false (chars s)).

(** [.replace(/^_|_$/g, '')] *)
Definition stripUnderscores (s : string) : string :=
  let dropHead (l : list ascii) :=
    match l with
    | c :: l' => if isUnderscore c then l' else l
    | [] => []
    end in
  str (reverse (dropHead (reverse (dropHead (chars s))))).

(** [area.charAt(0).toUpperCase() + area.slice(1)] *)
Definition capitalize (s : string) : string :=
  match s with
  | String c s' => String (toUpperChar c) s'
  | EmptyString => ""
  end.

Definition estimateDuration (knowledgeLevel : Z) : string :=
  if knowledgeLevel <=? 2 then "0-3 months"
  else if knowledgeLevel <=? 4 then "2-6 months"
  else if knowledgeLevel <=? 6 then "4-9 months"
  else "6-12+ months".

(** [list.map((x, idx) => f(x, idx))] *)
Definition mapi {A B} (f : A → Z → B) (l : list A) : list B :=
  imap (λ idx x, f x (Z.of_nat idx)) l.

Section WithOracle.
Context {O : Type} `{LlmInterface O}.
Variable JSON_parse_strings : string → Parsed string.
Variable JSON_parse_tasks : string → Parsed AiTask.

(** *** Branches and sub-branches *)

Definition subBranchOf (domainTitle : string) (title description : string)
    (idx : Z) : SubBranch :=
  {| sub_id :=
       collapseUnderscores
         (slugRuns (toLowerCase domainTitle) +:+ "_sub_" +:+ pretty (idx + 1));
     sub_title := title;
     sub_description :=
       "Sub-domain of " +:+ domainTitle +:+ ": " +:+ description |}.

(** The heuristic that follows the [try] block of [generateSubBranches]. *)
Definition heuristicSubBranches (domainTitle : string) : list SubBranch :=
  let words :=
    List.filter (λ w, 3 <? JS.length w) (splitRuns isSpace domainTitle) in
  match words with
  | first :: second :: _ =>
      mapi (λ w idx, subBranchOf domainTitle (capitalize w) w idx)
           [first; second]
  | _ => []
  end.

Definition generateSubBranches (o : O) (domainTitle : string)
    (knowledgeLevel : Z) : list SubBranch * O :=
  let '(resp, o) :=
    requestIntelligence o "hta-subdomain-generation"
                        (SubdomainPrompt domainTitle knowledgeLevel) in
  let fromLlm :=
    match resp with
    | Some resp =>
        if negb (request_for_claude resp) then
          match JSON_parse_strings (responseText resp) with
          | Array (s :: parsed) =>
              Some (mapi (λ s idx, subBranchOf domainTitle s s idx)
                         (take 3 (s :: parsed)))
          | _ => None
          end
        else None
    | None => None
    end in
  (default (heuristicSubBranches domainTitle) fromLlm, o).

(** The loops [for (const branch of branches)] that fill in
    [branch.subBranches]. *)
Fixpoint enrich (o : O) (knowledgeLevel : Z) (branches : list Branch)
    : list Branch * O :=
  match branches with
  | [] => ([], o)
  | branch :: rest =>
      let '(subs, o) :=
        generateSubBranches o (branch_title branch) knowledgeLevel in
      let branch :=
        {| branch_id := branch_id branch;
           branch_title := branch_title branch;
           branch_priority := branch_priority branch;
           branch_completed := branch_completed branch;
           branch_description := branch_description branch;
           expected_duration := expected_duration branch;
           subBranches := subs |} in
      let '(rest, o) := enrich o knowledgeLevel rest in
      (branch :: rest, o)
  end.

Definition focusBranch (knowledgeLevel : Z) (raw : string) : Branch :=
  let area := trim raw in
  {| branch_id :=
       stripUnderscores
         (collapseUnderscores ("focus_" +:+ slugRuns (toLowerCase area)));
     branch_title := capitalize area;
     branch_priority := "high";
     branch_completed := false;
     branch_description :=
       "Roadmap for developing expertise in " +:+ area;
     expected_duration := estimateDuration knowledgeLevel;
     subBranches := [] |}.

Definition domainBranch (knowledgeLevel : Z) (d : string) (idx : Z) : Branch :=
  {| branch_id := "domain_" +:+ pretty (idx + 1);
     branch_title := d;
     branch_priority := "high";
     branch_completed := false;
     branch_description := "Roadmap for " +:+ d;
     expected_duration := estimateDuration knowledgeLevel;
     subBranches := [] |}.

(** The domains read from the LLM's reply; [[]] when there is no usable
    reply, [None] when the parsed value is not an array. *)
Definition proposedDomains (aiResp : option LlmResponse)
    : option (list string) :=
  match aiResp with
  | Some resp =>
      if negb (request_for_claude resp) then
        match JSON_parse_strings (responseText resp) with
        | Array domains => Some domains
        | NotArray => None
        | SyntaxError => Some []
        end
      else Some []
  | None => Some []
  end.

Definition generateStrategicBranches (o : O) (goal : option string)
    (pathName : string) (focusAreas : list string) (knowledgeLevel : Z)
    : list Branch * O :=
  match focusAreas with
  | _ :: _ =>
      let customBranches := focusBranch knowledgeLevel <$> focusAreas in
      enrich o knowledgeLevel customBranches
  | [] =>
      let '(aiResp, o) :=
        requestIntelligence o "hta-domain-generation" (DomainPrompt goal) in
      let domains :=
        match proposedDomains aiResp with
        | Some (d :: ds) => d :: ds
        | _ => ["General"]
        end in
      let branches := mapi (domainBranch knowledgeLevel) domains in
      enrich o knowledgeLevel branches
  end.

(** *** Frontier nodes *)

(** The post-processing that [generateBranchNodesAI] applies to each
    proposed task, by knowledge-level band. *)
Definition capDuration (cap : Z) (d : AiDuration) : AiDuration :=
  match d with
  | DurNumber n => DurNumber (Z.min cap n)
  | _ => d
  end.

Definition withDifficulty (t : AiTask) (difficulty : Z) (duration : AiDuration)
    : AiTask :=
  {| ai_title := ai_title t; ai_description := ai_description t;
     ai_difficulty := Some difficulty; ai_duration := duration;
     ai_prerequisites := ai_prerequisites t;
     ai_opportunityType := ai_opportunityType t |}.

Definition clampToLevel (knowledgeLevel : Z) (t : AiTask) : AiTask :=
  if knowledgeLevel <=? 2 then
    withDifficulty t 1 (capDuration 25 (ai_duration t))
  else if knowledgeLevel <=? 4 then
    withDifficulty t (Z.min 2 (Z.max 1 (orNum (ai_difficulty t) 1)))
                   (capDuration 45 (ai_duration t))
  else if knowledgeLevel <=? 6 then
    withDifficulty t (Z.min 3 (Z.max 1 (orNum (ai_difficulty t) 2)))
                   (capDuration 60 (ai_duration t))
  else
    withDifficulty t (Z.min 5 (Z.max 1 (orNum (ai_difficulty t) 3)))
                   (ai_duration t).

(** [typeof t.duration === 'number' ? `${t.duration} minutes`
                                     : (t.duration || '30 minutes')];
    [pretty] writes a whole number in decimal, as the template does for a
    magnitude below 10^21. *)
Definition durationText (d : AiDuration) : string :=
  match d with
  | DurNumber n => pretty n +:+ " minutes"
  | DurText s => orStr (Some s) "30 minutes"
  | DurAbsent => "30 minutes"
  end.

Definition toNode (branch : Branch) (startNodeId : Z) (t : AiTask) (i : Z)
    : Task :=
  {| id := "node_" +:+ pretty (startNodeId + i);
     title := ai_title t;
     description := ai_description t;
     branch := Some (branch_id branch);
     difficulty := Some (orNum (ai_difficulty t) 1);
     priority := Some (200 + orNum (ai_difficulty t) 1 * 10);
     duration := Some (durationText (ai_duration t));
     prerequisites := Some (default [] (ai_prerequisites t));
     completed := false;
     generated := false;
     opportunityType :=
       match ai_opportunityType t with
       | Some s => if truthyStr s then Some s else None
       | None => None
       end;
     learningOutcome := None |}.

Definition generateFallbackTasks (branch : Branch) (knowledgeLevel : Z)
    (interests : list string) : list AiTask := [].

(** The first half of [generateBranchNodesAI]: the request, and the
    value it leaves in [tasks] together with the builder after it. *)
Definition requestTasks (b : Builder O) (branch : Branch)
    (interests : list string) (learningStyle : string) (knowledgeLevel : Z)
    (context : string) : list AiTask * Builder O :=
  let prompt :=
    TaskPrompt branch knowledgeLevel context interests learningStyle in
  let '(aiResponse, o) :=
    requestIntelligence (llm b) "hta-task-generation" prompt in
  let '(tasks, pending) :=
    match aiResponse with
    | Some resp =>
        if request_for_claude resp then
          ([],
           pendingClaudeRequests b ++
           [ {| claude_request := prompt; request_type := "tasks";
                request_branchId := branch_id branch;
                request_pathName := branch_title branch |} ])
        else
          match JSON_parse_tasks (responseText resp) with
          | Array (t :: ts) => (t :: ts, pendingClaudeRequests b)
          | _ =>
              (generateFallbackTasks branch knowledgeLevel interests,
               pendingClaudeRequests b)
          end
    | None =>
        (generateFallbackTasks branch knowledgeLevel interests,
         pendingClaudeRequests b)
    end in
  (tasks, {| llm := o; pendingClaudeRequests := pending |}).

Definition generateBranchNodesAI (b : Builder O) (branch : Branch)
    (interests : list string) (learningStyle : string) (knowledgeLevel : Z)
    (completedTasks : list (option string)) (startNodeId : Z)
    (context : string) : list Task * Builder O :=
  let '(tasks, b) :=
    requestTasks b branch interests learningStyle knowledgeLevel context in
  let filtered :=
    clampToLevel knowledgeLevel <$>
    List.filter (λ t, negb (bool_decide (ai_title t ∈ completedTasks))) tasks in
  (mapi (toNode branch startNodeId) filtered, b).

Definition idealDifficulty (knowledgeLevel : Z) : Z :=
  if knowledgeLevel <=? 2 then 1
  else if knowledgeLevel <=? 4 then 2
  else if knowledgeLevel <=? 6 then 3
  else Z.min (knowledgeLevel - 2) 5.

(** The comparator of [sortNodesBySequence].  A subtraction on an absent
    field is [NaN], which [sort] takes for 0. *)
Definition compareNodes (knowledgeLevel : Z) (a b : Task) : Z :=
  let byDifficulty :=
    match difficulty a, difficulty b with
    | Some da, Some db =>
        Z.abs (da - idealDifficulty knowledgeLevel)
        - Z.abs (db - idealDifficulty knowledgeLevel)
    | _, _ => 0
    end in
  match priority a, priority b with
  | Some pa, Some pb => if bool_decide (pa ≠ pb) then pb - pa else byDifficulty
  | None, None => byDifficulty
  | _, _ => 0
  end.

(** [Array.prototype.sort] is stable: insertion after the elements that
    do not compare greater. *)
Fixpoint insertNode (knowledgeLevel : Z) (x : Task) (sorted : list Task)
    : list Task :=
  match sorted with
  | [] => [x]
  | y :: rest =>
      if compareNodes knowledgeLevel x y <=? 0 then x :: y :: rest
      else y :: insertNode knowledgeLevel x rest
  end.

Definition sortNodesBySequence (frontierNodes : list Task)
    (knowledgeLevel : Z) : list Task :=
  foldr (insertNode knowledgeLevel) [] frontierNodes.

(** The loop over [strategicBranches], carrying [frontierNodes] and
    [nodeId]. *)
Fixpoint branchLoop (b : Builder O) (strategicBranches : list Branch)
    (interests : list string) (learningStyle : string) (knowledgeLevel : Z)
    (completedTasks : list (option string)) (context : string)
    (frontierNodes : list Task) (nodeId : Z) : list Task * Builder O :=
  match strategicBranches with
  | [] => (frontierNodes, b)
  | branch :: rest =>
      let '(aiNodes, b) :=
        generateBranchNodesAI b branch interests learningStyle
          knowledgeLevel completedTasks nodeId context in
      branchLoop b rest interests learningStyle knowledgeLevel
        completedTasks context (frontierNodes ++ aiNodes)
        (nodeId + Z.of_nat (List.length aiNodes))
  end.

Definition generateSequencedFrontierNodes (b : Builder O)
    (strategicBranches : list Branch) (interests : list string)
    (learningStyle : string) (knowledgeLevel : Z)
    (existingHTA : option HtaData) (context : string)
    : list Task * Builder O :=
  let completedTasks :=
    match existingHTA with
    | Some hta =>
        match frontierNodes hta with
        | Some nodes => title <$> List.filter completed nodes
        | None => []
        end
    | None => []
    end in
  let '(frontierNodes, b) :=
    branchLoop b strategicBranches interests learningStyle knowledgeLevel
      completedTasks context [] 1 in
  (sortNodesBySequence frontierNodes knowledgeLevel, b).

(** [generateHTAFramework]; the source also reads the path's interests
    here and does not use them.  [nowIso] is [new Date().toISOString()]. *)
Definition generateHTAFramework (nowIso : string) (b : Builder O)
    (config : Config) (pathName learningStyle : string)
    (focusAreas : list string) (existingHTA : option HtaData)
    : HtaData * Builder O :=
  let knowledgeLevel := orNum (knowledge_level config) 1 in
  let '(strategicBranches, o) :=
    generateStrategicBranches (llm b) (goal config) pathName focusAreas
      knowledgeLevel in
  ({| Model.pathName := Some pathName;
      hta_goal := goal config;
      Model.strategicBranches := strategicBranches;
      frontierNodes := Some [];
      hta_learningStyle := Some learningStyle;
      hta_focusAreas := focusAreas;
      hta_knowledgeLevel := Some knowledgeLevel;
      created := Some nowIso;
      lastUpdated := Some nowIso |},
   {| llm := o; pendingClaudeRequests := pendingClaudeRequests b |}).

End WithOracle.

End HtaTreeBuilder.

(** ** Notions of the specification

    Definitions that follow the words of the specification, to be compared
    with the code above. *)

Module Spec.
Import JS.

(** One of the words minute, hour, min, hr, in any mix of cases. *)
Definition isUnitWord (w : list ascii) : Prop :=
  str (toLowerChar <$> w) ∈ Minutes.units.

(** The string contains a number followed by a minute or hour unit:
    digits, optional white space, a unit word. *)
Definition hasTimeExpression (s : string) : Prop :=
  ∃ pre ds ws w post,
    chars s = pre ++ ds ++ ws ++ w ++ post
    ∧ ds ≠ []
    ∧ Forall (λ c, isDigit c = true) ds
    ∧ Forall (λ c, isSpace c = true) ws
    ∧ isUnitWord w.

(** The task with its duration replaced. *)
Definition withDuration (task : Model.Task) (d : string) : Model.Task :=
  {| Model.id := Model.id task; Model.title := Model.title task;
     Model.description := Model.description task;
     Model.branch := Model.branch task;
     Model.difficulty := Model.difficulty task;
     Model.priority := Model.priority task;
     Model.duration := Some d;
     Model.prerequisites := Model.prerequisites task;
     Model.completed := Model.completed task;
     Model.generated := Model.generated task;
     Model.opportunityType := Model.opportunityType task;
     Model.learningOutcome := Model.learningOutcome task |}.

(** A prerequisite reference resolves to a completed task of the
    document: it is the id or the title of a completed task. *)
Definition resolvesToCompleted (nodes : list Model.Task) (prereq : string)
    : Prop :=
  ∃ n, n ∈ nodes ∧ Model.completed n = true
       ∧ (Model.id n = prereq ∨ Model.title n = Some prereq).

(** The frontier nodes of a document and the prerequisites of a task,
    empty when the field is absent. *)
Definition nodesOf (htaData : Model.HtaData) : list Model.Task :=
  default [] (Model.frontierNodes htaData).
Definition prerequisitesOf (task : Model.Task) : list string :=
  default [] (Model.prerequisites task).

(** Rules 1 and 2 of admission: the task is open and every prerequisite
    resolves to a completed task. *)
Definition admissible (nodes : list Model.Task) (task : Model.Task) : Prop :=
  Model.completed task = false
  ∧ Forall (resolvesToCompleted nodes) (prerequisitesOf task).

(** The mean energy after completion over the window is below 2.5; the
    mean over an empty window is taken as 0, as the code does. *)
Definition energyOf (c : Model.Topic) : Z := JS.orNum (Model.energyAfter c) 3.
Definition meanEnergyBelow2_5 (window : list Model.Topic) : bool :=
  2 * foldr Z.add 0 (energyOf <$> window)
  <? 5 * Z.max (Z.of_nat (List.length window)) 1.

(** The decision table of strategy evolution: rows in priority order, the
    first row whose condition holds wins. *)
Inductive Diagnosis :=
| GenerateNewTasks
| IncreaseVariety
| AddressConcerns
| ExpandFrontier
| OptimizeExisting.

Definition firstMatch (rows : list (bool * Diagnosis)) (otherwise : Diagnosis)
    : Diagnosis :=
  match List.filter fst rows with
  | (_, d) :: _ => d
  | [] => otherwise
  end.

Definition decisionTable (noAvailableTasks lowEngagement negativeSentiment : bool)
    (admissibleCount : Z) : Diagnosis :=
  firstMatch
    [ (noAvailableTasks, GenerateNewTasks);
      (lowEngagement, IncreaseVariety);
      (negativeSentiment, AddressConcerns);
      (admissibleCount <? 3, ExpandFrontier) ]
    OptimizeExisting.

(** The names the code gives to the diagnoses. *)
Definition diagnosisName (d : Diagnosis) : string :=
  match d with
  | GenerateNewTasks => "generate_new_tasks"
  | IncreaseVariety => "increase_variety_and_interest"
  | AddressConcerns => "address_user_concerns"
  | ExpandFrontier => "expand_task_frontier"
  | OptimizeExisting => "optimize_existing_sequence"
  end.

(** A synthesized task: marked generated, with a priority above the
    generator's base priority of 200. *)
Definition boosted (task : Model.Task) : Prop :=
  Model.generated task = true
  ∧ ∃ p, Model.priority task = Some p ∧ 200 < p.

(** The document that [evolveStrategy] works on: the active path of the
    active project, when there is a configured active project. *)
Definition activeDocument (st : Model.Store) : option (string * string) :=
  projectId ← Model.activeProject st;
  config ← Model.configs st !! projectId;
  Some (projectId, JS.orStr (Model.activePath config) "general").

(** The frontier nodes stored under a key. *)
Definition storedNodes (st : Model.Store) (key : string * string)
    : list Model.Task :=
  nodesOf (default Model.emptyHta (Model.htas st !! key)).

End Spec.

(** ** Sample documents *)

Module Examples.
Import Model.

Definition mkTask (id title : string) (difficulty : Z) (duration : string)
    (prerequisites : list string) (completed : bool) : Task :=
  {| id := id; title := Some title; description := Some "";
     branch := Some "general"; difficulty := Some difficulty;
     priority := Some 200; duration := Some duration;
     prerequisites := Some prerequisites; completed := completed;
     generated := false; opportunityType := None; learningOutcome := None |}.

Definition mkHta (nodes : list Task) : HtaData :=
  {| pathName := Some "general"; hta_goal := Some "Learn guitar";
     strategicBranches := []; frontierNodes := Some nodes;
     hta_learningStyle := Some "mixed"; hta_focusAreas := [];
     hta_knowledgeLevel := Some 1; created := None; lastUpdated := None |}.

(** A document with one completed task, referred to by id and by title,
    an open task, and a reference that names no task. *)
Definition tuning : Task := mkTask "A" "Tune the guitar" 1 "10 minutes" [] true.
Definition holding : Task := mkTask "B" "Hold the guitar" 1 "10 minutes" [] false.
Definition byId : Task := mkTask "C" "First chord" 1 "15 minutes" ["A"] false.
Definition byTitle : Task :=
  mkTask "D" "Second chord" 1 "15 minutes" ["Tune the guitar"] false.
Definition onOpen : Task := mkTask "E" "Strumming" 2 "15 minutes" ["B"] false.
Definition onAbsent : Task := mkTask "F" "Barre chords" 3 "15 minutes" ["Z"] false.
Definition chords : HtaData :=
  mkHta [tuning; holding; byId; byTitle; onOpen; onAbsent].

(** A 12-minute and a 13-minute task. *)
Definition twelve : Task := mkTask "n12" "Twelve" 1 "12 minutes" [] false.
Definition thirteen : Task := mkTask "n13" "Thirteen" 1 "13 minutes" [] false.
Definition shortSlot : HtaData := mkHta [twelve; thirteen].

(** The scoring scenario: energy 3, 30 minutes, a task on the goal and a
    task off it. *)
Definition guitarContext : TaskIntelligence.ProjectContext :=
  {| TaskIntelligence.pc_goal := Some "Learn guitar";
     TaskIntelligence.pc_domain := Some "music";
     TaskIntelligence.pc_learningStyle := Some "mixed";
     TaskIntelligence.pc_activePath := "general" |}.
Definition taskA : Task :=
  {| id := "node_1"; title := Some "Guitar scales";
     description := Some "Practise the major scale";
     branch := Some "domain_1"; difficulty := Some 3; priority := Some 200;
     duration := Some "25 minutes"; prerequisites := Some [];
     completed := false; generated := false; opportunityType := None;
     learningOutcome := None |}.
Definition taskB : Task :=
  {| id := "node_2"; title := Some "Stretch";
     description := Some "Warm up the hands";
     branch := Some "domain_1"; difficulty := Some 1; priority := Some 200;
     duration := Some "5 minutes"; prerequisites := Some [];
     completed := false; generated := false; opportunityType := None;
     learningOutcome := None |}.
Definition scenario : HtaData := mkHta [taskA; taskB].

(** A project whose only open task waits on a task that does not exist,
    and one with an open task ready; no learning history is stored. *)
Definition guitarConfig : Config :=
  {| goal := Some "Learn guitar"; domain := Some "music";
     learningStyle := Some "mixed"; activePath := None;
     knowledge_level := Some 1;
     specific_interests := Some ["blues"; "fingerstyle"];
     context := Some "Complete beginner" |}.

Definition storeWith (htaData : HtaData) : Store :=
  {| activeProject := Some "guitar";
     configs := {[ "guitar" := guitarConfig ]};
     htas := {[ ("guitar", "general") := htaData ]};
     histories := ∅;
     errorLog := [] |}.

Definition stalled : HtaData := mkHta [tuning; onAbsent].
Definition stalledStore : Store := storeWith stalled.
Definition readyStore : Store := storeWith chords.
Definition noHistory : LearningHistory := {| completedTopics := None |}.

(** *** LLM interfaces *)

Import HtaTreeBuilder.

Definition dq : string := String (ascii_of_nat 34) "".
Definition quoted (s : string) : string := dq +:+ s +:+ dq.
Definition field (name value : string) : string := quoted name +:+ ":" +:+ value.

(** An interface that always answers with the same text. *)
Definition answering (reply : string) : LlmInterface unit :=
  λ _ _ _,
    (Some {| request_for_claude := false; completion := Some reply;
             answer := None; text := None |}, tt).

(** The interface of the server itself: every request is handed back. *)
Definition deferring : LlmInterface unit :=
  λ _ _ _,
    (Some {| request_for_claude := true; completion := None;
             answer := None; text := None |}, tt).

(** [JSON.parse] on the one text it is given here. *)
Definition parsing {A} (reply : string) (value : list A) (s : string)
    : Parsed A :=
  if bool_decide (s = reply) then Array value else SyntaxError.

Definition noStrings (s : string) : Parsed string := SyntaxError.

(** A proposal that ignores the beginner band: difficulty 5, two hours
    given as text. *)
Definition songText : string :=
  "[{" +:+ field "title" (quoted "Play a full song") +:+ ","
  +:+ field "difficulty" "5" +:+ ","
  +:+ field "duration" (quoted "2 hours") +:+ "}]".
Definition song : AiTask :=
  {| ai_title := Some "Play a full song"; ai_description := None;
     ai_difficulty := Some 5; ai_duration := DurText "2 hours";
     ai_prerequisites := None; ai_opportunityType := None |}.

(** A proposal for a beginner that gives no duration. *)
Definition holdText : string :=
  "[{" +:+ field "title" (quoted "Hold the guitar") +:+ ","
  +:+ field "difficulty" "1" +:+ "}]".
Definition hold : AiTask :=
  {| ai_title := Some "Hold the guitar"; ai_description := None;
     ai_difficulty := Some 1; ai_duration := DurAbsent;
     ai_prerequisites := None; ai_opportunityType := None |}.

(** A proposal that ignores the beginner band with the duration as the
    number 120. *)
Definition soloText : string :=
  "[{" +:+ field "title" (quoted "Play a solo") +:+ ","
  +:+ field "difficulty" "5" +:+ ","
  +:+ field "duration" "120" +:+ "}]".
Definition solo : AiTask :=
  {| ai_title := Some "Play a solo"; ai_description := None;
     ai_difficulty := Some 5; ai_duration := DurNumber 120;
     ai_prerequisites := None; ai_opportunityType := None |}.

(** A proposal that repeats a finished task. *)
Definition tuneText : string :=
  "[{" +:+ field "title" (quoted "Tune the guitar") +:+ "},{"
  +:+ field "title" (quoted "Play a solo") +:+ "}]".
Definition tune : AiTask :=
  {| ai_title := Some "Tune the guitar"; ai_description := None;
     ai_difficulty := None; ai_duration := DurAbsent;
     ai_prerequisites := None; ai_opportunityType := None |}.

Definition basics : Branch :=
  {| branch_id := "domain_1"; branch_title := "Basics";
     branch_priority := "high"; branch_completed := false;
     branch_description := "Roadmap for Basics";
     expected_duration := "0-3 months"; subBranches := [] |}.

Definition freshBuilder : Builder unit :=
  {| llm := tt; pendingClaudeRequests := [] |}.

End Examples.

(** ** The reply of [getNextTask]

    [formatTaskResponse] and the two texts it asks for.  The reply is kept
    as the values that the template interpolates, together with the
    number of code units it has when written out; the two match texts are
    enumerated, with the number they quote. *)

Module TaskResponse.
Import JS Model TaskIntelligence.

Inductive EnergyMatch :=
| ExcellentMatch             (* Excellent match *)
| GoodMatch                  (* Good match *)
| ConsiderAdjusting.         (* Consider adjusting energy or task difficulty *)

Definition getEnergyMatchText (taskDifficulty energyLevel : Z) : EnergyMatch :=
  let diff := Z.abs (taskDifficulty - energyLevel) in
  if diff <=? 1 then ExcellentMatch
  else if diff <=? 2 then GoodMatch
  else ConsiderAdjusting.

Inductive TimeMatch :=
| PerfectFit                       (* Perfect fit *)
| CloseFit                         (* Close fit (consider extending slightly) *)
| TooLong (adaptation : Z)         (* Too long - try for N minutes instead *)
| MuchTooLong (adaptation : Z).    (* Much too long - do first N minutes only *)

(** [Math.round(availableMinutes * 0.8)]: the nearest whole number, halves
    upwards. *)
Definition roundFourFifths (availableMinutes : Z) : Z :=
  (8 * availableMinutes + 5) `div` 10.

Definition getTimeMatchText (taskDuration timeAvailable : string) : TimeMatch :=
  let taskMinutes := parseTimeToMinutes taskDuration in
  let availableMinutes := parseTimeToMinutes timeAvailable in
  if taskMinutes <=? availableMinutes then PerfectFit
  else if 5 * taskMinutes <=? 6 * availableMinutes then CloseFit
  else if 2 * taskMinutes <=? 3 * availableMinutes
  then TooLong (roundFourFifths availableMinutes)
  else MuchTooLong (roundFourFifths availableMinutes).

Record Response := {
  shown_title : string;
  shown_description : string;
  shown_duration : string;
  difficultyStars : Z;                  (* the number of stars *)
  shown_difficulty : Z;
  shown_branch : string;
  shown_learningOutcome : option string;
  energy_match : EnergyMatch;
  time_match : TimeMatch;
  block_id : string
}.

(** The number of code units of the two texts. *)
Definition energyMatchLength (m : EnergyMatch) : Z :=
  match m with
  | ExcellentMatch => 15
  | GoodMatch => 10
  | ConsiderAdjusting => 44
  end.

Definition timeMatchLength (m : TimeMatch) : Z :=
  match m with
  | PerfectFit => 13
  | CloseFit => 39
  | TooLong adaptation => 35 + JS.length (pretty adaptation)
  | MuchTooLong adaptation => 38 + JS.length (pretty adaptation)
  end.

(** The number of code units of the reply, line by line of the template:
    the fixed text of each line and what is interpolated into it. *)
Definition responseLength (r : Response) : Z :=
  30
  + (5 + JS.length (shown_title r))
  + (2 + JS.length (shown_description r))
  + (18 + JS.length (shown_duration r))
  + (20 + difficultyStars r + JS.length (pretty (shown_difficulty r)))
  + (16 + JS.length (shown_branch r))
  + match shown_learningOutcome r with
    | Some outcome => 26 + JS.length outcome
    | None => 0
    end
  + (22 + energyMatchLength (energy_match r))
  + (19 + timeMatchLength (time_match r))
  + (55 + JS.length (block_id r)).

(** What the template of [formatTaskResponse] interpolates. *)
Definition templateValues (task : Task) (energyLevel : Z)
    (timeAvailable : string) : Response :=
  let duration := orStr (duration task) "30 minutes" in
  {| shown_title := toString (title task);
     shown_description := orStr (description task) "No description available";
     shown_duration := duration;
     difficultyStars := orNum (difficulty task) 1;
     shown_difficulty := orNum (difficulty task) 1;
     shown_branch := orStr (branch task) "general";
     shown_learningOutcome :=
       match learningOutcome task with
       | Some s => if truthyStr s then Some s else None
       | None => None
       end;
     energy_match := getEnergyMatchText (orNum (difficulty task) 3) energyLevel;
     time_match := getTimeMatchText duration timeAvailable;
     block_id := id task |}.

(** What the [try] block of [getNextTask] can throw: the errors of the
    selection, and the two [RangeError]s of the line of stars, for a
    negative count and for a string longer than the engine allows. *)
Inductive Failure :=
| Thrown (error : Error)
| InvalidCount               (* Invalid count value *)
| InvalidStringLength.       (* Invalid string length *)

Section WithEngine.
(** The longest string of the engine, in code units.
    [String.prototype.repeat] and the concatenations of the template throw
    on a longer result; the strings only grow, so one of them throws when
    the whole reply is too long.  The engine is taken to have the memory
    for every string within the limit. *)
Variable maxStringLength : Z.

Definition formatTaskResponse (task : Task) (energyLevel : Z)
    (timeAvailable : string) : Failure + Response :=
  let stars := orNum (difficulty task) 1 in
  if stars <? 0 then inl InvalidCount
  else
    let response := templateValues task energyLevel timeAvailable in
    if maxStringLength <? responseLength response then inl InvalidStringLength
    else inr response.

(** [getNextTask] with the text of its reply: the selection of
    [getNextTaskTry], then [formatTaskResponse] inside the same [try]
    block. *)
Definition getNextTaskReply (contextFromMemory : string) (energyLevel : Z)
    (timeAvailable : string) (st : Store)
    : (Failure + NextTask * option Response) * Store :=
  match getNextTaskTry contextFromMemory energyLevel timeAvailable st with
  | inl error => (inl (Thrown error), logError st "getNextTask")
  | inr (Selected task score) =>
      match formatTaskResponse task energyLevel timeAvailable with
      | inl failure => (inl failure, logError st "getNextTask")
      | inr response => (inr (Selected task score, Some response), st)
      end
  | inr other => (inr (other, None), st)
  end.

End WithEngine.

End TaskResponse.

(** The comparisons and the rounding of [getTimeMatchText] in double
    precision. *)

Module DoubleMatch.
Import Floats.PrimFloat.
Import Double.

(** [taskMinutes <= availableMinutes * 1.2] *)
Definition withinSlot (taskMinutes availableMinutes : Z) : bool :=
  leb (ofZ taskMinutes) (mul (ofZ availableMinutes) d1_2).

(** [taskMinutes <= availableMinutes * 1.5] *)
Definition withinHalfAgain (taskMinutes availableMinutes : Z) : bool :=
  leb (ofZ taskMinutes) (mul (ofZ availableMinutes) 1.5%float).

(** [Math.round(availableMinutes * 0.8) = k]: the product lies in
    [k - 0.5, k + 0.5). *)
Definition roundsTo (availableMinutes k : Z) : bool :=
  let x := mul (ofZ availableMinutes) d0_8 in
  leb (sub (ofZ k) 0.5%float) x && ltb x (add (ofZ k) 0.5%float).

End DoubleMatch.

(** ** [buildHTATree]

    The entry point of [HtaTreeBuilder]: it works on the store and on the
    builder.  [config.learning_paths] is a field of [config.json] that no
    operation modelled here writes; it is given as a function from the
    project to the names of its learning paths ([p.path_name]), [None]
    when the field is absent. *)

Module TreeBuild.
Import JS Model TaskIntelligence HtaTreeBuilder.

(** What the [try] block of [buildHTATree] throws. *)
Inductive BuildError :=
| NoProject                               (* [requireActiveProject] *)
| ConfigurationNotFound                   (* Project configuration not found *)
| PathNotFound (targetPath : string).     (* Learning path ... not found *)

Inductive BuildReply :=
| NeedsContext                            (* needs_context, missing: context *)
| PendingClaude (pending_claude : PendingRequest)
| Built (hta_tree : HtaData) (active_path : string).

(** [saveProjectData(projectId, 'config.json', config)] *)
Definition saveConfig (st : Store) (projectId : string) (config : Config)
    : Store :=
  {| activeProject := activeProject st;
     configs := <[projectId := config]> (configs st);
     htas := htas st; histories := histories st; errorLog := errorLog st |}.

(** [config.activePath = targetPath] *)
Definition withActivePath (config : Config) (targetPath : string) : Config :=
  {| goal := goal config; domain := domain config;
     learningStyle := learningStyle config;
     activePath := Some targetPath;
     knowledge_level := knowledge_level config;
     specific_interests := specific_interests config;
     context := context config |}.

(** [!config.context || config.context.trim() === ''] *)
Definition contextMissing (config : Config) : bool :=
  match context config with
  | Some c => negb (truthyStr c) || bool_decide (trim c = "")
  | None => true
  end.

Section WithOracle.
Context {O : Type} `{LlmInterface O}.
Variable JSON_parse_strings : string → Parsed string.
Variable learning_paths : string → option (list string).

(** [config.learning_paths?.some(p => p.path_name === targetPath)
     || targetPath === 'general'] *)
Definition pathExists (projectId targetPath : string) : bool :=
  match learning_paths projectId with
  | Some names => bool_decide (targetPath ∈ names)
  | None => false
  end
  || bool_decide (targetPath = "general").

(** The [try] block; [pathName] is [None] for [null] or [undefined]. *)
Definition buildHTATreeTry (nowIso : string) (pathName : option string)
    (learningStyle : string) (focusAreas : list string)
    (st : Store) (b : Builder O)
    : BuildError + BuildReply * Store * Builder O :=
  match activeProject st with
  | None => inl NoProject
  | Some projectId =>
      match loadConfig st projectId with
      | None => inl ConfigurationNotFound
      | Some config =>
          if contextMissing config then inr (NeedsContext, st, b)
          else
            let targetPath :=
              orStr pathName (orStr (activePath config) "general") in
            if negb (pathExists projectId targetPath)
            then inl (PathNotFound targetPath)
            else
              let existingHTA := loadPathHTA st projectId targetPath in
              let '(htaData, b) :=
                generateHTAFramework JSON_parse_strings nowIso b config
                  targetPath learningStyle focusAreas existingHTA in
              let st := savePathHTA st projectId targetPath htaData in
              let st := saveConfig st projectId
                          (withActivePath config targetPath) in
              match pendingClaudeRequests b with
              | pending :: _ =>
                  if Z.of_nat (List.length
                                 (default [] (frontierNodes htaData))) =? 0
                  then inr (PendingClaude pending, st, b)
                  else inr (Built htaData targetPath, st, b)
              | [] => inr (Built htaData targetPath, st, b)
              end
      end
  end.

(** [buildHTATree]: the [catch] logs the error and replies with it. *)
Definition buildHTATree (nowIso : string) (pathName : option string)
    (learningStyle : string) (focusAreas : list string)
    (st : Store) (b : Builder O)
    : (BuildError + BuildReply) * Store * Builder O :=
  match buildHTATreeTry nowIso pathName learningStyle focusAreas st b with
  | inr (reply, st', b') => (inr reply, st', b')
  | inl error => (inl error, logError st "buildHTATree", b)
  end.

End WithOracle.

End TreeBuild.

(** ** [storeGeneratedTasks] and [getGenerationHistory]

    The two operations of the server that take in the tasks an LLM
    client generated for the queued requests.  They act on the documents
    of the store and on the log [collaborative_sessions] that they keep
    inside each [hta.json].  The server reads the path general from
    [paths/general/hta.json] when that file exists and from the [hta.json]
    of the project otherwise, and writes it to the [hta.json] of the
    project; the first file, which no operation modelled here writes, is
    given as a function from the project. *)

Module Ingestion.
Import JS Model TaskIntelligence HtaTreeBuilder.

(** An element of [branch_tasks]. *)
Record BranchTasks := {
  branch_name : string;
  tasks : list AiTask
}.

(** An entry of [collaborative_sessions]; [generation_context] is always
    collaborative_handoff. *)
Record Session := {
  timestamp : string;
  session_id : string;
  tasks_count : Z;
  branches_populated : list string
}.

Record Server := {
  documents : Store;
  session_logs : gmap (string * string) (list Session)
}.

Record StoreReply := {
  stored_count : Z;              (* Stored N generated tasks into HTA *)
  hta_frontier_count : Z;
  session : Session
}.

(** [branchName.toLowerCase().replace(/[^a-z0-9]+/g,'_')
      .replace(/_+/g,'_').replace(/^_|_$/g,'')] *)
Definition slug (branchName : string) : string :=
  stripUnderscores (collapseUnderscores (slugRuns (toLowerCase branchName))).

Definition ensureBranchExists (strategicBranches : list Branch)
    (branchName : string) : list Branch :=
  if existsb
       (λ b, bool_decide (branch_id b = branchName)
             || bool_decide (toLowerCase (branch_title b)
                             = toLowerCase branchName))
       strategicBranches
  then strategicBranches
  else strategicBranches ++
       [ {| branch_id := slug branchName;
            branch_title := capitalize branchName;
            branch_priority := "medium";
            branch_completed := false;
            branch_description := "Auto-added domain for " +:+ branchName;
            expected_duration := "0-3 months";
            subBranches := [] |} ].

(** The node pushed for a task [t] of the branch. *)
Definition storedNode (branchName : string) (nextId : Z) (t : AiTask) : Task :=
  {| id := "node_" +:+ pretty nextId;
     title := ai_title t;
     description := Some (orStr (ai_description t) "");
     difficulty := Some (orNum (ai_difficulty t) 1);
     duration := Some (durationText (ai_duration t));
     branch := Some (slug branchName);
     prerequisites := Some (default [] (ai_prerequisites t));
     generated := true;
     completed := false;
     priority := Some 200;
     opportunityType := None;
     learningOutcome := None |}.

(** The inner loop, over the tasks of a branch, and the outer loop, over
    the branches; they carry [htaData.strategicBranches],
    [htaData.frontierNodes] and [nextId]. *)
Definition storeTask (branchName : string)
    (acc : option (list Task) * Z) (t : AiTask) : option (list Task) * Z :=
  let '(frontierNodes, nextId) := acc in
  (Some (default [] frontierNodes ++ [storedNode branchName nextId t]),
   nextId + 1).

Definition storeBranch (acc : list Branch * (option (list Task) * Z))
    (branch : BranchTasks) : list Branch * (option (list Task) * Z) :=
  let '(strategicBranches, nodes) := acc in
  (ensureBranchExists strategicBranches (branch_name branch),
   foldl (storeTask (branch_name branch)) nodes (tasks branch)).

(** [branchTasks.reduce((sum, b) => sum + b.tasks.length, 0)] *)
Definition countTasks (branchTasks : list BranchTasks) : Z :=
  foldl (λ sum b, sum + Z.of_nat (List.length (tasks b))) 0 branchTasks.

(** The tasks of all branches in the order in which they are stored, each
    with the name of its branch, and the nodes made from them when the
    numbering starts at [nextId]. *)
Definition flatten (branchTasks : list BranchTasks) : list (string * AiTask) :=
  mjoin ((λ branch, pair (branch_name branch) <$> tasks branch)
         <$> branchTasks).

Definition nodesFrom (nextId : Z) (flat : list (string * AiTask)) : list Task :=
  mapi (λ (named : string * AiTask) i, storedNode named.1 (nextId + i) named.2)
       flat.

(** [sessions.slice(-limit)] *)
Definition sliceLast {A} (limit : Z) (l : list A) : list A :=
  if limit =? 0 then l
  else if 0 <? limit then drop (Z.to_nat (Z.of_nat (List.length l) - limit)) l
  else drop (Z.to_nat (- limit)) l.

Section WithGeneralPath.
Variable generalPath : string → option (HtaData * list Session).

(** [CleanForestServer.loadPathHTA], the document with its log. *)
Definition loadPathHTA (sv : Server) (projectId pathName : string)
    : option (HtaData * list Session) :=
  let stored :=
    htaData ← htas (documents sv) !! (projectId, pathName);
    Some (htaData, default [] (session_logs sv !! (projectId, pathName))) in
  if bool_decide (pathName = "general") then
    match generalPath projectId with
    | Some document => Some document
    | None => stored
    end
  else stored.

(** [CleanForestServer.savePathHTA] *)
Definition savePathHTA (sv : Server) (projectId pathName : string)
    (htaData : HtaData) (sessions : list Session) : Server :=
  {| documents :=
       TaskIntelligence.savePathHTA (documents sv) projectId pathName htaData;
     session_logs := <[(projectId, pathName) := sessions]> (session_logs sv) |}.

(** [storeGeneratedTasks]; it has no [try] block, so what is thrown
    reaches the caller.  [nowIso] is [new Date().toISOString()] and
    [sessionId] the random session id.  The last read,
    [htaData.frontierNodes.length], comes after the save. *)
Definition storeGeneratedTasks (nowIso sessionId : string)
    (branchTasks : list BranchTasks) (sv : Server)
    : (Error + StoreReply) * Server :=
  match activeProject (documents sv) with
  | None => (inl NoActiveProject, sv)
  | Some projectId =>
      match loadConfig (documents sv) projectId with
      | None => (inl TypeError, sv)
      | Some config =>
          let pathName := orStr (activePath config) "general" in
          let '(htaData, sessions) :=
            default
              ({| pathName := None; hta_goal := None; strategicBranches := [];
                  frontierNodes := Some []; hta_learningStyle := None;
                  hta_focusAreas := []; hta_knowledgeLevel := None;
                  created := None; lastUpdated := None |}, [])
              (loadPathHTA sv projectId pathName) in
          let nextId :=
            Z.of_nat (List.length (default [] (frontierNodes htaData))) + 1 in
          let sessionMeta :=
            {| timestamp := nowIso; session_id := sessionId;
               tasks_count := countTasks branchTasks;
               branches_populated := branch_name <$> branchTasks |} in
          let '(branches, (nodes, _)) :=
            foldl storeBranch
                  (strategicBranches htaData, (frontierNodes htaData, nextId))
                  branchTasks in
          let htaData :=
            {| pathName := Model.pathName htaData;
               hta_goal := hta_goal htaData;
               strategicBranches := branches;
               frontierNodes := nodes;
               hta_learningStyle := hta_learningStyle htaData;
               hta_focusAreas := hta_focusAreas htaData;
               hta_knowledgeLevel := hta_knowledgeLevel htaData;
               created := created htaData;
               lastUpdated := lastUpdated htaData |} in
          let sv :=
            savePathHTA sv projectId pathName htaData
                        (sessions ++ [sessionMeta]) in
          match nodes with
          | Some nodes =>
              (inr {| stored_count := countTasks branchTasks;
                      hta_frontier_count := Z.of_nat (List.length nodes);
                      session := sessionMeta |}, sv)
          | None => (inl TypeError, sv)
          end
      end
  end.

(** [getGenerationHistory(limit)] *)
Definition getGenerationHistory (limit : Z) (sv : Server)
    : Error + list Session :=
  match activeProject (documents sv) with
  | None => inl NoActiveProject
  | Some projectId =>
      match loadConfig (documents sv) projectId with
      | None => inl TypeError
      | Some config =>
          let pathName := orStr (activePath config) "general" in
          let sessions :=
            match loadPathHTA sv projectId pathName with
            | Some (_, sessions) => sessions
            | None => []
            end in
          inr (sliceLast limit sessions)
      end
  end.

End WithGeneralPath.

End Ingestion.

(** ** [DataPersistence]

    The loads and saves that the modules above go through, with the
    cache in front of the files.  The file system is a map from file
    paths to file contents, the error log being one of the files; what
    [path.join] makes of a project, a path name and a file name is left
    open, and so is whether a write succeeds.  [JSON.stringify] and
    [JSON.parse] are arbitrary and may throw.  The cache holds the parsed
    value that a load returned; the operations here never change such a
    value. *)

Module DataPersistence.
Import JS.

(** The file that an operation names. *)
Inductive Target :=
| ProjectFile (projectId filename : string)
| PathFile (projectId pathName filename : string).

Section WithFileSystem.
Variable Data : Type.
Variable JSON_stringify : Data → option string.
Variable JSON_parse : string → option Data.
(** [path.join(this.getProjectDir(projectId), filename)] and
    [path.join(this.getPathDir(projectId, pathName), filename)] *)
Variable projectFile : string → string → string.
Variable pathFile : string → string → string → string.
(** Whether [fs.mkdir] and [fs.writeFile] succeed for a file. *)
Variable writable : string → bool.
(** The error log: its path, whether it can be appended to, and the line
    that [logError] writes for an operation on a file at a time. *)
Variable logPath : string.
Variable loggable : bool.
Variable logEntry : string → string → Z → string.

Record State := {
  files : gmap string string;
  cache : gmap string Data;
  cacheTimestamps : gmap string Z
}.

(** [new DataPersistence(dataDir)] on a file system *)
Definition fresh (fs : gmap string string) : State :=
  {| files := fs; cache := ∅; cacheTimestamps := ∅ |}.

Definition cacheMaxAge : Z := 5 * 60 * 1000.

Definition getCacheKey (projectId filename : string)
    (pathName : option string) : string :=
  match pathName with
  | Some p =>
      if truthyStr p then projectId +:+ ":" +:+ p +:+ ":" +:+ filename
      else projectId +:+ ":" +:+ filename
  | None => projectId +:+ ":" +:+ filename
  end.

(** [now] is the value of [Date.now()]. *)
Definition isCacheValid (now : Z) (st : State) (cacheKey : string) : bool :=
  match cacheTimestamps st !! cacheKey with
  | Some timestamp => truthyNum timestamp && (now - timestamp <? cacheMaxAge)
  | None => false
  end.

Definition setCache (now : Z) (st : State) (cacheKey : string) (data : Data)
    : State :=
  {| files := files st;
     cache := <[cacheKey := data]> (cache st);
     cacheTimestamps := <[cacheKey := now]> (cacheTimestamps st) |}.

Definition invalidateCache (st : State) (cacheKey : string) : State :=
  {| files := files st;
     cache := delete cacheKey (cache st);
     cacheTimestamps := delete cacheKey (cacheTimestamps st) |}.

(** [fs.appendFile(logPath, ...)] *)
Definition appendLog (fs : gmap string string) (operation filePath : string)
    (now : Z) : gmap string string :=
  if loggable
  then <[logPath := default "" (fs !! logPath)
                    +:+ logEntry operation filePath now]> fs
  else fs.

Definition logError (st : State) (operation filePath : string) (now : Z)
    : State :=
  {| files := appendLog (files st) operation filePath now;
     cache := cache st;
     cacheTimestamps := cacheTimestamps st |}.

(** The body that [loadProjectData] and [loadPathData] share; [now] is the
    clock when the cache is checked and [later] when the entry is set.
    The result [None] is the [null] of the [catch], or the [undefined] of
    a cache without the entry. *)
Definition loadFile (now later : Z) (cacheKey filePath : string) (st : State)
    : option Data * State :=
  if isCacheValid now st cacheKey then (cache st !! cacheKey, st)
  else
    match files st !! filePath ≫= JSON_parse with
    | Some parsed => (Some parsed, setCache later st cacheKey parsed)
    | None => (None, st)
    end.

(** The body that [saveProjectData] and [savePathData] share; [now] is the
    time at which a failure is logged. *)
Definition saveFile (now : Z) (operation cacheKey filePath : string)
    (data : Data) (st : State) : bool * State :=
  match JSON_stringify data with
  | Some text =>
      if writable filePath then
        (true,
         invalidateCache
           {| files := <[filePath := text]> (files st); cache := cache st;
              cacheTimestamps := cacheTimestamps st |}
           cacheKey)
      else (false, logError st operation filePath now)
  | None => (false, logError st operation filePath now)
  end.

Definition loadProjectData (now later : Z) (projectId filename : string)
    (st : State) : option Data * State :=
  loadFile now later (getCacheKey projectId filename None)
           (projectFile projectId filename) st.

Definition saveProjectData (now : Z) (projectId filename : string)
    (data : Data) (st : State) : bool * State :=
  saveFile now "saveProjectData" (getCacheKey projectId filename None)
           (projectFile projectId filename) data st.

Definition loadPathData (now later : Z) (projectId pathName filename : string)
    (st : State) : option Data * State :=
  loadFile now later (getCacheKey projectId filename (Some pathName))
           (pathFile projectId pathName filename) st.

Definition savePathData (now : Z) (projectId pathName filename : string)
    (data : Data) (st : State) : bool * State :=
  saveFile now "savePathData" (getCacheKey projectId filename (Some pathName))
           (pathFile projectId pathName filename) data st.

(** *** Sequences of operations *)

Inductive Op :=
| Load (now later : Z) (target : Target)
| Save (now : Z) (target : Target) (data : Data).

Inductive Result :=
| Loaded (data : option Data)
| Saved (ok : bool).

Definition targetOf (op : Op) : Target :=
  match op with
  | Load _ _ target => target
  | Save _ target _ => target
  end.

Definition keyOf (target : Target) : string :=
  match target with
  | ProjectFile projectId filename => getCacheKey projectId filename None
  | PathFile projectId pathName filename =>
      getCacheKey projectId filename (Some pathName)
  end.

Definition fileOf (target : Target) : string :=
  match target with
  | ProjectFile projectId filename => projectFile projectId filename
  | PathFile projectId pathName filename =>
      pathFile projectId pathName filename
  end.

Definition step (op : Op) (st : State) : Result * State :=
  match op with
  | Load now later (ProjectFile projectId filename) =>
      let '(data, st) := loadProjectData now later projectId filename st in
      (Loaded data, st)
  | Load now later (PathFile projectId pathName filename) =>
      let '(data, st) :=
        loadPathData now later projectId pathName filename st in
      (Loaded data, st)
  | Save now (ProjectFile projectId filename) data =>
      let '(ok, st) := saveProjectData now projectId filename data st in
      (Saved ok, st)
  | Save now (PathFile projectId pathName filename) data =>
      let '(ok, st) := savePathData now projectId pathName filename data st in
      (Saved ok, st)
  end.

Fixpoint run (ops : list Op) (st : State) : list Result * State :=
  match ops with
  | [] => ([], st)
  | op :: ops =>
      let '(result, st) := step op st in
      let '(results, st) := run ops st in
      (result :: results, st)
  end.

Definition operationOf (target : Target) : string :=
  match target with
  | ProjectFile _ _ => "saveProjectData"
  | PathFile _ _ _ => "savePathData"
  end.

(** What the operations mean on the files alone, with no cache: a load
    reads and parses the file, a save writes it or logs its failure. *)
Definition stepDirect (op : Op) (fs : gmap string string)
    : Result * gmap string string :=
  match op with
  | Load _ _ target => (Loaded (fs !! fileOf target ≫= JSON_parse), fs)
  | Save now target data =>
      match JSON_stringify data with
      | Some text =>
          if writable (fileOf target)
          then (Saved true, <[fileOf target := text]> fs)
          else (Saved false,
                appendLog fs (operationOf target) (fileOf target) now)
      | None =>
          (Saved false, appendLog fs (operationOf target) (fileOf target) now)
      end
  end.

Fixpoint runDirect (ops : list Op) (fs : gmap string string)
    : list Result * gmap string string :=
  match ops with
  | [] => ([], fs)
  | op :: ops =>
      let '(result, fs) := stepDirect op fs in
      let '(results, fs) := runDirect ops fs in
      (result :: results, fs)
  end.

End WithFileSystem.

Arguments files {Data} _.
Arguments cache {Data} _.
Arguments cacheTimestamps {Data} _.
Arguments fresh {Data} fs.
Arguments Loaded {Data} data.
Arguments Saved {Data} ok.
Arguments Load {Data} now later target.
Arguments Save {Data} now target data.

End DataPersistence.

(** ** More sample documents *)

Module Samples.
Import Model HtaTreeBuilder Ingestion.

(** The configured project of [Examples] before any document is stored. *)
Definition bareStore : Store :=
  {| activeProject := Some "guitar";
     configs := {[ "guitar" := Examples.guitarConfig ]};
     htas := ∅; histories := ∅; errorLog := [] |}.

Definition serving (st : Store) : Server :=
  {| documents := st; session_logs := ∅ |}.

(** No project has a [paths/general/hta.json]. *)
Definition noGeneralPath : string → option (HtaData * list Session) :=
  λ _, None.

(** A proposal with a negative difficulty. *)
Definition risky : AiTask :=
  {| ai_title := Some "Improvise"; ai_description := None;
     ai_difficulty := Some (-1); ai_duration := DurNumber 10;
     ai_prerequisites := None; ai_opportunityType := None |}.

Definition warmUp : AiTask :=
  {| ai_title := Some "Warm up"; ai_description := Some "Stretch the fingers";
     ai_difficulty := Some 1; ai_duration := DurNumber 5;
     ai_prerequisites := Some []; ai_opportunityType := None |}.

Definition proposals : list BranchTasks :=
  [ {| branch_name := "Basic Chords"; tasks := [warmUp; Examples.solo] |} ].

(** A file system for [DataPersistence]: the values saved are texts,
    written and read as they are; every write succeeds. *)
Definition projectFile (projectId filename : string) : string :=
  projectId +:+ "/" +:+ filename.
Definition pathFile (projectId pathName filename : string) : string :=
  projectId +:+ "/paths/" +:+ pathName +:+ "/" +:+ filename.

Definition session : list (DataPersistence.Op string) :=
  [ DataPersistence.Load 0 1 (DataPersistence.ProjectFile "guitar" "hta.json");
    DataPersistence.Save 2 (DataPersistence.ProjectFile "guitar" "hta.json")
                         "second";
    DataPersistence.Load 3 4 (DataPersistence.ProjectFile "guitar" "hta.json");
    DataPersistence.Load 5 6
      (DataPersistence.PathFile "guitar" "blues" "hta.json") ].

Definition disk : gmap string string := {[ "guitar/hta.json" := "first" ]}.

(** Two files of two projects, [guitar] with a path and [guitar:general]. *)
Definition shelf : gmap string string :=
  {[ "guitar/paths/general/hta.json" := "path";
     "guitar:general/hta.json" := "project" ]}.

(** The line of the error log: the operation and the file. *)
Definition logLine (operation filePath : string) (now : Z) : string :=
  operation +:+ " " +:+ filePath.

End Samples.

(** ** The task counts of [currentStatus]

    The block of [currentStatus] that counts the tasks of the document,
    [if (htaData) { ... }]; the schedule of the day and the wording of the
    status are left out.  The block also reads two fields that no
    operation above writes, [htaData.frontier_nodes] and
    [htaData.completed_nodes]; they are arguments here, [None] when
    absent. *)

Module Status.
Import JS Model.

Record TreeProgress := {
  completedCount : Z;
  allTasks : Z;                (* [allTasks.length] *)
  availableNodes : Z           (* [availableNodes.length] *)
}.

Definition treeProgress (frontier_nodes completed_nodes : option (list Task))
    (htaData : HtaData) : TreeProgress :=
  let frontierNodes :=
    match frontier_nodes with
    | Some nodes => nodes
    | None => default [] (frontierNodes htaData)
    end in
  let completedNodes := default [] completed_nodes in
  {| allTasks := Z.of_nat (List.length (frontierNodes ++ completedNodes));
     completedCount :=
       Z.of_nat (List.length completedNodes)
       + Z.of_nat (List.length (List.filter completed frontierNodes));
     availableNodes :=
       Z.of_nat (List.length (List.filter
         (λ node,
            if completed node then false
            else match prerequisites node with
                 | Some (p :: ps) =>
                     let completedIds :=
                       (id <$> completedNodes)
                       ++ (id <$> List.filter completed frontierNodes) in
                     forallb (λ prereq, bool_decide (prereq ∈ completedIds))
                             (p :: ps)
                 | _ => true
                 end)
         frontierNodes)) |}.

End Status.

(** ** The operations on the files

    [buildHTATree], [storeGeneratedTasks] and [getGenerationHistory] once
    more, this time on the files and the cache of [DataPersistence]
    instead of a store.  Here a write can fail, which the three
    operations do not look at, and the object that a load returns is the
    one that the cache holds: what an operation changes in it is seen by
    every load that the cache answers, written or not.

    The cache is one map in the source.  Its keys end in the name of the
    file, so the entries for [config.json] and those for [hta.json] never
    meet; they are kept apart here, each with the type of its
    documents. *)

Module Persisted.
Import JS Model TaskIntelligence.
Import Ingestion.

(** [config.json] as these operations read it: the configuration and
    [learning_paths], of which only the names ([p.path_name]) are looked
    at. *)
Record ConfigDoc := {
  settings : Config;
  learning_paths : option (list string)
}.

(** [hta.json]: the roadmap and the log [collaborative_sessions]. *)
Record HtaDoc := {
  roadmap : HtaData;
  collaborative_sessions : option (list Session)
}.

(** The two readings of [Date.now()] that a load can make: in
    [isCacheValid] and in [setCache]. *)
Record LoadTime := {
  checked : Z;
  cached : Z
}.

(** What lies below [DataPersistence]: the two directions of JSON for the
    two kinds of document, the paths that [path.join] makes, whether a
    file can be written, and the error log. *)
Class FileSystem := {
  JSON_stringify_config : ConfigDoc → option string;
  JSON_parse_config : string → option ConfigDoc;
  JSON_stringify_hta : HtaDoc → option string;
  JSON_parse_hta : string → option HtaDoc;
  projectFile : string → string → string;
  pathFile : string → string → string → string;
  writable : string → bool;
  logPath : string;
  loggable : bool;
  logEntry : string → string → Z → string
}.

(** The project manager and the instance of [DataPersistence]. *)
Record Server := {
  activeProject : option string;
  files : gmap string string;
  configCache : gmap string ConfigDoc;
  configStamps : gmap string Z;
  htaCache : gmap string HtaDoc;
  htaStamps : gmap string Z
}.

(** [DataPersistence] as the loads and saves of one kind of document see
    it, and the server after such an operation. *)
Definition configs (sv : Server) : DataPersistence.State ConfigDoc :=
  {| DataPersistence.files := files sv;
     DataPersistence.cache := configCache sv;
     DataPersistence.cacheTimestamps := configStamps sv |}.

Definition htas (sv : Server) : DataPersistence.State HtaDoc :=
  {| DataPersistence.files := files sv;
     DataPersistence.cache := htaCache sv;
     DataPersistence.cacheTimestamps := htaStamps sv |}.

Definition withConfigs (sv : Server) (st : DataPersistence.State ConfigDoc)
    : Server :=
  {| activeProject := activeProject sv;
     files := DataPersistence.files st;
     configCache := DataPersistence.cache st;
     configStamps := DataPersistence.cacheTimestamps st;
     htaCache := htaCache sv;
     htaStamps := htaStamps sv |}.

Definition withHtas (sv : Server) (st : DataPersistence.State HtaDoc)
    : Server :=
  {| activeProject := activeProject sv;
     files := DataPersistence.files st;
     configCache := configCache sv;
     configStamps := configStamps sv;
     htaCache := DataPersistence.cache st;
     htaStamps := DataPersistence.cacheTimestamps st |}.

(** A server that has just started: no entry in the cache. *)
Definition started (activeProject : option string) (fs : gmap string string)
    : Server :=
  {| activeProject := activeProject; files := fs;
     configCache := ∅; configStamps := ∅; htaCache := ∅; htaStamps := ∅ |}.

(** The object that a load returned is the one the cache holds under the
    key of the load; after the caller has changed it in place, the cache
    holds it as changed. *)
Definition changedConfig (cacheKey : string) (config : ConfigDoc)
    (sv : Server) : Server :=
  {| activeProject := activeProject sv; files := files sv;
     configCache := <[cacheKey := config]> (configCache sv);
     configStamps := configStamps sv;
     htaCache := htaCache sv; htaStamps := htaStamps sv |}.

Definition changedHta (cacheKey : string) (doc : HtaDoc) (sv : Server)
    : Server :=
  {| activeProject := activeProject sv; files := files sv;
     configCache := configCache sv; configStamps := configStamps sv;
     htaCache := <[cacheKey := doc]> (htaCache sv);
     htaStamps := htaStamps sv |}.

Section WithFileSystem.
Context {fs : FileSystem}.

(** [dataPersistence.loadProjectData(projectId, 'config.json')] *)
Definition loadConfig (time : LoadTime) (projectId : string) (sv : Server)
    : option ConfigDoc * Server :=
  let '(config, st) :=
    DataPersistence.loadProjectData ConfigDoc JSON_parse_config projectFile
      (checked time) (cached time) projectId "config.json" (configs sv) in
  (config, withConfigs sv st).

(** [dataPersistence.saveProjectData(projectId, 'config.json', config)];
    [now] is the time of the entry in the error log. *)
Definition saveConfig (now : Z) (projectId : string) (config : ConfigDoc)
    (sv : Server) : bool * Server :=
  let '(ok, st) :=
    DataPersistence.saveProjectData ConfigDoc JSON_stringify_config
      projectFile writable logPath loggable logEntry now projectId
      "config.json" config (configs sv) in
  (ok, withConfigs sv st).

(** [dataPersistence.loadProjectData(projectId, 'hta.json')] *)
Definition loadProjectHta (time : LoadTime) (projectId : string)
    (sv : Server) : option HtaDoc * Server :=
  let '(doc, st) :=
    DataPersistence.loadProjectData HtaDoc JSON_parse_hta projectFile
      (checked time) (cached time) projectId "hta.json" (htas sv) in
  (doc, withHtas sv st).

(** [dataPersistence.loadPathData(projectId, pathName, 'hta.json')] *)
Definition loadPathHta (time : LoadTime) (projectId pathName : string)
    (sv : Server) : option HtaDoc * Server :=
  let '(doc, st) :=
    DataPersistence.loadPathData HtaDoc JSON_parse_hta pathFile
      (checked time) (cached time) projectId pathName "hta.json" (htas sv) in
  (doc, withHtas sv st).

(** [savePathHTA], the same in the builder and in the server: the path
    general is written to the [hta.json] of the project. *)
Definition savePathHTA (now : Z) (sv : Server) (projectId pathName : string)
    (doc : HtaDoc) : bool * Server :=
  let '(ok, st) :=
    if bool_decide (pathName = "general") then
      DataPersistence.saveProjectData HtaDoc JSON_stringify_hta projectFile
        writable logPath loggable logEntry now projectId "hta.json" doc
        (htas sv)
    else
      DataPersistence.savePathData HtaDoc JSON_stringify_hta pathFile
        writable logPath loggable logEntry now projectId pathName "hta.json"
        doc (htas sv) in
  (ok, withHtas sv st).

(** The file that [savePathHTA] writes and the key that it drops from the
    cache. *)
Definition htaTarget (projectId pathName : string) : DataPersistence.Target :=
  if bool_decide (pathName = "general")
  then DataPersistence.ProjectFile projectId "hta.json"
  else DataPersistence.PathFile projectId pathName "hta.json".

Definition htaFile (projectId pathName : string) : string :=
  DataPersistence.fileOf projectFile pathFile (htaTarget projectId pathName).

Definition htaKey (projectId pathName : string) : string :=
  DataPersistence.keyOf (htaTarget projectId pathName).

Definition configFile (projectId : string) : string :=
  projectFile projectId "config.json".

Definition configKey (projectId : string) : string :=
  DataPersistence.getCacheKey projectId "config.json" None.

(** [dataPersistence.logError(operation, error, context)] from the [catch]
    of an operation. *)
Definition logError (sv : Server) (operation context : string) (now : Z)
    : Server :=
  withHtas sv
    (DataPersistence.logError HtaDoc logPath loggable logEntry (htas sv)
       operation context now).

End WithFileSystem.

End Persisted.

(** *** [buildHTATree] on the files *)

Module TreeBuildOnFiles.
Import JS Model TaskIntelligence HtaTreeBuilder TreeBuild Persisted.

(** The readings of the clock in one call of [buildHTATree]. *)
Record Times := {
  config_loaded : LoadTime;
  hta_loaded : LoadTime;
  hta_saved : Z;
  config_saved : Z;
  error_logged : Z
}.

Section WithOracle.
Context {O : Type} `{LlmInterface O} {fs : FileSystem}.
Variable JSON_parse_strings : string → Parsed string.

(** [HtaTreeBuilder.loadPathHTA] *)
Definition loadPathHTA (time : LoadTime) (sv : Server)
    (projectId pathName : string) : option HtaDoc * Server :=
  if bool_decide (pathName = "general")
  then loadProjectHta time projectId sv
  else loadPathHta time projectId pathName sv.

(** [config.learning_paths?.some(p => p.path_name === targetPath)
     || targetPath === 'general'] *)
Definition pathExists (config : ConfigDoc) (targetPath : string) : bool :=
  match learning_paths config with
  | Some names => bool_decide (targetPath ∈ names)
  | None => false
  end
  || bool_decide (targetPath = "general").

(** [buildHTATree]; [pathName] is [None] for [null] or [undefined].  The
    two saves return whether they wrote, and nothing reads it. *)
Definition buildHTATree (times : Times) (nowIso : string)
    (pathName : option string) (learningStyle : string)
    (focusAreas : list string) (sv : Server) (b : Builder O)
    : (BuildError + BuildReply) * Server * Builder O :=
  let failed (error : BuildError) (sv : Server) :=
    (inl error,
     logError sv "buildHTATree" (default "" pathName) (error_logged times),
     b) in
  match activeProject sv with
  | None => failed NoProject sv
  | Some projectId =>
      let '(config, sv) := loadConfig (config_loaded times) projectId sv in
      match config with
      | None => failed ConfigurationNotFound sv
      | Some config =>
          if contextMissing (settings config) then (inr NeedsContext, sv, b)
          else
            let targetPath :=
              orStr pathName (orStr (activePath (settings config)) "general") in
            if negb (pathExists config targetPath)
            then failed (PathNotFound targetPath) sv
            else
              let '(existingHTA, sv) :=
                loadPathHTA (hta_loaded times) sv projectId targetPath in
              let '(htaData, b) :=
                generateHTAFramework JSON_parse_strings nowIso b
                  (settings config) targetPath learningStyle focusAreas
                  (roadmap <$> existingHTA) in
              let '(_, sv) :=
                savePathHTA (hta_saved times) sv projectId targetPath
                  {| roadmap := htaData; collaborative_sessions := None |} in
              let config :=
                {| settings := withActivePath (settings config) targetPath;
                   learning_paths := learning_paths config |} in
              let sv := changedConfig (configKey projectId) config sv in
              let '(_, sv) :=
                saveConfig (config_saved times) projectId config sv in
              match pendingClaudeRequests b with
              | pending :: _ =>
                  if Z.of_nat (List.length
                                 (default [] (frontierNodes htaData))) =? 0
                  then (inr (PendingClaude pending), sv, b)
                  else (inr (Built htaData targetPath), sv, b)
              | [] => (inr (Built htaData targetPath), sv, b)
              end
      end
  end.

End WithOracle.

End TreeBuildOnFiles.

(** *** [storeGeneratedTasks] and [getGenerationHistory] on the files *)

Module IngestionOnFiles.
Import JS Model TaskIntelligence HtaTreeBuilder Ingestion Persisted.

(** A document as a load returned it, with the key of the cache under
    which it is held. *)
Record Loaded := {
  held_under : string;
  document : HtaDoc
}.

(** The readings of the clock in one call. *)
Record Times := {
  config_loaded : LoadTime;
  path_loaded : LoadTime;
  project_loaded : LoadTime;
  hta_saved : Z
}.

(** The object [{ frontierNodes: [] }] that stands in for a missing
    document. *)
Definition noDocument : HtaDoc :=
  {| roadmap :=
       {| pathName := None; hta_goal := None; strategicBranches := [];
          frontierNodes := Some []; hta_learningStyle := None;
          hta_focusAreas := []; hta_knowledgeLevel := None;
          created := None; lastUpdated := None |};
     collaborative_sessions := None |}.

(** What [storeGeneratedTasks] does to the document between the load and
    the save, and the entry it adds to the log. *)
Definition takeIn (nowIso sessionId : string) (branchTasks : list BranchTasks)
    (doc : HtaDoc) : HtaDoc * Session :=
  let htaData := roadmap doc in
  let nextId :=
    Z.of_nat (List.length (default [] (frontierNodes htaData))) + 1 in
  let sessionMeta :=
    {| timestamp := nowIso; session_id := sessionId;
       tasks_count := countTasks branchTasks;
       branches_populated := branch_name <$> branchTasks |} in
  let sessions := default [] (collaborative_sessions doc) ++ [sessionMeta] in
  let '(branches, (nodes, _)) :=
    foldl storeBranch
          (strategicBranches htaData, (frontierNodes htaData, nextId))
          branchTasks in
  ({| roadmap :=
        {| pathName := Model.pathName htaData;
           hta_goal := hta_goal htaData;
           strategicBranches := branches;
           frontierNodes := nodes;
           hta_learningStyle := hta_learningStyle htaData;
           hta_focusAreas := hta_focusAreas htaData;
           hta_knowledgeLevel := hta_knowledgeLevel htaData;
           created := created htaData;
           lastUpdated := lastUpdated htaData |};
      collaborative_sessions := Some sessions |},
   sessionMeta).

Section WithFileSystem.
Context {fs : FileSystem}.

(** [CleanForestServer.loadPathHTA]: the path general is read from
    [paths/general/hta.json] when a load of that file returns a document,
    and from the [hta.json] of the project otherwise. *)
Definition loadPathHTA (times : Times) (sv : Server)
    (projectId pathName : string) : option Loaded * Server :=
  let '(pathHTA, sv) :=
    loadPathHta (path_loaded times) projectId pathName sv in
  let pathKey :=
    DataPersistence.getCacheKey projectId "hta.json" (Some pathName) in
  if bool_decide (pathName = "general") then
    match pathHTA with
    | Some doc => (Some {| held_under := pathKey; document := doc |}, sv)
    | None =>
        let '(doc, sv) := loadProjectHta (project_loaded times) projectId sv in
        (Build_Loaded (DataPersistence.getCacheKey projectId "hta.json" None)
         <$> doc, sv)
    end
  else (Build_Loaded pathKey <$> pathHTA, sv).

(** [storeGeneratedTasks]; it has no [try] block, so what is thrown
    reaches the caller.  [nowIso] is [new Date().toISOString()] and
    [sessionId] the random session id.  The document is changed in place
    before it is saved; the last read, [htaData.frontierNodes.length],
    comes after the save. *)
Definition storeGeneratedTasks (times : Times) (nowIso sessionId : string)
    (branchTasks : list BranchTasks) (sv : Server)
    : (Error + StoreReply) * Server :=
  match activeProject sv with
  | None => (inl NoActiveProject, sv)
  | Some projectId =>
      let '(config, sv) := loadConfig (config_loaded times) projectId sv in
      match config with
      | None => (inl TypeError, sv)
      | Some config =>
          let pathName := orStr (activePath (settings config)) "general" in
          let '(loaded, sv) := loadPathHTA times sv projectId pathName in
          let '(doc, sessionMeta) :=
            takeIn nowIso sessionId branchTasks
                   (default noDocument (document <$> loaded)) in
          let sv :=
            match loaded with
            | Some l => changedHta (held_under l) doc sv
            | None => sv
            end in
          let '(_, sv) :=
            savePathHTA (hta_saved times) sv projectId pathName doc in
          match frontierNodes (roadmap doc) with
          | Some nodes =>
              (inr {| stored_count := countTasks branchTasks;
                      hta_frontier_count := Z.of_nat (List.length nodes);
                      session := sessionMeta |}, sv)
          | None => (inl TypeError, sv)
          end
      end
  end.

(** [getGenerationHistory(limit)] *)
Definition getGenerationHistory (times : Times) (limit : Z) (sv : Server)
    : (Error + list Session) * Server :=
  match activeProject sv with
  | None => (inl NoActiveProject, sv)
  | Some projectId =>
      let '(config, sv) := loadConfig (config_loaded times) projectId sv in
      match config with
      | None => (inl TypeError, sv)
      | Some config =>
          let pathName := orStr (activePath (settings config)) "general" in
          let '(loaded, sv) := loadPathHTA times sv projectId pathName in
          let sessions :=
            match loaded with
            | Some l => default [] (collaborative_sessions (document l))
            | None => []
            end in
          (inr (sliceLast limit sessions), sv)
      end
  end.

End WithFileSystem.

End IngestionOnFiles.

(** ** Sample files *)

Module FileSamples.
Import Model HtaTreeBuilder Ingestion Persisted.

#[export] Instance SubBranch_eq_dec : EqDecision SubBranch.
Proof. solve_decision. Defined.
#[export] Instance Branch_eq_dec : EqDecision Branch.
Proof. solve_decision. Defined.
#[export] Instance Task_eq_dec : EqDecision Task.
Proof. solve_decision. Defined.
#[export] Instance HtaData_eq_dec : EqDecision HtaData.
Proof. solve_decision. Defined.
#[export] Instance Session_eq_dec : EqDecision Session.
Proof. solve_decision. Defined.
#[export] Instance HtaDoc_eq_dec : EqDecision HtaDoc.
Proof. solve_decision. Defined.
#[export] Instance Config_eq_dec : EqDecision Config.
Proof. solve_decision. Defined.
#[export] Instance ConfigDoc_eq_dec : EqDecision ConfigDoc.
Proof. solve_decision. Defined.

(** JSON on a table of documents: each document of the table has the
    text listed with it, which parses to that document; no other document
    has a text and no other text parses. *)
Definition textOf {A} `{EqDecision A} (table : list (string * A)) (a : A)
    : option string :=
  fst <$> List.find (λ entry, bool_decide (entry.2 = a)) table.

Definition parsedFrom {A} (table : list (string * A)) (text : string)
    : option A :=
  snd <$> List.find (λ entry, bool_decide (entry.1 = text)) table.

Definition instant : string := "2025-06-17T00:00:00.000Z".

(** The configuration of [Examples], as read and with the path general
    made the active path. *)
Definition guitar : ConfigDoc :=
  {| settings := Examples.guitarConfig; learning_paths := None |}.

Definition guitarOnGeneral : ConfigDoc :=
  {| settings := TreeBuild.withActivePath Examples.guitarConfig "general";
     learning_paths := None |}.

Definition configTable : list (string * ConfigDoc) :=
  [ ("guitar", guitar); ("guitar on general", guitarOnGeneral) ].

(** The roadmap of [Examples] with its six tasks; what a build makes of
    it when the LLM hands every request back; and what
    [storeGeneratedTasks] makes of it with the proposals of [Samples]. *)
Definition chords : HtaDoc :=
  {| roadmap := Examples.chords; collaborative_sessions := None |}.

Definition rebuilt : HtaDoc :=
  {| roadmap :=
       fst (generateHTAFramework (H := Examples.deferring) Examples.noStrings
              instant Examples.freshBuilder Examples.guitarConfig "general"
              "mixed" [] (Some Examples.chords));
     collaborative_sessions := None |}.

Definition extended : HtaDoc :=
  fst (IngestionOnFiles.takeIn instant "sess_1" Samples.proposals chords).

Definition htaTable : list (string * HtaDoc) :=
  [ ("chords", chords); ("rebuilt", rebuilt); ("extended", extended) ].

(** A file system on which every write succeeds, and one on which none
    does. *)
Definition onDisk : FileSystem :=
  {| JSON_stringify_config := textOf configTable;
     JSON_parse_config := parsedFrom configTable;
     JSON_stringify_hta := textOf htaTable;
     JSON_parse_hta := parsedFrom htaTable;
     projectFile := Samples.projectFile;
     pathFile := Samples.pathFile;
     writable := λ _, true;
     logPath := "error.log";
     loggable := true;
     logEntry := Samples.logLine |}.

Definition readOnly : FileSystem :=
  {| JSON_stringify_config := textOf configTable;
     JSON_parse_config := parsedFrom configTable;
     JSON_stringify_hta := textOf htaTable;
     JSON_parse_hta := parsedFrom htaTable;
     projectFile := Samples.projectFile;
     pathFile := Samples.pathFile;
     writable := λ _, false;
     logPath := "error.log";
     loggable := true;
     logEntry := Samples.logLine |}.

(** The project with its roadmap in the [hta.json] of the project, and
    the same with the roadmap in [paths/general/hta.json]. *)
Definition project : gmap string string :=
  {[ "guitar/config.json" := "guitar"; "guitar/hta.json" := "chords" ]}.

Definition shadowed : gmap string string :=
  {[ "guitar/config.json" := "guitar";
     "guitar/paths/general/hta.json" := "chords" ]}.

(** Calls in which every reading of the clock is [t]. *)
Definition buildAt (t : Z) : TreeBuildOnFiles.Times :=
  {| TreeBuildOnFiles.config_loaded := {| checked := t; cached := t |};
     TreeBuildOnFiles.hta_loaded := {| checked := t; cached := t |};
     TreeBuildOnFiles.hta_saved := t;
     TreeBuildOnFiles.config_saved := t;
     TreeBuildOnFiles.error_logged := t |}.

Definition callAt (t : Z) : IngestionOnFiles.Times :=
  {| IngestionOnFiles.config_loaded := {| checked := t; cached := t |};
     IngestionOnFiles.path_loaded := {| checked := t; cached := t |};
     IngestionOnFiles.project_loaded := {| checked := t; cached := t |};
     IngestionOnFiles.hta_saved := t |}.

(** The server after the proposals of [Samples] were taken in at time 1,
    with the roadmap in [paths/general/hta.json], and the session of that
    call. *)
Definition afterTakingIn : Server :=
  snd (IngestionOnFiles.storeGeneratedTasks (fs := onDisk) (callAt 1) instant
         "sess_1" Samples.proposals (started (Some "guitar") shadowed)).

Definition firstSession : Session :=
  {| timestamp := instant; session_id := "sess_1"; tasks_count := 2;
     branches_populated := ["Basic Chords"] |}.

End FileSamples.

(** * Properties *)

Example parse_25_minutes : Minutes.parseTimeToMinutes "25 minutes" = 25.
Proof. reflexivity. Qed.
Example parse_2_hours : Minutes.parseTimeToMinutes "about 2 Hours" = 120.
Proof. reflexivity. Qed.
Example parse_1hr30 : Minutes.parseTimeToMinutes "1hr 30min" = 60.
Proof. reflexivity. Qed.
Example parse_frac : Minutes.parseTimeToMinutes "1.5 hours" = 300.
Proof. reflexivity. Qed.
Example parse_neg : Minutes.parseTimeToMinutes (pretty (-1000) +:+ " minutes") = 1000.
Proof. vm_compute. reflexivity. Qed.
Example split_ex : JS.split " " "a  b " = ["a"; ""; "b"; ""].
Proof. reflexivity. Qed.
Example splitRuns_ex : JS.splitRuns JS.isSpace " a  b " = [""; "a"; "b"; ""].
Proof. reflexivity. Qed.
Example trim_ex : JS.trim "  a b  " = "a b".
Proof. reflexivity. Qed.

(** ** Double precision

    On whole minutes up to four hours, and on energy totals up to 250 over
    up to 50 completions, the comparisons in binary64 decide what the
    integer comparisons of the model decide. *)

Section DoublePrecision.
Import Double.

Lemma exceedsSlot_exact :
  Forall (λ t, Forall (λ d, exceedsSlot d t = (5 * d >? 6 * t)) (seqZ 0 241))
         (seqZ 0 241).
Proof. refine (bool_decide_unpack _ _). by vm_compute. Qed.

Lemma fitsFourFifths_exact :
  Forall (λ t, Forall (λ d, fitsFourFifths t d = (5 * t >=? 4 * d)) (seqZ 0 241))
         (seqZ 0 241).
Proof. refine (bool_decide_unpack _ _). by vm_compute. Qed.

Lemma fitsHalf_exact :
  Forall (λ t, Forall (λ d, fitsHalf t d = (2 * t >=? d)) (seqZ 0 241))
         (seqZ 0 241).
Proof. refine (bool_decide_unpack _ _). by vm_compute. Qed.

Lemma belowTwoAndAHalf_exact :
  Forall (λ n, Forall (λ total, belowTwoAndAHalf total n = (2 * total <? 5 * n))
                      (seqZ 0 251))
         (seqZ 1 50).
Proof. refine (bool_decide_unpack _ _). by vm_compute. Qed.

(** The cutoff of the specification: 10 * 1.2 is 12 in binary64 as well. *)
Example ten_minute_slot :
  exceedsSlot 12 10 = false ∧ exceedsSlot 13 10 = true.
Proof. by vm_compute. Qed.

End DoublePrecision.

(** ** Strings *)

Section StringFacts.
Import JS.

Lemma chars_str (l : list ascii) : chars (str l) = l.
Proof. apply String.list_ascii_of_string_of_list_ascii. Qed.

Lemma str_chars (s : string) : str (chars s) = s.
Proof. apply String.string_of_list_ascii_of_string. Qed.

Lemma chars_app (s t : string) : chars (s +:+ t) = chars s ++ chars t.
Proof.
  induction s as [|c s IH]; [done|].
  change (chars (String c s +:+ t)) with (c :: chars (s +:+ t)).
  by rewrite IH.
Qed.

(** [span] cuts the list in two, the first part inside the class, the
    second not starting inside it. *)
Lemma span_spec (p : ascii → bool) (s a b : list ascii) :
  span p s = (a, b) →
  s = a ++ b ∧ Forall (λ c, p c = true) a ∧ (head b ≫= (λ c, Some (p c))) ≠ Some true.
Proof.
  revert a b. induction s as [|c s IH]; intros a b; cbn.
  - intros [= <- <-]. by repeat split.
  - destruct (p c) eqn:Hc.
    + destruct (span p s) as [a' b'] eqn:Hs. intros [= <- <-].
      destruct (IH a' b' eq_refl) as (-> & Ha & Hb).
      repeat split; [by constructor | done].
    + intros [= <- <-]. repeat split; [constructor|]. cbn. congruence.
Qed.

(** Conversely, a cut of that shape is the one [span] finds. *)
Lemma span_app (p : ascii → bool) (a b : list ascii) :
  Forall (λ c, p c = true) a →
  (head b ≫= (λ c, Some (p c))) ≠ Some true →
  span p (a ++ b) = (a, b).
Proof.
  intros Ha Hb. induction Ha as [|c a Hc Ha IH]; cbn.
  - destruct b as [|c b]; [done|]. cbn in *.
    destruct (p c); [by destruct Hb | done].
  - by rewrite Hc, IH.
Qed.

End StringFacts.

(** ** The regular expression of [parseTimeToMinutes] *)

Section RegexFacts.
Import JS Minutes Spec.

Lemma space_not_digit (c : ascii) : isSpace c = true → isDigit c = false.
Proof. destruct c as [[] [] [] [] [] [] [] []]; by vm_compute. Qed.

(** A unit word starts with a letter: neither a digit nor a space. *)
Lemma unit_initial (c : ascii) :
  toLowerChar c = "m"%char ∨ toLowerChar c = "h"%char →
  isDigit c = false ∧ isSpace c = false.
Proof.
  destruct c as [[] [] [] [] [] [] [] []]; vm_compute;
    first [done | intros [[=] | [=]]].
Qed.

Lemma unitWord_initial (w : list ascii) :
  isUnitWord w →
  ∃ c w', w = c :: w' ∧ isDigit c = false ∧ isSpace c = false.
Proof.
  unfold isUnitWord, units. intros Hw.
  assert (Hu : toLowerChar <$> w = chars (str (toLowerChar <$> w)))
    by by rewrite chars_str.
  assert (Hh : head (toLowerChar <$> w) = Some "m"%char
               ∨ head (toLowerChar <$> w) = Some "h"%char).
  { rewrite Hu. set_unfold in Hw.
    destruct Hw as [-> | [-> | [-> | [-> | []]]]]; cbn; auto. }
  destruct w as [|c w']; cbn in Hh.
  - by destruct Hh.
  - exists c, w'. split; [done|]. apply unit_initial.
    destruct Hh as [[= ->] | [= ->]]; auto.
Qed.

Lemma matchWord_sound (u s m : list ascii) :
  matchWord u s = Some m → ∃ post, s = m ++ post ∧ toLowerChar <$> m = u.
Proof.
  revert s m. induction u as [|a u IH]; intros s m; cbn.
  - destruct s; intros [= <-]; eauto.
  - destruct s as [|b s]; [done|]. case_bool_decide as Hb; [|done].
    destruct (matchWord u s) as [m'|] eqn:Hm; [|done]. intros [= <-].
    destruct (IH s m' Hm) as (post & -> & <-). exists post. by rewrite <- Hb.
Qed.

Lemma matchWord_complete (w post : list ascii) :
  matchWord (toLowerChar <$> w) (w ++ post) = Some w.
Proof.
  induction w as [|b w IH]; cbn; [by destruct post|].
  rewrite bool_decide_eq_true_2 by done. by rewrite IH.
Qed.

Lemma matchUnit_sound (us : list string) (s m : list ascii) :
  matchUnit us s = Some m →
  ∃ post, s = m ++ post ∧ str (toLowerChar <$> m) ∈ us.
Proof.
  induction us as [|u us IH]; cbn; [done|].
  destruct (matchWord (chars u) s) as [m'|] eqn:Hm.
  - intros [= <-]. destruct (matchWord_sound _ _ _ Hm) as (post & -> & Hu).
    exists post. split; [done|]. rewrite Hu, str_chars. left.
  - intros Hus. destruct (IH Hus) as (post & -> & Hin).
    exists post. split; [done|]. by right.
Qed.

Lemma matchUnit_complete (us : list string) (w post : list ascii) :
  str (toLowerChar <$> w) ∈ us → is_Some (matchUnit us (w ++ post)).
Proof.
  induction us as [|u us IH]; [by intros ?%elem_of_nil|].
  intros [<- | Hin]%elem_of_cons; cbn.
  - rewrite chars_str, matchWord_complete. eauto.
  - destruct (matchWord (chars u) (w ++ post)); eauto.
Qed.

Lemma matchHere_sound (s g1 g2 : list ascii) :
  matchHere s = Some (g1, g2) →
  ∃ ws post,
    s = g1 ++ ws ++ g2 ++ post ∧ g1 ≠ []
    ∧ Forall (λ c, isDigit c = true) g1
    ∧ Forall (λ c, isSpace c = true) ws
    ∧ isUnitWord g2.
Proof.
  unfold matchHere.
  destruct (span isDigit s) as [ds r1] eqn:Hd.
  destruct ds as [|d ds]; [done|].
  destruct (span isSpace r1) as [ws r2] eqn:Hs.
  destruct (matchUnit units r2) as [m|] eqn:Hm; [|done].
  cbn. intros [= <- <-].
  apply span_spec in Hd as (-> & Hds & _).
  apply span_spec in Hs as (-> & Hws & _).
  apply matchUnit_sound in Hm as (post & -> & Hu).
  exists ws, post. by repeat split.
Qed.

Lemma matchHere_complete (ds ws w post : list ascii) :
  ds ≠ [] →
  Forall (λ c, isDigit c = true) ds →
  Forall (λ c, isSpace c = true) ws →
  isUnitWord w →
  is_Some (matchHere (ds ++ ws ++ w ++ post)).
Proof.
  intros Hne Hds Hws Hw. unfold matchHere.
  destruct (unitWord_initial w Hw) as (c & w' & Hc & Hcd & Hcs).
  rewrite (span_app isDigit ds (ws ++ w ++ post)); [|done|].
  - destruct ds as [|d ds]; [done|].
    rewrite (span_app isSpace ws (w ++ post)); [|done|].
    + destruct (matchUnit_complete units w post Hw) as [m ->]. by eexists.
    + rewrite Hc. cbn. by rewrite Hcs.
  - destruct ws as [|x ws]; cbn.
    + rewrite Hc. cbn. by rewrite Hcd.
    + apply Forall_cons in Hws as [Hx _].
      by rewrite (space_not_digit x Hx).
Qed.

(** The matcher finds a match exactly when the string contains a time
    expression. *)
Lemma regexMatch_sound (s g1 g2 : list ascii) :
  regexMatch s = Some (g1, g2) →
  ∃ pre ws post,
    s = pre ++ g1 ++ ws ++ g2 ++ post ∧ g1 ≠ []
    ∧ Forall (λ c, isDigit c = true) g1
    ∧ Forall (λ c, isSpace c = true) ws
    ∧ isUnitWord g2.
Proof.
  induction s as [|c s IH].
  - cbn. done.
  - cbn [regexMatch]. destruct (matchHere (c :: s)) as [[h1 h2]|] eqn:Hm.
    + intros [= <- <-].
      destruct (matchHere_sound _ _ _ Hm) as (ws & post & ? & ?).
      by exists [], ws, post.
    + intros Hs. destruct (IH Hs) as (pre & ws & post & -> & ?).
      by exists (c :: pre), ws, post.
Qed.

Lemma regexMatch_complete (pre ds ws w post : list ascii) :
  ds ≠ [] →
  Forall (λ c, isDigit c = true) ds →
  Forall (λ c, isSpace c = true) ws →
  isUnitWord w →
  is_Some (regexMatch (pre ++ ds ++ ws ++ w ++ post)).
Proof.
  intros Hne Hds Hws Hw. induction pre as [|c pre IH].
  - destruct (matchHere_complete ds ws w post Hne Hds Hws Hw) as [m Hm].
    cbn [app]. destruct (ds ++ ws ++ w ++ post); cbn [regexMatch];
      rewrite Hm; eauto.
  - cbn [app regexMatch].
    destruct (matchHere (c :: pre ++ ds ++ ws ++ w ++ post)); eauto.
Qed.

Lemma regexMatch_None_iff (s : string) :
  regexMatch (chars s) = None ↔ ¬ hasTimeExpression s.
Proof.
  split.
  - intros Hn (pre & ds & ws & w & post & Hs & Hne & Hds & Hws & Hw).
    rewrite Hs in Hn.
    destruct (regexMatch_complete pre ds ws w post Hne Hds Hws Hw) as [m Hm].
    congruence.
  - intros Hno. destruct (regexMatch (chars s)) as [[g1 g2]|] eqn:Hm; [|done].
    destruct Hno.
    destruct (regexMatch_sound _ _ _ Hm) as (pre & ws & post & ? & ?).
    by exists pre, g1, ws, g2, post.
Qed.

End RegexFacts.

(** ** Durations written by the generator *)

Section WrittenDurations.
Import JS Minutes.

Lemma parseDigits_from (acc : Z) (l : list ascii) :
  foldl (λ acc c, 10 * acc + digitVal c) acc l
  = acc * 10 ^ Z.of_nat (List.length l) + parseDigits l.
Proof.
  unfold parseDigits. revert acc. induction l as [|c l IH]; intros acc.
  - cbn. lia.
  - cbn [foldl List.length]. rewrite IH, (IH (10 * 0 + digitVal c)).
    rewrite Nat2Z.inj_succ, Z.pow_succ_r by lia. lia.
Qed.

Lemma pretty_N_char_digit (x : N) :
  (x < 10)%N →
  isDigit (pretty_N_char x) = true ∧ digitVal (pretty_N_char x) = Z.of_N x.
Proof.
  intros Hx.
  assert (Hall : Forall (λ k, isDigit (pretty_N_char k) = true
                              ∧ digitVal (pretty_N_char k) = Z.of_N k)
                        (N.of_nat <$> seq 0 10)) by by repeat constructor.
  rewrite Forall_forall in Hall. apply Hall, list_elem_of_fmap.
  exists (N.to_nat x). split; [lia|]. apply elem_of_seq. lia.
Qed.

(** The digits that [pretty] puts in front of [s] denote the number. *)
Lemma pretty_N_go_digits (x : N) (s : string) :
  Forall (λ c, isDigit c = true) (chars s) →
  Forall (λ c, isDigit c = true) (chars (pretty_N_go x s))
  ∧ parseDigits (chars (pretty_N_go x s))
    = Z.of_N x * 10 ^ Z.of_nat (List.length (chars s)) + parseDigits (chars s).
Proof.
  revert s. induction (N.lt_wf_0 x) as [x _ IH]; intros s Hs.
  destruct (decide (x = 0%N)) as [-> | Hx].
  - rewrite pretty_N_go_0. split; [done|]. lia.
  - rewrite pretty_N_go_step by lia.
    destruct (pretty_N_char_digit (x `mod` 10)%N) as [Hd Hv];
      [by apply N.mod_lt|].
    destruct (IH (x `div` 10)%N (N.div_lt x 10 ltac:(lia) ltac:(lia))
                 (String (pretty_N_char (x `mod` 10)) s)) as [Hall Hval].
    { by constructor. }
    split; [done|]. rewrite Hval.
    change (chars (String (pretty_N_char (x `mod` 10)) s))
      with (pretty_N_char (x `mod` 10) :: chars s).
    unfold parseDigits at 1. cbn [foldl List.length].
    rewrite parseDigits_from, Hv, Nat2Z.inj_succ, Z.pow_succ_r by lia.
    pose proof (N.div_mod x 10 ltac:(lia)) as Hdm.
    assert (Z.of_N x = 10 * Z.of_N (x `div` 10) + Z.of_N (x `mod` 10)) as ->
      by lia.
    ring.
Qed.

Lemma pretty_digits (n : Z) :
  0 ≤ n →
  ∃ d ds, chars (pretty n) = d :: ds
          ∧ Forall (λ c, isDigit c = true) (d :: ds)
          ∧ parseDigits (d :: ds) = n.
Proof.
  intros Hn. destruct n as [|p|p]; [| | lia].
  { exists "0"%char, []. split; [reflexivity|]. split; [|reflexivity].
    by repeat constructor. }
  change (pretty (Z.pos p)) with (pretty (N.pos p)).
  unfold pretty, pretty_N. rewrite decide_False by done.
  destruct (pretty_N_go_digits (N.pos p) "" (Forall_nil_2 _)) as [Hall Hval].
  cbn [chars String.list_ascii_of_string List.length] in Hval.
  change (parseDigits []) with 0 in Hval.
  destruct (chars (pretty_N_go (N.pos p) "")) as [|d ds].
  - cbn in Hval. lia.
  - exists d, ds. split; [done|]. split; [done|]. rewrite Hval. lia.
Qed.

(** A whole number of minutes written out by the template
    [`${n} minutes`] reads back as itself. *)
Lemma parse_written_minutes (n : Z) :
  0 ≤ n → parseTimeToMinutes (pretty n +:+ " minutes") = n.
Proof.
  intros Hn. destruct (pretty_digits n Hn) as (d & ds & Hc & Hall & Hval).
  unfold parseTimeToMinutes. rewrite chars_app, Hc.
  assert (Hm : matchHere ((d :: ds) ++ chars " minutes")
               = Some (d :: ds, chars "minute")).
  { unfold matchHere. rewrite (span_app isDigit (d :: ds)); [|done|by cbn]. 
    reflexivity. }
  change ((d :: ds) ++ chars " minutes") with (d :: (ds ++ chars " minutes")) in *.
  cbn [regexMatch]. rewrite Hm. by rewrite Hval.
Qed.

End WrittenDurations.

(** ** Unparseable times *)

Section DefaultTime.
Import JS Model TaskIntelligence Spec.

Lemma parseTimeToMinutes_no_match (s : string) :
  regexMatch (chars s) = None → parseTimeToMinutes s = 30.
Proof. unfold parseTimeToMinutes. by intros ->. Qed.

(** Admission looks at [timeAvailable] through [parseTimeToMinutes] only. *)
Lemma admits_time_ext ids titles (t t' : string) (node : Task) :
  parseTimeToMinutes t = parseTimeToMinutes t' →
  admits ids titles t node = admits ids titles t' node.
Proof. unfold admits. by intros ->. Qed.

Lemma availableTasks_time_ext (htaData : HtaData) (t t' : string) :
  parseTimeToMinutes t = parseTimeToMinutes t' →
  availableTasks htaData t = availableTasks htaData t'.
Proof.
  intros Ht. unfold availableTasks. apply List.filter_ext.
  intros node. by apply admits_time_ext.
Qed.

Lemma selectOptimalTask_time_ext (htaData : HtaData) (e : Z)
    (t t' ctx : string) (pc : ProjectContext) :
  parseTimeToMinutes t = parseTimeToMinutes t' →
  selectOptimalTask htaData e t ctx pc = selectOptimalTask htaData e t' ctx pc.
Proof.
  intros Ht. unfold selectOptimalTask.
  by rewrite (availableTasks_time_ext htaData t t' Ht), Ht.
Qed.

(** Admission and scoring look at a task's duration through
    [taskMinutesOf] only. *)
Lemma admits_duration_ext ids titles (t : string) (task : Task) (d : string) :
  taskMinutesOf task = parseTimeToMinutes d → d ≠ "" →
  admits ids titles t task = admits ids titles t (withDuration task d).
Proof.
  intros Hd Hne. unfold admits, taskMinutesOf in *. cbn [withDuration duration
    completed prerequisites orStr]. unfold truthyStr.
  rewrite (bool_decide_eq_false_2 (d = "")) by done. cbn [negb].
  by rewrite Hd.
Qed.

Lemma calculateTaskScore_duration_ext (task : Task) (d : string)
    (e time : Z) (ctx : string) (pc : ProjectContext) :
  taskMinutesOf task = parseTimeToMinutes d → d ≠ "" →
  calculateTaskScore task e time ctx pc
  = calculateTaskScore (withDuration task d) e time ctx pc.
Proof.
  intros Hd Hne.
  assert (Hm : taskMinutesOf (withDuration task d) = taskMinutesOf task).
  { unfold taskMinutesOf at 1. cbn [withDuration duration orStr].
    unfold truthyStr. rewrite (bool_decide_eq_false_2 (d = "")) by done.
    by rewrite Hd. }
  unfold calculateTaskScore. rewrite Hm. reflexivity.
Qed.

(** C9.  A string without a number followed by a minute or hour unit parses
    to 30 minutes.  Hence such a string given as [timeAvailable] selects
    exactly as ["30 minutes"] does, and a task whose duration is such a
    string, or is missing, is admitted and scored exactly as the same task
    with the duration ["30 minutes"]. *)
Theorem unparseable_time_is_30_minutes (s : string) :
  ¬ hasTimeExpression s →
  parseTimeToMinutes s = 30
  ∧ (∀ htaData energyLevel contextFromMemory projectContext,
       selectOptimalTask htaData energyLevel s
         contextFromMemory projectContext
       = selectOptimalTask htaData energyLevel "30 minutes"
           contextFromMemory projectContext)
  ∧ (∀ htaData, availableTasks htaData s
                = availableTasks htaData "30 minutes")
  ∧ (∀ task : Task,
       duration task = Some s ∨ duration task = None →
       taskMinutesOf task = 30
       ∧ (∀ ids titles timeAvailable,
            admits ids titles timeAvailable task
            = admits ids titles timeAvailable
                (withDuration task "30 minutes"))
       ∧ (∀ energyLevel timeInMinutes contextFromMemory projectContext,
            calculateTaskScore task energyLevel timeInMinutes
              contextFromMemory projectContext
            = calculateTaskScore
                (withDuration task "30 minutes") energyLevel timeInMinutes
                contextFromMemory projectContext)).
Proof.
  intros Hs.
  assert (H30 : parseTimeToMinutes s = 30)
    by by apply parseTimeToMinutes_no_match, regexMatch_None_iff.
  assert (Href : parseTimeToMinutes "30 minutes" = 30)
    by reflexivity.
  split; [done|]. split; [|split].
  - intros. apply selectOptimalTask_time_ext. congruence.
  - intros. apply availableTasks_time_ext. congruence.
  - intros task Hd.
    assert (Hm : taskMinutesOf task = 30).
    { unfold taskMinutesOf.
      destruct Hd as [-> | ->]; cbn [orStr]; [|done].
      destruct (truthyStr s); done. }
    split; [done|]. split; intros.
    + apply admits_duration_ext; [congruence | done].
    + apply calculateTaskScore_duration_ext; [congruence | done].
Qed.

Lemma unparseable_time_is_30_minutes_witness :
  parseTimeToMinutes "" = 30
  ∧ parseTimeToMinutes "soon" = 30
  ∧ parseTimeToMinutes "half an hour" = 30.
Proof.
  split; [|split].
  - apply (unparseable_time_is_30_minutes "").
    apply regexMatch_None_iff. vm_compute. reflexivity.
  - apply (unparseable_time_is_30_minutes "soon").
    apply regexMatch_None_iff. vm_compute. reflexivity.
  - apply (unparseable_time_is_30_minutes "half an hour").
    apply regexMatch_None_iff. vm_compute. reflexivity.
Defined.

End DefaultTime.

(** ** Admission *)

Section Admission.
Import JS Model TaskIntelligence Spec.

Lemma elem_of_completedIdSet (nodes : list Task) (p : string) :
  p ∈ completedIdSet nodes ↔ ∃ n, n ∈ nodes ∧ completed n = true ∧ id n = p.
Proof.
  unfold completedIdSet. rewrite elem_of_list_to_set, list_elem_of_fmap.
  split.
  - intros (n & -> & Hn). apply list_elem_of_In, List.filter_In in Hn as [Hn Hc].
    exists n. by rewrite list_elem_of_In.
  - intros (n & Hn & Hc & <-). exists n. split; [done|].
    apply list_elem_of_In, List.filter_In. by rewrite <- list_elem_of_In.
Qed.

(** The title map holds exactly the titles of the completed nodes; the
    invariant of the loop that fills it. *)
Lemma completedByTitle_loop (nodes : list Task) (m : gmap (option string) Task)
    (k : option string) :
  is_Some (foldl (λ m node, if completed node then <[title node := node]> m
                            else m) m nodes !! k)
  ↔ is_Some (m !! k) ∨ ∃ n, n ∈ nodes ∧ completed n = true ∧ title n = k.
Proof.
  revert m. induction nodes as [|node nodes IH]; intros m; cbn [foldl].
  - split; [auto|]. intros [? | (n & []%elem_of_nil & _)]; done.
  - rewrite IH. destruct (completed node) eqn:Hc.
    + rewrite lookup_insert_is_Some. split.
      * intros [[Hk | [_ Hm]] | (n & Hn & ?)].
        -- right. exists node. split; [left | done].
        -- by left.
        -- right. exists n. split; [by right | done].
      * intros [Hm | (n & [-> | Hn]%elem_of_cons & Hcn & Hk)].
        -- destruct (decide (title node = k)); left; [by left | by right].
        -- left. by left.
        -- right. by exists n.
    + split.
      * intros [Hm | (n & Hn & ?)]; [by left|].
        right. exists n. split; [by right | done].
      * intros [Hm | (n & [-> | Hn]%elem_of_cons & Hcn & Hk)]; [by left | | ].
        -- congruence.
        -- right. by exists n.
Qed.

Lemma completedByTitle_is_Some (nodes : list Task) (k : option string) :
  is_Some (completedByTitle nodes !! k)
  ↔ ∃ n, n ∈ nodes ∧ completed n = true ∧ title n = k.
Proof.
  unfold completedByTitle. rewrite completedByTitle_loop.
  rewrite lookup_empty. split; [|auto].
  intros [[? [=]] | ?]; done.
Qed.

(** One prerequisite passes the test of the inner loop exactly when it
    resolves to a completed task. *)
Lemma lookup_resolves (nodes : list Task) (prereq : string) :
  prereq ∈ completedIdSet nodes
  ∨ is_Some (completedByTitle nodes !! Some prereq)
  ↔ resolvesToCompleted nodes prereq.
Proof.
  rewrite elem_of_completedIdSet, completedByTitle_is_Some.
  unfold resolvesToCompleted. split.
  - intros [(n & ? & ? & ?) | (n & ? & ? & ?)]; exists n; auto.
  - intros (n & ? & ? & [? | ?]); [left | right]; exists n; auto.
Qed.

Lemma prerequisitesMet_spec (nodes : list Task) (prereqs : list string) :
  prerequisitesMet (completedIdSet nodes) (completedByTitle nodes) prereqs = true
  ↔ Forall (resolvesToCompleted nodes) prereqs.
Proof.
  induction prereqs as [|p ps IH]; cbn [prerequisitesMet].
  - split; [constructor | done].
  - rewrite Forall_cons, <- IH, <- lookup_resolves.
    repeat case_bool_decide; cbn; intuition congruence.
Qed.

Lemma admits_spec (nodes : list Task) (timeAvailable : string) (node : Task) :
  admits (completedIdSet nodes) (completedByTitle nodes) timeAvailable node = true
  ↔ completed node = false
    ∧ Forall (resolvesToCompleted nodes) (prerequisitesOf node)
    ∧ 5 * taskMinutesOf node ≤ 6 * parseTimeToMinutes timeAvailable.
Proof.
  unfold admits, prerequisitesOf.
  destruct (completed node); [intuition congruence|].
  assert (Htime :
    (if 5 * taskMinutesOf node >? 6 * parseTimeToMinutes timeAvailable
     then false else true) = true
    ↔ 5 * taskMinutesOf node ≤ 6 * parseTimeToMinutes timeAvailable).
  { destruct (Z.gtb_spec (5 * taskMinutesOf node)
                         (6 * parseTimeToMinutes timeAvailable)); split;
      (done || lia). }
  destruct (prerequisites node) as [[|p ps]|]; cbn [default].
  - rewrite Htime. split; [intros ?; by repeat split | tauto].
  - pose proof (prerequisitesMet_spec nodes (p :: ps)) as Hmet.
    destruct (prerequisitesMet _ _ (p :: ps)); cbn [negb].
    + rewrite Htime. intuition.
    + split; [done|]. intros (_ & Hall & _). apply Hmet in Hall. done.
  - rewrite Htime. split; [intros ?; by repeat split | tauto].
Qed.

(** The candidates of [selectOptimalTask]. *)
Lemma availableTasks_spec (htaData : HtaData) (timeAvailable : string)
    (node : Task) :
  node ∈ availableTasks htaData timeAvailable
  ↔ node ∈ nodesOf htaData
    ∧ completed node = false
    ∧ Forall (resolvesToCompleted (nodesOf htaData)) (prerequisitesOf node)
    ∧ 5 * taskMinutesOf node ≤ 6 * parseTimeToMinutes timeAvailable.
Proof.
  unfold availableTasks. fold (nodesOf htaData).
  rewrite list_elem_of_In, List.filter_In, admits_spec, <- list_elem_of_In.
  reflexivity.
Qed.

(** The scoring loop keeps one of the tasks it visits. *)
Lemma best_of_loop (f : Task → Z) (tasks : list Task)
    (best : option (Task * Z)) (task : Task) (score : Z) :
  foldl (λ best task, if better (f task) best then Some (task, f task) else best)
        best tasks = Some (task, score) →
  best = Some (task, score) ∨ (task ∈ tasks ∧ score = f task).
Proof.
  revert best. induction tasks as [|t tasks IH]; intros best; cbn [foldl].
  - auto.
  - intros [Hb | [Hin ->]]%IH.
    + destruct (better (f t) best); [|by left].
      injection Hb as -> ->. right. split; [left | done].
    + right. split; [by right | done].
Qed.

Lemma selectOptimalTask_candidate (htaData : HtaData) (energyLevel : Z)
    (timeAvailable contextFromMemory : string) (pc : ProjectContext)
    (task : Task) (score : Z) :
  selectOptimalTask htaData energyLevel timeAvailable contextFromMemory pc
  = Some (task, score) →
  task ∈ availableTasks htaData timeAvailable
  ∧ score = calculateTaskScore task energyLevel
              (parseTimeToMinutes timeAvailable) contextFromMemory pc.
Proof.
  unfold selectOptimalTask.
  destruct (availableTasks htaData timeAvailable) as [|t ts]; [done|].
  intros [[=] | ?]%best_of_loop. done.
Qed.

(** C1.  A task is a candidate of [selectOptimalTask] only if it is not
    completed and each of its prerequisites is the id or the title of a
    completed task of the same document.  A task with a prerequisite that
    only uncompleted tasks bear as id or title, or that no task bears, is
    not a candidate; and the task that is returned is a candidate. *)
Theorem admission_requires_completed_prerequisites
    (htaData : HtaData) (timeAvailable : string) (node : Task) :
  (node ∈ availableTasks htaData timeAvailable →
     completed node = false
     ∧ Forall (λ prereq,
                 ∃ n, n ∈ nodesOf htaData ∧ completed n = true
                      ∧ (id n = prereq ∨ title n = Some prereq))
              (prerequisitesOf node))
  ∧ ((∃ prereq, prereq ∈ prerequisitesOf node
                ∧ ∀ n, n ∈ nodesOf htaData →
                       id n = prereq ∨ title n = Some prereq →
                       completed n = false) →
     node ∉ availableTasks htaData timeAvailable)
  ∧ (∀ energyLevel contextFromMemory projectContext score,
       selectOptimalTask htaData energyLevel timeAvailable contextFromMemory
         projectContext = Some (node, score) →
       node ∈ availableTasks htaData timeAvailable).
Proof.
  split; [|split].
  - intros (_ & Hc & Hall & _)%availableTasks_spec. done.
  - intros (prereq & Hin & Hopen) (_ & _ & Hall & _)%availableTasks_spec.
    rewrite Forall_forall in Hall.
    destruct (Hall prereq Hin) as (n & Hn & Hc & Hp).
    specialize (Hopen n Hn Hp). congruence.
  - intros e ctx pc score Hsel.
    by apply selectOptimalTask_candidate in Hsel as [? _].
Qed.

Lemma admission_requires_completed_prerequisites_witness :
  (completed Examples.byId = false
   ∧ Forall (λ prereq,
               ∃ n, n ∈ nodesOf Examples.chords ∧ completed n = true
                    ∧ (id n = prereq ∨ title n = Some prereq))
            (prerequisitesOf Examples.byId))
  ∧ (Examples.onOpen ∉ availableTasks Examples.chords "30 minutes")
  ∧ (Examples.onAbsent ∉ availableTasks Examples.chords "30 minutes").
Proof.
  split; [|split].
  - apply (admission_requires_completed_prerequisites
             Examples.chords "30 minutes" Examples.byId).
    vm_compute. right. left.
  - apply (admission_requires_completed_prerequisites
             Examples.chords "30 minutes" Examples.onOpen).
    exists "B". split; [vm_compute; left|].
    intros n Hn Hp. vm_compute in Hn.
    repeat (apply elem_of_cons in Hn as [-> | Hn]; [try reflexivity|]);
      try by apply elem_of_nil in Hn.
    all: by destruct Hp as [[=] | [=]].
  - apply (admission_requires_completed_prerequisites
             Examples.chords "30 minutes" Examples.onAbsent).
    exists "Z". split; [vm_compute; left|].
    intros n Hn Hp. vm_compute in Hn.
    repeat (apply elem_of_cons in Hn as [-> | Hn]; [try reflexivity|]);
      try by apply elem_of_nil in Hn.
    all: by destruct Hp as [[=] | [=]].
Defined.

(** C2.  A candidate's duration is at most 1.2 times the time available
    (5 d ≤ 6 t on the parsed minutes).  With 10 minutes available a
    13-minute task is not a candidate, and a 12-minute task that is open
    and has its prerequisites resolved is one. *)
Theorem admission_time_cutoff
    (htaData : HtaData) (timeAvailable : string) (node : Task) :
  (node ∈ availableTasks htaData timeAvailable →
     5 * taskMinutesOf node ≤ 6 * parseTimeToMinutes timeAvailable)
  ∧ (parseTimeToMinutes timeAvailable = 10 → taskMinutesOf node = 13 →
     node ∉ availableTasks htaData timeAvailable)
  ∧ (parseTimeToMinutes timeAvailable = 10 → taskMinutesOf node = 12 →
     node ∈ nodesOf htaData → completed node = false →
     Forall (resolvesToCompleted (nodesOf htaData)) (prerequisitesOf node) →
     node ∈ availableTasks htaData timeAvailable).
Proof.
  split; [|split].
  - by intros (_ & _ & _ & Ht)%availableTasks_spec.
  - intros Ht Hd (_ & _ & _ & Hle)%availableTasks_spec. lia.
  - intros Ht Hd Hin Hc Hall. apply availableTasks_spec.
    repeat split; [done..|]. lia.
Qed.

Lemma admission_time_cutoff_witness :
  5 * taskMinutesOf Examples.twelve ≤ 6 * parseTimeToMinutes "10 minutes"
  ∧ (Examples.thirteen ∉ availableTasks Examples.shortSlot "10 minutes")
  ∧ Examples.twelve ∈ availableTasks Examples.shortSlot "10 minutes".
Proof.
  split; [|split].
  - apply (admission_time_cutoff Examples.shortSlot "10 minutes" Examples.twelve).
    vm_compute. left.
  - apply (admission_time_cutoff Examples.shortSlot "10 minutes" Examples.thirteen);
      reflexivity.
  - apply (admission_time_cutoff Examples.shortSlot "10 minutes" Examples.twelve);
      try reflexivity.
    + vm_compute. left.
    + constructor.
Defined.

End Admission.

(** ** Scoring *)

Section Scoring.
Import JS Model TaskIntelligence Spec.

(** The score of a task that is neither generated nor a breakthrough
    opportunity, without context from memory and with time to spare:
    priority, energy match, 50 for the fit, 100 when on the goal. *)
Lemma calculateTaskScore_plain (task : Task) (energyLevel timeInMinutes : Z)
    (pc : ProjectContext) (p d : Z) :
  priority task = Some p → p ≠ 0 →
  difficulty task = Some d → d ≠ 0 →
  taskMinutesOf task ≤ timeInMinutes →
  generated task = false →
  opportunityType task ≠ Some "breakthrough_amplification" →
  calculateTaskScore task energyLevel timeInMinutes "" pc
  = p + 20 * (5 - Z.abs (energyLevel - d)) + 50
    + (if isDomainRelevant task pc then 100 else 0).
Proof.
  intros Hp Hp0 Hd Hd0 Hfit Hg Ho. unfold calculateTaskScore.
  rewrite Hp, Hd, Hg. cbn [orNum]. unfold truthyNum.
  rewrite (proj2 (Z.eqb_neq p 0)), (proj2 (Z.eqb_neq d 0)) by done.
  cbn [negb]. rewrite bool_decide_eq_false_2 by done.
  destruct (Z.geb_spec timeInMinutes (taskMinutesOf task)); [|lia].
  change (truthyStr "") with false. cbn [andb].
  destruct (isDomainRelevant task pc); lia.
Qed.

(** C4, as stated: in the scenario the score of TaskA is not 390. *)
Lemma scenario_taskA_score_is_not_390 :
  availableTasks Examples.scenario "30 minutes"
  = [Examples.taskA; Examples.taskB]
  ∧ difficulty Examples.taskA = Some 3
  ∧ taskMinutesOf Examples.taskA = 25
  ∧ priority Examples.taskA = Some 200
  ∧ isDomainRelevant Examples.taskA Examples.guitarContext = true
  ∧ difficulty Examples.taskB = Some 1
  ∧ taskMinutesOf Examples.taskB = 5
  ∧ priority Examples.taskB = Some 200
  ∧ isDomainRelevant Examples.taskB Examples.guitarContext = false
  ∧ calculateTaskScore Examples.taskA 3 (parseTimeToMinutes "30 minutes") ""
      Examples.guitarContext ≠ 390.
Proof. vm_compute. repeat split; congruence. Qed.

(** C4, amended.  With energy 3 and 30 minutes, when the candidates are
    TaskA (difficulty 3, 25 minutes, priority 200, on the goal) and TaskB
    (difficulty 1, 5 minutes, priority 200, off the goal), neither
    generated nor a breakthrough opportunity, and no context from memory,
    the energy-match term is 20 (5 - |energy - difficulty|): 100 for TaskA
    and 60 for TaskB; the scores are 450 = 200 + 100 + 50 + 100 and
    310 = 200 + 60 + 50 + 0; and TaskA is returned. *)
Theorem scenario_scores (htaData : HtaData) (pc : ProjectContext)
    (A B : Task) :
  availableTasks htaData "30 minutes" = [A; B]
  ∨ availableTasks htaData "30 minutes" = [B; A] →
  difficulty A = Some 3 → taskMinutesOf A = 25 → priority A = Some 200 →
  isDomainRelevant A pc = true →
  difficulty B = Some 1 → taskMinutesOf B = 5 → priority B = Some 200 →
  isDomainRelevant B pc = false →
  generated A = false → generated B = false →
  opportunityType A ≠ Some "breakthrough_amplification" →
  opportunityType B ≠ Some "breakthrough_amplification" →
  calculateTaskScore A 3 (parseTimeToMinutes "30 minutes") "" pc
  = 200 + 20 * (5 - Z.abs (3 - 3)) + 50 + 100
  ∧ calculateTaskScore A 3 (parseTimeToMinutes "30 minutes") "" pc = 450
  ∧ calculateTaskScore B 3 (parseTimeToMinutes "30 minutes") "" pc
    = 200 + 20 * (5 - Z.abs (3 - 1)) + 50 + 0
  ∧ calculateTaskScore B 3 (parseTimeToMinutes "30 minutes") "" pc = 310
  ∧ selectOptimalTask htaData 3 "30 minutes" "" pc = Some (A, 450).
Proof.
  intros Hav HdA HmA HpA HrA HdB HmB HpB HrB HgA HgB HoA HoB.
  change (parseTimeToMinutes "30 minutes") with 30.
  assert (HA : calculateTaskScore A 3 30 "" pc = 450).
  { rewrite (calculateTaskScore_plain A 3 30 pc 200 3); try done; [|lia].
    by rewrite HrA. }
  assert (HB : calculateTaskScore B 3 30 "" pc = 310).
  { rewrite (calculateTaskScore_plain B 3 30 pc 200 1); try done; [|lia].
    by rewrite HrB. }
  repeat split; try done.
  unfold selectOptimalTask.
  change (parseTimeToMinutes "30 minutes") with 30.
  destruct Hav as [-> | ->]; cbn [foldl]; rewrite HA, HB; reflexivity.
Qed.

Lemma scenario_scores_witness :
  calculateTaskScore Examples.taskA 3 (parseTimeToMinutes "30 minutes") ""
    Examples.guitarContext = 450
  ∧ calculateTaskScore Examples.taskB 3 (parseTimeToMinutes "30 minutes") ""
      Examples.guitarContext = 310
  ∧ selectOptimalTask Examples.scenario 3 "30 minutes" ""
      Examples.guitarContext = Some (Examples.taskA, 450).
Proof.
  destruct (scenario_scores Examples.scenario Examples.guitarContext
              Examples.taskA Examples.taskB)
    as (_ & HA & _ & HB & Hsel);
    [left; vm_compute; reflexivity | try (vm_compute; congruence).. | ].
  by repeat split.
Defined.

End Scoring.

(** ** Strategy evolution *)

Section Evolution.
Import JS Model TaskIntelligence Spec.

(** Membership of a literal in a list of literals built with [++]. *)
Ltac indicators :=
  rewrite ?elem_of_app, ?elem_of_cons, ?elem_of_nil;
  intuition (try discriminate; try lia; auto).

(** *** The stall indicators *)

Lemma indicator_no_available_tasks (now : Z) (htaData : HtaData)
    (history : LearningHistory) :
  "no_available_tasks" ∈ detectStuckIndicators now htaData history
  ↔ getAvailableTasksCount htaData = 0.
Proof.
  unfold detectStuckIndicators.
  destruct (Z.eqb_spec (getAvailableTasksCount htaData) 0) as [Ha | Ha];
    repeat case_match; indicators.
Qed.

Lemma foldl_energy (window : list Topic) (acc : Z) :
  foldl (λ sum c, sum + orNum (energyAfter c) 3) acc window
  = acc + foldr Z.add 0 (energyOf <$> window).
Proof.
  revert acc. induction window as [|c w IH]; intros acc; cbn; [lia|].
  rewrite IH. unfold energyOf. lia.
Qed.

Lemma indicator_low_engagement (now : Z) (htaData : HtaData)
    (history : LearningHistory) :
  "low_engagement" ∈ detectStuckIndicators now htaData history
  ↔ meanEnergyBelow2_5 (recentCompletions now history) = true.
Proof.
  unfold detectStuckIndicators, meanEnergyBelow2_5.
  rewrite foldl_energy, Z.add_0_l.
  repeat case_match; indicators.
Qed.

Lemma indicator_no_recent_progress (now : Z) (htaData : HtaData)
    (history : LearningHistory) :
  "no_recent_progress" ∈ detectStuckIndicators now htaData history
  ↔ recentCompletions now history = [].
Proof.
  unfold detectStuckIndicators.
  destruct (recentCompletions now history) as [|c w] eqn:Hr; cbn [List.length].
  - change (Z.of_nat 0 =? 0) with true. cbn iota.
    repeat case_match; indicators.
  - rewrite (proj2 (Z.eqb_neq (Z.of_nat (S (List.length w))) 0)) by lia.
    repeat case_match; indicators.
Qed.

(** *** The decision *)

(** The strategy chosen on the analysis of a document is the first
    matching row of the decision table. *)
Lemma recommendedEvolution_table (now : Z) (st : Store)
    (projectId pathName feedback : string) :
  let htaData := default emptyHta (loadPathHTA st projectId pathName) in
  let history := default {| completedTopics := None |}
                   (loadLearningHistory st projectId pathName) in
  recommendedEvolution (analyzeCurrentStrategy now st projectId pathName feedback)
  = Some (diagnosisName
            (decisionTable
               (getAvailableTasksCount htaData =? 0)
               (meanEnergyBelow2_5 (recentCompletions now history))
               (bool_decide (sentiment (analyzeFeedback feedback) = "negative"))
               (getAvailableTasksCount htaData))).
Proof.
  intros htaData history.
  unfold analyzeCurrentStrategy. fold htaData history.
  cbn [recommendedEvolution]. f_equal.
  unfold determineEvolutionStrategy.
  cbn [stuckIndicators userFeedback availableCount].
  pose proof (indicator_no_available_tasks now htaData history) as Hno.
  pose proof (indicator_low_engagement now htaData history) as Hlow.
  unfold decisionTable, firstMatch.
  destruct (Z.eqb_spec (getAvailableTasksCount htaData) 0) as [H0 | H0].
  - rewrite bool_decide_eq_true_2 by by apply Hno. reflexivity.
  - rewrite bool_decide_eq_false_2 by by rewrite Hno.
    destruct (meanEnergyBelow2_5 (recentCompletions now history)).
    + rewrite bool_decide_eq_true_2 by by apply Hlow. reflexivity.
    + rewrite bool_decide_eq_false_2 by (rewrite Hlow; done).
      cbn [List.filter fst].
      destruct (bool_decide (sentiment (analyzeFeedback feedback) = "negative"));
        [reflexivity|].
      destruct (getAvailableTasksCount htaData <? 3); reflexivity.
Qed.

(** *** Admissible tasks, as the analysis counts them *)

Lemma count_resolves (nodes : list Task) (prereq : string) :
  bool_decide (prereq ∈ id <$> List.filter completed nodes)
  || existsb (λ n, bool_decide (title n = Some prereq) && completed n) nodes
  = true
  ↔ resolvesToCompleted nodes prereq.
Proof.
  rewrite orb_true_iff, bool_decide_eq_true, existsb_exists, list_elem_of_fmap.
  unfold resolvesToCompleted. split.
  - intros [(n & -> & Hn) | (n & Hn & Ht)].
    + apply list_elem_of_In, List.filter_In in Hn as [Hn Hc].
      exists n. rewrite list_elem_of_In. auto.
    + apply andb_true_iff in Ht as [Ht%bool_decide_eq_true Hc].
      exists n. rewrite list_elem_of_In. auto.
  - intros (n & Hn & Hc & [Hi | Ht]).
    + left. exists n. split; [done|].
      apply list_elem_of_In, List.filter_In. by rewrite <- list_elem_of_In.
    + right. exists n. rewrite <- list_elem_of_In. split; [done|].
      by rewrite Hc, bool_decide_eq_true_2.
Qed.

Lemma filter_length_zero {A} (f : A → bool) (l : list A) :
  Z.of_nat (List.length (List.filter f l)) = 0 ↔ ∀ x, x ∈ l → f x = false.
Proof.
  induction l as [|a l IH]; cbn.
  - split; [|done]. by intros _ x ?%elem_of_nil.
  - destruct (f a) eqn:Ha; cbn [List.length].
    + split; [lia|]. intros Hall. specialize (Hall a (list_elem_of_here _ _)).
      congruence.
    + rewrite IH. split.
      * intros Hall x [-> | Hx]%elem_of_cons; auto.
      * intros Hall x Hx. apply Hall. by right.
Qed.

(** The count is zero exactly when no task of the document is admissible
    by rules 1 and 2. *)
Lemma getAvailableTasksCount_zero (htaData : HtaData) :
  getAvailableTasksCount htaData = 0
  ↔ ∀ n, n ∈ nodesOf htaData → ¬ admissible (nodesOf htaData) n.
Proof.
  unfold getAvailableTasksCount. fold (nodesOf htaData).
  rewrite filter_length_zero. unfold admissible, prerequisitesOf.
  apply forall_proper; intros n. apply forall_proper; intros Hn.
  destruct (completed n); [intuition congruence|].
  destruct (prerequisites n) as [[|p ps]|]; cbn [default].
  - split; [done|]. intros Hno. destruct Hno. by split.
  - rewrite <- not_true_iff_false, forallb_forall.
    split.
    + intros Hnot [_ Hall]. apply Hnot. intros q Hq.
      apply count_resolves. rewrite Forall_forall in Hall.
      apply Hall. by apply list_elem_of_In.
    + intros Hnot Hall. apply Hnot. split; [done|].
      apply Forall_forall. intros q Hq. apply count_resolves, Hall.
      by apply list_elem_of_In.
  - split; [done|]. intros Hno. destruct Hno. by split.
Qed.

Lemma getAvailableTasksCount_nonneg (htaData : HtaData) :
  0 ≤ getAvailableTasksCount htaData.
Proof. unfold getAvailableTasksCount. lia. Qed.

(** *** The synthesized tasks *)

Lemma generateExplorationTasks_boosted (config : Config) (startId : Z) :
  Forall boosted (generateExplorationTasks config startId)
  ∧ generateExplorationTasks config startId ≠ [].
Proof.
  split; [|done]. unfold generateExplorationTasks, boosted.
  repeat constructor; cbn; eexists; (split; [reflexivity | lia]).
Qed.

Lemma interestTasks_boosted (interests : list string) (startId i : Z)
    (fuel : nat) :
  Forall boosted (interestTasks interests startId i fuel)
  ∧ (List.length (interestTasks interests startId i fuel) ≤ fuel)%nat.
Proof.
  revert i fuel. induction interests as [|interest rest IH]; intros i fuel.
  - destruct fuel; cbn; (split; [constructor | lia]).
  - destruct fuel as [|fuel]; cbn [interestTasks].
    + split; [constructor | cbn; lia].
    + destruct (IH (i + 1) fuel) as [Hb Hl]. split.
      * constructor; [|done]. split; [done|]. exists 300. split; [done | lia].
      * cbn [List.length]. lia.
Qed.

Lemma generateConcernAddressingTasks_boosted (feedback : Feedback) (startId : Z) :
  Forall boosted (generateConcernAddressingTasks feedback startId).
Proof.
  repeat constructor. exists 280. split; [done | lia].
Qed.

Lemma generateProgressiveTasks_boosted (htaData : HtaData) (startId : Z) :
  Forall boosted (generateProgressiveTasks htaData startId).
Proof.
  unfold generateProgressiveTasks. destruct (last _).
  - repeat constructor. exists 270. split; [done | lia].
  - apply generateExplorationTasks_boosted.
Qed.

(** Whatever the strategy, at most five tasks come back, all boosted. *)
Lemma generateSmartNextTasks_boosted (st : Store) (projectId pathName : string)
    (analysis : Analysis) (newTasks : list Task) :
  generateSmartNextTasks st projectId pathName analysis = inr newTasks →
  Forall boosted newTasks ∧ (List.length newTasks ≤ 5)%nat.
Proof.
  unfold generateSmartNextTasks, withConfig, slice05.
  assert (Htake : ∀ l : list Task, Forall boosted l →
            Forall boosted (take 5 l) ∧ (List.length (take 5 l) ≤ 5)%nat).
  { intros l Hl. split; [by apply Forall_take|].
    rewrite length_take. lia. }
  repeat case_bool_decide; destruct (loadConfig st projectId);
    cbn [bind]; unfold ret, throw; intros Heq;
    (discriminate Heq || (apply (inj inr) in Heq; rewrite <- Heq; apply Htake)).
  all: first [ apply generateExplorationTasks_boosted
             | apply interestTasks_boosted
             | apply generateConcernAddressingTasks_boosted
             | apply generateProgressiveTasks_boosted
             | constructor ].
Qed.

(** With the configuration in place nothing is thrown; the first strategy
    yields tasks and the last yields none. *)
Lemma generateSmartNextTasks_total (st : Store) (projectId pathName : string)
    (analysis : Analysis) (config : Config) :
  loadConfig st projectId = Some config →
  ∃ newTasks,
    generateSmartNextTasks st projectId pathName analysis = inr newTasks
    ∧ (recommendedEvolution analysis = Some "generate_new_tasks" →
       newTasks ≠ [])
    ∧ (recommendedEvolution analysis = Some "optimize_existing_sequence" →
       newTasks = []).
Proof.
  intros Hc. unfold generateSmartNextTasks, withConfig, slice05. rewrite Hc.
  repeat case_bool_decide; cbn [bind]; unfold ret; eexists;
    (split; [reflexivity|]); split; intros Hs; try congruence; try done.
Qed.

(** The reply of [evolveStrategy] when a project is active and configured,
    and what it stores. *)
Lemma evolveStrategy_configured (now : Z) (nowIso feedback : string)
    (st : Store) (projectId : string) (config : Config) :
  activeProject st = Some projectId →
  configs st !! projectId = Some config →
  let pathName := orStr (activePath config) "general" in
  let analysis := analyzeCurrentStrategy now st projectId pathName feedback in
  ∃ newTasks st',
    generateSmartNextTasks st projectId pathName analysis = inr newTasks
    ∧ evolveStrategy now nowIso feedback st
      = (inr {| strategy_analysis := analysis; new_tasks := newTasks;
                feedback_processed := orStr (Some feedback) "none" |}, st').
Proof.
  intros Hp Hc pathName analysis.
  destruct (generateSmartNextTasks_total st projectId pathName analysis config Hc)
    as (newTasks & Hgen & _).
  exists newTasks. unfold evolveStrategy, evolveStrategyTry, requireActiveProject.
  rewrite Hp. unfold ret at 1. cbn [bind]. unfold loadConfig at 1. rewrite Hc.
  unfold ret at 1. cbn [bind]. fold pathName. fold analysis. rewrite Hgen.
  cbn [bind]. unfold ret. eauto.
Qed.

(** The reply of [evolveStrategy] on a configured active project carries
    the diagnosis of the decision table and the tasks synthesized for it. *)
Lemma evolveStrategy_diagnosis (now : Z) (nowIso feedback : string)
    (st : Store) (projectId : string) (config : Config) :
  activeProject st = Some projectId →
  configs st !! projectId = Some config →
  let pathName := orStr (activePath config) "general" in
  let htaData := default emptyHta (loadPathHTA st projectId pathName) in
  let history := default {| completedTopics := None |}
                   (loadLearningHistory st projectId pathName) in
  ∃ result st',
    evolveStrategy now nowIso feedback st = (inr result, st')
    ∧ recommendedEvolution (strategy_analysis result)
      = Some (diagnosisName
                (decisionTable
                   (getAvailableTasksCount htaData =? 0)
                   (meanEnergyBelow2_5 (recentCompletions now history))
                   (bool_decide
                      (sentiment (analyzeFeedback feedback) = "negative"))
                   (getAvailableTasksCount htaData)))
    ∧ generateSmartNextTasks st projectId pathName (strategy_analysis result)
      = inr (new_tasks result).
Proof.
  intros Hp Hc pathName htaData history.
  destruct (evolveStrategy_configured now nowIso feedback st projectId config
              Hp Hc) as (newTasks & st' & Hgen & Hev).
  fold pathName in Hgen, Hev.
  eexists _, st'. split; [exact Hev|]. cbn [strategy_analysis new_tasks].
  split; [|exact Hgen].
  exact (recommendedEvolution_table now st projectId pathName feedback).
Qed.

(** C5.  On a configured active project [evolveStrategy] replies with
    the diagnosis of the decision table read in priority order (no
    available tasks, low engagement, negative feedback, fewer than 3
    admissible tasks, otherwise optimize); optimize comes with no new
    task; and a document without admissible tasks gets the diagnosis
    generate_new_tasks with at least one new task, each generated. *)
Theorem strategy_decision_table (now : Z) (nowIso feedback : string)
    (st : Store) (projectId : string) (config : Config) :
  activeProject st = Some projectId →
  configs st !! projectId = Some config →
  let pathName := orStr (activePath config) "general" in
  let htaData := default emptyHta (loadPathHTA st projectId pathName) in
  let history := default {| completedTopics := None |}
                   (loadLearningHistory st projectId pathName) in
  let diagnosis :=
    decisionTable
      (getAvailableTasksCount htaData =? 0)
      (meanEnergyBelow2_5 (recentCompletions now history))
      (bool_decide (sentiment (analyzeFeedback feedback) = "negative"))
      (getAvailableTasksCount htaData) in
  ∃ result st',
    evolveStrategy now nowIso feedback st = (inr result, st')
    ∧ recommendedEvolution (strategy_analysis result)
      = Some (diagnosisName diagnosis)
    ∧ (diagnosis = OptimizeExisting → new_tasks result = [])
    ∧ ((∀ n, n ∈ nodesOf htaData → ¬ admissible (nodesOf htaData) n) →
       diagnosis = GenerateNewTasks
       ∧ new_tasks result ≠ []
       ∧ Forall (λ task, generated task = true) (new_tasks result)).
Proof.
  intros Hp Hc pathName htaData history diagnosis.
  destruct (evolveStrategy_diagnosis now nowIso feedback st projectId config
              Hp Hc) as (result & st' & Hev & Hrec & Hgen).
  fold pathName htaData history diagnosis in Hrec. fold pathName in Hgen.
  destruct (generateSmartNextTasks_total st projectId pathName
              (strategy_analysis result) config Hc)
    as (newTasks & Hgen' & Hsome & Hnone).
  rewrite Hgen in Hgen'. injection Hgen' as <-.
  exists result, st'. split; [exact Hev|]. split; [exact Hrec|]. split.
  - intros Hd. apply Hnone. by rewrite Hrec, Hd.
  - intros Hstall. apply getAvailableTasksCount_zero in Hstall.
    assert (Hd : diagnosis = GenerateNewTasks).
    { unfold diagnosis. fold htaData in Hstall. by rewrite Hstall. }
    split; [done|]. split.
    + apply Hsome. by rewrite Hrec, Hd.
    + apply generateSmartNextTasks_boosted in Hgen as [Hb _].
      eapply Forall_impl; [exact Hb|]. by intros task [Hg _].
Qed.

Lemma strategy_decision_table_witness :
  ∃ result st',
    evolveStrategy 0 "2025-06-17T00:00:00.000Z" "" Examples.stalledStore
    = (inr result, st')
    ∧ recommendedEvolution (strategy_analysis result)
      = Some "generate_new_tasks"
    ∧ new_tasks result ≠ []
    ∧ Forall (λ task, generated task = true) (new_tasks result).
Proof.
  destruct (strategy_decision_table 0 "2025-06-17T00:00:00.000Z" ""
              Examples.stalledStore "guitar" Examples.guitarConfig
              eq_refl eq_refl)
    as (result & st' & Hev & Hrec & _ & Hstall).
  exists result, st'. split; [exact Hev|].
  destruct Hstall as (Hd & Hne & Hall);
    [apply getAvailableTasksCount_zero; vm_compute; reflexivity|].
  split; [|done]. rewrite Hrec. by rewrite Hd.
Defined.

(** C7.  One call of [evolveStrategy] appends at most five tasks, to the
    active document only; each appended task is generated and has a
    priority above 200.  The tasks appended are the [new_tasks] of the
    reply, and none when the call fails. *)
Theorem evolveStrategy_appends_at_most_five (now : Z) (nowIso feedback : string)
    (st : Store) :
  ∃ newTasks,
    (List.length newTasks ≤ 5)%nat
    ∧ Forall (λ task, generated task = true
                      ∧ ∃ p, priority task = Some p ∧ 200 < p) newTasks
    ∧ match fst (evolveStrategy now nowIso feedback st) with
      | inr result => new_tasks result = newTasks
      | inl _ => newTasks = []
      end
    ∧ ∀ key,
        storedNodes (snd (evolveStrategy now nowIso feedback st)) key
        = storedNodes st key
          ++ (if bool_decide (activeDocument st = Some key) then newTasks
              else []).
Proof.
  assert (Hfail : ∀ (b : bool) key,
            storedNodes (logError st "evolveStrategy") key
            = storedNodes st key ++ (if b then [] else [])).
  { intros b key. destruct b; by rewrite app_nil_r. }
  destruct (evolveStrategy now nowIso feedback st) as [reply st'] eqn:Hev.
  cbn [fst snd]. revert Hev.
  unfold evolveStrategy, evolveStrategyTry, requireActiveProject, activeDocument,
    loadConfig.
  destruct (activeProject st) as [projectId|] eqn:Hp;
    cbn [bind throw ret mbind option_bind];
    [|intros [= <- <-]; exists []; split; [cbn; lia|]; split; [constructor|];
      split; [done|]; intros key; apply Hfail].
  destruct (configs st !! projectId) as [config|] eqn:Hc;
    cbn [bind throw ret mbind option_bind];
    [|intros [= <- <-]; exists []; split; [cbn; lia|]; split; [constructor|];
      split; [done|]; intros key; apply Hfail].
  set (pathName := orStr (activePath config) "general").
  set (analysis := analyzeCurrentStrategy now st projectId pathName feedback).
  destruct (generateSmartNextTasks st projectId pathName analysis)
    as [e | newTasks] eqn:Hgen; cbn [bind];
    [intros [= <- <-]; exists []; split; [cbn; lia|]; split; [constructor|];
     split; [done|]; intros key; apply Hfail|].
  unfold ret. intros Hev. apply (inj2 pair) in Hev as [<- <-].
  cbn [new_tasks].
  destruct (generateSmartNextTasks_boosted _ _ _ _ _ Hgen) as [Hb Hl].
  exists newTasks. repeat split; [done | done |].
  intros key. unfold storedNodes.
  destruct (Z.ltb_spec 0 (Z.of_nat (List.length newTasks))) as [Hpos | Hnil].
  - unfold savePathHTA, loadPathHTA. cbn [htas].
    destruct (decide ((projectId, pathName) = key)) as [<- | Hne].
    + rewrite lookup_insert_eq, bool_decide_eq_true_2 by done. reflexivity.
    + rewrite lookup_insert_ne by done.
      rewrite bool_decide_eq_false_2 by congruence. by rewrite app_nil_r.
  - destruct newTasks; [|cbn in Hnil; lia].
    case_bool_decide; by rewrite app_nil_r.
Qed.

(** C10.  When no completion falls in the trailing 7 days, the indicators
    contain low_engagement besides no_recent_progress (the mean over the
    empty window counts as 0 < 2.5); then, for a document that still has
    an admissible task, [evolveStrategy] chooses
    increase_variety_and_interest whatever the feedback. *)
Theorem empty_window_forces_variety (now : Z) (htaData : HtaData)
    (history : LearningHistory) :
  recentCompletions now history = [] →
  "low_engagement" ∈ detectStuckIndicators now htaData history
  ∧ "no_recent_progress" ∈ detectStuckIndicators now htaData history
  ∧ meanEnergyBelow2_5 (recentCompletions now history) = true
  ∧ ∀ (nowIso feedback : string) (st : Store) (projectId : string)
      (config : Config),
      activeProject st = Some projectId →
      configs st !! projectId = Some config →
      default emptyHta
        (loadPathHTA st projectId (orStr (activePath config) "general"))
      = htaData →
      default {| completedTopics := None |}
        (loadLearningHistory st projectId (orStr (activePath config) "general"))
      = history →
      (∃ n, n ∈ nodesOf htaData ∧ admissible (nodesOf htaData) n) →
      ∃ result st',
        evolveStrategy now nowIso feedback st = (inr result, st')
        ∧ recommendedEvolution (strategy_analysis result)
          = Some "increase_variety_and_interest".
Proof.
  intros Hempty.
  assert (Hlow : meanEnergyBelow2_5 (recentCompletions now history) = true)
    by by rewrite Hempty.
  split; [by apply indicator_low_engagement|].
  split; [by apply indicator_no_recent_progress|].
  split; [done|].
  intros nowIso feedback st projectId config Hp Hc Hdoc Hhist (n & Hn & Hadm).
  destruct (evolveStrategy_diagnosis now nowIso feedback st projectId config
              Hp Hc) as (result & st' & Hev & Hrec & _).
  exists result, st'. split; [done|]. rewrite Hrec, Hdoc, Hhist, Hlow.
  destruct (Z.eqb_spec (getAvailableTasksCount htaData) 0) as [H0 | H0];
    [|reflexivity].
  pose proof (proj1 (getAvailableTasksCount_zero htaData) H0) as Hno.
  by destruct (Hno n Hn).
Qed.

Lemma empty_window_forces_variety_witness :
  "low_engagement"
    ∈ detectStuckIndicators 0 Examples.chords Examples.noHistory
  ∧ "no_recent_progress"
      ∈ detectStuckIndicators 0 Examples.chords Examples.noHistory
  ∧ ∃ result st',
      evolveStrategy 0 "2025-06-17T00:00:00.000Z" "great progress"
        Examples.readyStore = (inr result, st')
      ∧ recommendedEvolution (strategy_analysis result)
        = Some "increase_variety_and_interest".
Proof.
  destruct (empty_window_forces_variety 0 Examples.chords Examples.noHistory
              eq_refl) as (Hlow & Hrecent & _ & Hev).
  split; [exact Hlow|]. split; [exact Hrecent|].
  apply (Hev "2025-06-17T00:00:00.000Z" "great progress" Examples.readyStore
             "guitar" Examples.guitarConfig eq_refl eq_refl eq_refl eq_refl).
  exists Examples.holding. split.
  - vm_compute. right. left.
  - split; [reflexivity | constructor].
Defined.

End Evolution.

(** ** Frontier generation *)

Section Generation.
Import JS Model HtaTreeBuilder Spec.
Import TaskIntelligence.
Context {O : Type} `{LlmInterface O}.
Variable JSON_parse_strings : string → Parsed string.
Variable JSON_parse_tasks : string → Parsed AiTask.

Lemma elem_of_mapi {A B} (f : A → Z → B) (l : list A) (y : B) :
  y ∈ mapi f l → ∃ x i, x ∈ l ∧ y = f x i.
Proof.
  unfold mapi. intros (i & x & -> & Hx)%elem_of_lookup_imap.
  exists x, (Z.of_nat i). split; [|done]. by eapply list_elem_of_lookup_2.
Qed.

Lemma length_mapi {A B} (f : A → Z → B) (l : list A) :
  List.length (mapi f l) = List.length l.
Proof. unfold mapi. apply length_imap. Qed.

(** Every node that [generateBranchNodesAI] returns is made from a
    proposed task whose title is not among the completed titles, clamped
    to the level. *)
Lemma generateBranchNodesAI_origin (b : Builder O) (branch : Branch)
    (interests : list string) (learningStyle : string) (knowledgeLevel : Z)
    (completedTasks : list (option string)) (startNodeId : Z)
    (context : string) (node : Task) :
  node ∈ fst (generateBranchNodesAI JSON_parse_tasks b branch interests
                learningStyle knowledgeLevel completedTasks startNodeId context) →
  ∃ t i,
    t ∈ fst (requestTasks JSON_parse_tasks b branch interests learningStyle
               knowledgeLevel context)
    ∧ (ai_title t ∉ completedTasks)
    ∧ node = toNode branch startNodeId (clampToLevel knowledgeLevel t) i.
Proof.
  unfold generateBranchNodesAI.
  destruct (requestTasks _ b branch interests learningStyle knowledgeLevel
              context) as [tasks b'].
  cbn [fst]. intros (t' & i & Ht' & ->)%elem_of_mapi.
  apply list_elem_of_fmap in Ht' as (t & -> & Ht).
  apply list_elem_of_In, List.filter_In in Ht as [Ht Hf].
  exists t, i. rewrite list_elem_of_In. split; [done|]. split; [|done].
  apply negb_true_iff, bool_decide_eq_false in Hf. done.
Qed.

Lemma clampToLevel_title (knowledgeLevel : Z) (t : AiTask) :
  ai_title (clampToLevel knowledgeLevel t) = ai_title t.
Proof. unfold clampToLevel. by repeat case_match. Qed.

Lemma generateBranchNodesAI_not_completed (b : Builder O) (branch : Branch)
    (interests : list string) (learningStyle : string) (knowledgeLevel : Z)
    (completedTasks : list (option string)) (startNodeId : Z)
    (context : string) (node : Task) :
  node ∈ fst (generateBranchNodesAI JSON_parse_tasks b branch interests
                learningStyle knowledgeLevel completedTasks startNodeId context) →
  title node ∉ completedTasks.
Proof.
  intros (t & i & _ & Hnot & ->)%generateBranchNodesAI_origin.
  cbn [toNode title]. by rewrite clampToLevel_title.
Qed.

(** The loop over the branches keeps what holds of every node of every
    branch. *)
Lemma branchLoop_Forall (P : Task → Prop) (interests : list string)
    (learningStyle : string) (knowledgeLevel : Z)
    (completedTasks : list (option string)) (context : string) :
  (∀ b branch startNodeId node,
     node ∈ fst (generateBranchNodesAI JSON_parse_tasks b branch interests
                   learningStyle knowledgeLevel completedTasks startNodeId
                   context) →
     P node) →
  ∀ strategicBranches b frontierNodes nodeId,
    Forall P frontierNodes →
    Forall P (fst (branchLoop JSON_parse_tasks b strategicBranches interests
                     learningStyle knowledgeLevel completedTasks context
                     frontierNodes nodeId)).
Proof.
  intros Hstep strategicBranches.
  induction strategicBranches as [|branch rest IH];
    intros b frontierNodes nodeId Hacc; cbn [branchLoop]; [done|].
  pose proof (Hstep b branch nodeId) as Hnew.
  destruct (generateBranchNodesAI _ b branch interests learningStyle
              knowledgeLevel completedTasks nodeId context) as [aiNodes b'].
  apply IH, Forall_app. split; [done|]. apply Forall_forall. exact Hnew.
Qed.

Lemma insertNode_Permutation (knowledgeLevel : Z) (x : Task) (l : list Task) :
  insertNode knowledgeLevel x l ≡ₚ x :: l.
Proof.
  induction l as [|y l IH]; cbn [insertNode]; [done|].
  case_match; [done|]. rewrite IH. apply Permutation_swap.
Qed.

(** Sorting rearranges and nothing else. *)
Lemma sortNodesBySequence_Permutation (l : list Task) (knowledgeLevel : Z) :
  sortNodesBySequence l knowledgeLevel ≡ₚ l.
Proof.
  unfold sortNodesBySequence. induction l as [|x l IH]; cbn [foldr]; [done|].
  by rewrite insertNode_Permutation, IH.
Qed.

(** C3, amended.  For a knowledge level of at most 2, every node that
    per-branch generation returns has difficulty 1, whatever the LLM
    proposed.  When the LLM gave the duration as a whole number [d] of
    minutes, the duration of the node is the text of [min(d, 25)] minutes,
    which reads as at most 25 minutes when [d] is not negative; when the
    LLM gave no duration, it is ["30 minutes"]. *)
Theorem beginner_band_clamp (b : Builder O) (branch : Branch)
    (interests : list string) (learningStyle : string) (knowledgeLevel : Z)
    (completedTasks : list (option string)) (startNodeId : Z)
    (context : string) (node : Task) :
  knowledgeLevel ≤ 2 →
  node ∈ fst (generateBranchNodesAI JSON_parse_tasks b branch interests
                learningStyle knowledgeLevel completedTasks startNodeId context) →
  difficulty node = Some 1
  ∧ ∃ t,
      t ∈ fst (requestTasks JSON_parse_tasks b branch interests learningStyle
                 knowledgeLevel context)
      ∧ title node = ai_title t
      ∧ (∀ d, ai_duration t = DurNumber d →
              duration node = Some (pretty (Z.min 25 d) +:+ " minutes")
              ∧ (0 ≤ d → taskMinutesOf node = Z.min 25 d
                         ∧ taskMinutesOf node ≤ 25))
      ∧ (ai_duration t = DurAbsent →
         duration node = Some "30 minutes" ∧ taskMinutesOf node = 30).
Proof.
  intros Hlevel (t & i & Ht & _ & ->)%generateBranchNodesAI_origin.
  unfold clampToLevel. rewrite (proj2 (Z.leb_le knowledgeLevel 2)) by done.
  split; [reflexivity|]. exists t. split; [done|]. split; [reflexivity|].
  unfold taskMinutesOf. cbn [toNode duration withDifficulty ai_duration].
  split.
  - intros d ->. cbn [capDuration durationText]. split; [done|]. intros Hd.
    assert (Hs : orStr (Some (pretty (Z.min 25 d) +:+ " minutes")) "30 minutes"
                 = pretty (Z.min 25 d) +:+ " minutes").
    { cbn [orStr]. unfold truthyStr. rewrite bool_decide_eq_false_2; [done|].
      intros Hnil%(f_equal chars). rewrite chars_app in Hnil.
      by apply app_eq_nil in Hnil as [_ [=]]. }
    rewrite Hs, parse_written_minutes by lia. lia.
  - intros ->. cbn [capDuration durationText]. split; [done|]. by vm_compute.
Qed.

(** C8.  A title of a completed task of the existing document is the
    title of no node that generation returns, whatever the LLM proposes:
    neither for one branch, given the completed titles, nor for the whole
    sequence of branches. *)
Theorem completed_titles_not_regenerated (b : Builder O)
    (strategicBranches : list Branch) (interests : list string)
    (learningStyle : string) (knowledgeLevel : Z) (existingHTA : HtaData)
    (context : string) (finished node : Task) :
  finished ∈ nodesOf existingHTA →
  completed finished = true →
  (node ∈ fst (generateSequencedFrontierNodes JSON_parse_tasks b
                 strategicBranches interests learningStyle knowledgeLevel
                 (Some existingHTA) context) →
   title node ≠ title finished)
  ∧ (∀ branch startNodeId,
       node ∈ fst (generateBranchNodesAI JSON_parse_tasks b branch interests
                     learningStyle knowledgeLevel
                     (title <$> List.filter completed (nodesOf existingHTA))
                     startNodeId context) →
       title node ≠ title finished).
Proof.
  intros Hin Hdone.
  assert (Hlisted : title finished
                    ∈ title <$> List.filter completed (nodesOf existingHTA)).
  { apply list_elem_of_fmap. exists finished. split; [done|].
    apply list_elem_of_In, List.filter_In. by rewrite <- list_elem_of_In. }
  split.
  - unfold generateSequencedFrontierNodes.
    set (completedTasks := match frontierNodes existingHTA with
                           | Some nodes => title <$> List.filter completed nodes
                           | None => []
                           end).
    assert (Hc : completedTasks
                 = title <$> List.filter completed (nodesOf existingHTA)).
    { unfold completedTasks, nodesOf. by destruct (frontierNodes existingHTA). }
    pose proof (branchLoop_Forall (λ node, title node ∉ completedTasks)
                  interests learningStyle knowledgeLevel completedTasks context
                  (λ b0 branch startNodeId node0,
                     generateBranchNodesAI_not_completed b0 branch interests
                       learningStyle knowledgeLevel completedTasks startNodeId
                       context node0)
                  strategicBranches b [] 1 (Forall_nil_2 _)) as Hall.
    destruct (branchLoop _ b strategicBranches interests learningStyle
                knowledgeLevel completedTasks context [] 1) as [nodes b'].
    cbn [fst] in *. rewrite sortNodesBySequence_Permutation.
    intros Hnode Heq. rewrite Forall_forall in Hall.
    apply (Hall node Hnode). rewrite Hc, Heq. exact Hlisted.
  - intros branch startNodeId Hnode Heq.
    apply generateBranchNodesAI_not_completed in Hnode. rewrite Heq in Hnode.
    done.
Qed.

End Generation.

(** C3, as stated: at knowledge level 1 a proposal of difficulty 1 without
    a duration comes back with the duration ["30 minutes"], more than 25
    minutes. *)
Lemma beginner_missing_duration_is_30_minutes :
  ∃ node,
    node ∈ fst (HtaTreeBuilder.generateBranchNodesAI
                  (H := Examples.answering Examples.holdText)
                  (Examples.parsing Examples.holdText [Examples.hold])
                  Examples.freshBuilder Examples.basics [] "mixed" 1 [] 1 "")
    ∧ Model.difficulty node = Some 1
    ∧ Model.duration node = Some "30 minutes"
    ∧ TaskIntelligence.taskMinutesOf node = 30
    ∧ ¬ TaskIntelligence.taskMinutesOf node ≤ 25.
Proof.
  eexists. split; [vm_compute; left|]. vm_compute. repeat split; congruence.
Qed.

(** The cap of the band is applied to a number only: at knowledge level 1
    a proposal with the duration ["2 hours"] keeps it. *)
Lemma beginner_text_duration_not_capped :
  ∃ node,
    node ∈ fst (HtaTreeBuilder.generateBranchNodesAI
                  (H := Examples.answering Examples.songText)
                  (Examples.parsing Examples.songText [Examples.song])
                  Examples.freshBuilder Examples.basics [] "mixed" 1 [] 1 "")
    ∧ Model.difficulty node = Some 1
    ∧ Model.duration node = Some "2 hours"
    ∧ TaskIntelligence.taskMinutesOf node = 120
    ∧ ¬ TaskIntelligence.taskMinutesOf node ≤ 25.
Proof.
  eexists. split; [vm_compute; left|]. vm_compute. repeat split; congruence.
Qed.

Lemma beginner_band_clamp_witness :
  ∃ node,
    node ∈ fst (HtaTreeBuilder.generateBranchNodesAI
                  (H := Examples.answering Examples.soloText)
                  (Examples.parsing Examples.soloText [Examples.solo])
                  Examples.freshBuilder Examples.basics [] "mixed" 1 [] 1 "")
    ∧ Model.difficulty node = Some 1
    ∧ Model.duration node = Some "25 minutes"
    ∧ TaskIntelligence.taskMinutesOf node ≤ 25.
Proof.
  eexists. split; [vm_compute; left|].
  match goal with |- Model.difficulty ?n = _ ∧ _ => set (node := n) end.
  destruct (beginner_band_clamp (H := Examples.answering Examples.soloText)
              (Examples.parsing Examples.soloText [Examples.solo])
              Examples.freshBuilder Examples.basics [] "mixed" 1 [] 1 "" node)
    as (Hd & t & Ht & _ & Hnumber & _); [lia | vm_compute; left |].
  split; [exact Hd|].
  vm_compute in Ht. apply list_elem_of_singleton in Ht. subst t.
  destruct (Hnumber 120 eq_refl) as [Htext Hminutes].
  split; [exact Htext|]. apply Hminutes. lia.
Defined.

Lemma completed_titles_not_regenerated_witness :
  Forall (λ node, Model.title node ≠ Some "Tune the guitar")
    (fst (HtaTreeBuilder.generateSequencedFrontierNodes
            (H := Examples.answering Examples.tuneText)
            (Examples.parsing Examples.tuneText [Examples.tune; Examples.solo])
            Examples.freshBuilder [Examples.basics] [] "mixed" 1
            (Some Examples.chords) "")).
Proof.
  apply Forall_forall. intros node.
  apply (completed_titles_not_regenerated
           (H := Examples.answering Examples.tuneText)
           (Examples.parsing Examples.tuneText [Examples.tune; Examples.solo])
           Examples.freshBuilder [Examples.basics] [] "mixed" 1
           Examples.chords "" Examples.tuning node).
  - vm_compute. left.
  - reflexivity.
Defined.

(** ** Goal decomposition *)

Section Decomposition.
Import JS Model HtaTreeBuilder Spec.
Context {O : Type} `{LlmInterface O}.
Variable JSON_parse_strings : string → Parsed string.

(** Enrichment fills in [subBranches] and leaves the rest of every branch
    as it was. *)
Lemma enrich_shape (knowledgeLevel : Z) (branches : list Branch) (o : O) :
  Forall2 (λ before after,
             branch_id after = branch_id before
             ∧ branch_title after = branch_title before
             ∧ branch_description after = branch_description before)
          branches
          (fst (enrich JSON_parse_strings o knowledgeLevel branches)).
Proof.
  revert o. induction branches as [|branch rest IH]; intros o; cbn [enrich].
  - constructor.
  - destruct (generateSubBranches _ o (branch_title branch) knowledgeLevel)
      as [subs o1].
    specialize (IH o1).
    destruct (enrich _ o1 knowledgeLevel rest) as [rest' o2].
    cbn [fst] in *. by constructor.
Qed.

Lemma enrich_length (knowledgeLevel : Z) (branches : list Branch) (o : O) :
  List.length (fst (enrich JSON_parse_strings o knowledgeLevel branches))
  = List.length branches.
Proof. symmetry. exact (Forall2_length _ _ _ (enrich_shape _ _ _)). Qed.

Lemma enrich_titles (knowledgeLevel : Z) (branches : list Branch) (o : O) :
  branch_title <$> fst (enrich JSON_parse_strings o knowledgeLevel branches)
  = branch_title <$> branches.
Proof.
  induction (enrich_shape knowledgeLevel branches o)
    as [|b b' bs bs' (_ & Ht & _) _ IH]; [done|].
  cbn. by rewrite Ht, IH.
Qed.

(** C6.  Decomposition never returns an empty sequence of branches.  With
    focus areas given it returns one branch per focus area, titled after
    it.  Without focus areas, when the LLM gives no usable domains (no
    reply, a deferred request, text that does not parse, a value that is
    not an array, or an empty array), it returns exactly one branch, the
    generic one titled General. *)
Theorem decomposition_nonempty (o : O) (goal : option string)
    (pathName : string) (focusAreas : list string) (knowledgeLevel : Z) :
  let branches :=
    fst (generateStrategicBranches JSON_parse_strings o goal pathName
           focusAreas knowledgeLevel) in
  let aiResp :=
    fst (requestIntelligence o "hta-domain-generation" (DomainPrompt goal)) in
  branches ≠ []
  ∧ (focusAreas ≠ [] →
     List.length branches = List.length focusAreas
     ∧ branch_title <$> branches
       = (λ raw, capitalize (trim raw)) <$> focusAreas)
  ∧ (focusAreas = [] →
     aiResp = None
     ∨ (∃ resp,
          aiResp = Some resp
          ∧ (request_for_claude resp = true
             ∨ JSON_parse_strings (responseText resp) = SyntaxError
             ∨ JSON_parse_strings (responseText resp) = NotArray
             ∨ JSON_parse_strings (responseText resp) = Array [])) →
     ∃ branch,
       branches = [branch]
       ∧ branch_id branch = "domain_1"
       ∧ branch_title branch = "General"
       ∧ branch_description branch = "Roadmap for General").
Proof.
  intros branches aiResp.
  assert (Hlen : ∀ bs o', bs ≠ [] →
            fst (enrich JSON_parse_strings o' knowledgeLevel bs) ≠ []).
  { intros bs o' Hbs Hnil%(f_equal List.length).
    rewrite enrich_length in Hnil. by destruct bs. }
  unfold branches, generateStrategicBranches. clear branches.
  destruct focusAreas as [|area areas].
  - fold aiResp.
    destruct (requestIntelligence o "hta-domain-generation" (DomainPrompt goal))
      as [resp o1] eqn:Hreq.
    cbn [fst] in aiResp. subst aiResp.
    split; [|split; [done|]].
    + apply Hlen. unfold mapi. by destruct (proposedDomains _ resp) as [[|d ds]|].
    + intros _ Hnone.
      assert (Hd : match proposedDomains JSON_parse_strings resp with
                   | Some (d :: ds) => d :: ds
                   | _ => ["General"]
                   end = ["General"]).
      { unfold proposedDomains.
        destruct Hnone as [-> | (r & -> & Hr)]; [done|].
        destruct (request_for_claude r); [done|]. cbn [negb].
        destruct Hr as [[=] | [-> | [-> | ->]]]; done. }
      rewrite Hd.
      pose proof (enrich_shape knowledgeLevel
                    (mapi (domainBranch knowledgeLevel) ["General"]) o1) as Hs.
      cbn [mapi imap] in Hs. unfold mapi. cbn [imap].
      apply Forall2_cons_inv_l in Hs as (branch & rest & (Hi & Ht & Hdesc) & Hrest & ->).
      apply Forall2_nil_inv_l in Hrest as ->.
      exists branch. split; [done|]. by rewrite Hi, Ht, Hdesc.
  - split; [by apply Hlen|]. split; [|done]. intros _.
    rewrite enrich_length, enrich_titles, length_fmap.
    split; [done|]. by rewrite <- list_fmap_compose.
Qed.

End Decomposition.

Lemma decomposition_nonempty_witness :
  (List.length
     (fst (HtaTreeBuilder.generateStrategicBranches (H := Examples.deferring)
             Examples.noStrings tt (Some "Learn guitar") "general"
             ["  chords "; "rhythm"] 1))
   = 2%nat
   ∧ Model.branch_title <$>
       fst (HtaTreeBuilder.generateStrategicBranches (H := Examples.deferring)
              Examples.noStrings tt (Some "Learn guitar") "general"
              ["  chords "; "rhythm"] 1)
     = ["Chords"; "Rhythm"])
  ∧ ∃ branch,
      fst (HtaTreeBuilder.generateStrategicBranches (H := Examples.deferring)
             Examples.noStrings tt (Some "Learn guitar") "general" [] 1)
      = [branch]
      ∧ Model.branch_id branch = "domain_1"
      ∧ Model.branch_title branch = "General"
      ∧ Model.branch_description branch = "Roadmap for General".
Proof.
  split.
  - apply (decomposition_nonempty (H := Examples.deferring) Examples.noStrings
             tt (Some "Learn guitar") "general" ["  chords "; "rhythm"] 1).
    done.
  - apply (decomposition_nonempty (H := Examples.deferring) Examples.noStrings
             tt (Some "Learn guitar") "general" [] 1); [reflexivity|].
    right. eexists. split; [reflexivity|]. left. reflexivity.
Defined.

(** ** The choice among the candidates *)

Section Selection.
Import JS Model TaskIntelligence Spec.

(** The invariant of the scoring loop: after the tasks [visited], the loop
    holds the first of the tasks with the highest score. *)
Lemma scoring_loop_first_best (f : Task → Z) (tasks visited : list Task)
    (best : option (Task * Z)) :
  match best with
  | None => visited = []
  | Some (task, score) =>
      score = f task
      ∧ ∃ before after,
          visited = before ++ task :: after
          ∧ Forall (λ c, f c < score) before
          ∧ Forall (λ c, f c ≤ score) after
  end →
  match foldl (λ best task,
                 if better (f task) best then Some (task, f task) else best)
              best tasks with
  | None => visited ++ tasks = []
  | Some (task, score) =>
      score = f task
      ∧ ∃ before after,
          visited ++ tasks = before ++ task :: after
          ∧ Forall (λ c, f c < score) before
          ∧ Forall (λ c, f c ≤ score) after
  end.
Proof.
  revert visited best. induction tasks as [|t tasks IH]; intros visited best Hinv.
  - cbn [foldl]. rewrite app_nil_r. exact Hinv.
  - cbn [foldl]. replace (visited ++ t :: tasks) with ((visited ++ [t]) ++ tasks)
      by by rewrite <- app_assoc.
    apply IH. destruct best as [[b s]|]; cbn [better].
    + destruct Hinv as (-> & before & after & -> & Hb & Ha).
      destruct (Z.gtb_spec (f t) (f b)) as [Hgt | Hle].
      * split; [done|]. exists (before ++ b :: after), []. split; [done|].
        split; [|constructor].
        apply Forall_app. split; [|constructor].
        -- eapply Forall_impl; [exact Hb|]. cbn. lia.
        -- lia.
        -- eapply Forall_impl; [exact Ha|]. cbn. lia.
      * split; [done|]. exists before, (after ++ [t]).
        split; [by rewrite <- app_assoc|]. split; [done|].
        apply Forall_app. split; [done|]. by repeat constructor.
    + subst visited. split; [done|]. exists [], []. by repeat constructor.
Qed.

(** X1.  [selectOptimalTask] returns nothing exactly when there is no
    candidate.  Otherwise it returns a candidate together with its score;
    no candidate scores higher, and every candidate listed before it in
    the document scores strictly lower: among the best, the first wins. *)
Theorem selectOptimalTask_first_best (htaData : HtaData) (energyLevel : Z)
    (timeAvailable contextFromMemory : string) (pc : ProjectContext) :
  let scoreOf task :=
    calculateTaskScore task energyLevel (parseTimeToMinutes timeAvailable)
      contextFromMemory pc in
  match selectOptimalTask htaData energyLevel timeAvailable
          contextFromMemory pc with
  | None => availableTasks htaData timeAvailable = []
  | Some (task, score) =>
      score = scoreOf task
      ∧ ∃ before after,
          availableTasks htaData timeAvailable = before ++ task :: after
          ∧ Forall (λ c, scoreOf c < score) before
          ∧ Forall (λ c, scoreOf c ≤ score) after
  end.
Proof.
  intros scoreOf. unfold selectOptimalTask.
  destruct (availableTasks htaData timeAvailable) as [|t ts] eqn:Hav; [done|].
  exact (scoring_loop_first_best scoreOf (t :: ts) [] None eq_refl).
Qed.

(** The test that [getAvailableTasksCount] applies to a node is
    admissibility by rules 1 and 2. *)
Lemma counted_spec (nodes : list Task) (node : Task) :
  (if completed node then false
   else match prerequisites node with
        | Some (p :: ps) =>
            forallb
              (λ prereq,
                 bool_decide (prereq ∈ id <$> List.filter completed nodes)
                 || existsb (λ n, bool_decide (title n = Some prereq)
                                  && completed n) nodes)
              (p :: ps)
        | _ => true
        end) = true
  ↔ admissible nodes node.
Proof.
  unfold admissible, prerequisitesOf.
  destruct (completed node); [intuition congruence|].
  destruct (prerequisites node) as [[|p ps]|]; cbn [default].
  - split; [by split | done].
  - rewrite forallb_forall, Forall_forall. split.
    + intros Hall. split; [done|]. intros q Hq.
      apply count_resolves, Hall. by apply list_elem_of_In.
    + intros [_ Hall] q Hq. apply count_resolves, Hall.
      by apply list_elem_of_In.
  - split; [by split | done].
Qed.

Lemma filter_length_le {A} (f g : A → bool) (l : list A) :
  (∀ x, x ∈ l → f x = true → g x = true) →
  (List.length (List.filter f l) ≤ List.length (List.filter g l))%nat.
Proof.
  induction l as [|a l IH]; intros Hfg; [done|].
  assert (Hl : ∀ x, x ∈ l → f x = true → g x = true)
    by (intros x Hx; apply Hfg; by right).
  specialize (IH Hl). pose proof (Hfg a (list_elem_of_here _ _)) as Ha.
  cbn [List.filter]. destruct (f a), (g a); cbn [List.length]; try lia.
Qed.

(** X2.  The admissible-task count of [evolveStrategy] and the candidates
    of [getNextTask] rest on the same two rules, written twice in the
    source: the candidates never outnumber the count, and when the time
    available is enough for every task of the document the two agree.  In
    particular a document from which a task can be selected is never
    diagnosed as having no available tasks. *)
Theorem candidates_within_count (htaData : HtaData) (timeAvailable : string) :
  Z.of_nat (List.length (availableTasks htaData timeAvailable))
  ≤ getAvailableTasksCount htaData
  ∧ ((∀ node, node ∈ nodesOf htaData →
        5 * taskMinutesOf node ≤ 6 * parseTimeToMinutes timeAvailable) →
     Z.of_nat (List.length (availableTasks htaData timeAvailable))
     = getAvailableTasksCount htaData)
  ∧ ∀ energyLevel contextFromMemory pc now history,
      is_Some (selectOptimalTask htaData energyLevel timeAvailable
                 contextFromMemory pc) →
      "no_available_tasks" ∉ detectStuckIndicators now htaData history.
Proof.
  assert (Hle : Z.of_nat (List.length (availableTasks htaData timeAvailable))
                ≤ getAvailableTasksCount htaData).
  { unfold availableTasks, getAvailableTasksCount. fold (nodesOf htaData).
    apply inj_le, filter_length_le. intros node Hn Hadm.
    apply admits_spec in Hadm as (Hc & Hall & _).
    apply counted_spec. by split. }
  split; [exact Hle|]. split.
  - intros Htime. apply Z.le_antisymm; [exact Hle|].
    unfold availableTasks, getAvailableTasksCount. fold (nodesOf htaData).
    apply inj_le, filter_length_le. intros node Hn Hadm.
    apply counted_spec in Hadm as [Hc Hall].
    apply admits_spec. auto.
  - intros energyLevel contextFromMemory pc now history [[task score] Hsel].
    apply selectOptimalTask_candidate in Hsel as [Hin _].
    rewrite indicator_no_available_tasks.
    destruct (availableTasks htaData timeAvailable); [by apply elem_of_nil in Hin|].
    cbn [List.length] in Hle. lia.
Qed.

Lemma candidates_within_count_witness :
  Z.of_nat (List.length (availableTasks Examples.chords "30 minutes")) = 3
  ∧ getAvailableTasksCount Examples.chords = 3
  ∧ Z.of_nat (List.length (availableTasks Examples.chords "10 minutes")) = 1.
Proof.
  destruct (candidates_within_count Examples.chords "30 minutes")
    as (_ & Heq & _).
  split; [reflexivity|]. split; [|reflexivity].
  rewrite <- Heq; [reflexivity|].
  intros node Hn. vm_compute in Hn.
  repeat (apply elem_of_cons in Hn as [-> | Hn]; [by vm_compute|]).
  by apply elem_of_nil in Hn.
Defined.

End Selection.

(** ** The first time expression of a string *)

Section FirstExpression.
Import JS Minutes Spec.

Lemma matchHere_no_digit (c : ascii) (s : list ascii) :
  isDigit c = false → matchHere (c :: s) = None.
Proof. intros Hc. unfold matchHere. cbn [span]. by rewrite Hc. Qed.

(** No match starts inside a prefix without digits. *)
Lemma regexMatch_skip (pre s : list ascii) :
  Forall (λ c, isDigit c = false) pre → regexMatch (pre ++ s) = regexMatch s.
Proof.
  induction 1 as [|c pre Hc _ IH]; [done|].
  cbn [app regexMatch]. by rewrite (matchHere_no_digit c _ Hc).
Qed.

Lemma toLowerCase_str (l : list ascii) :
  toLowerCase (str l) = str (toLowerChar <$> l).
Proof. unfold toLowerCase. by rewrite chars_str. Qed.

(** Two unit words with the same first letter are both hour units or both
    minute units. *)
Lemma unit_kind (w m : list ascii) :
  isUnitWord w → isUnitWord m →
  head (toLowerChar <$> w) = head (toLowerChar <$> m) →
  startsWith (toLowerCase (str m)) "hour" || startsWith (toLowerCase (str m)) "hr"
  = bool_decide (str (toLowerChar <$> w) ∈ ["hour"; "hr"]).
Proof.
  unfold isUnitWord, units. rewrite toLowerCase_str. intros Hw Hm.
  rewrite <- (chars_str (toLowerChar <$> w)), <- (chars_str (toLowerChar <$> m)).
  set_unfold in Hw. set_unfold in Hm.
  destruct Hw as [-> | [-> | [-> | [-> | []]]]];
    destruct Hm as [-> | [-> | [-> | [-> | []]]]]; by vm_compute.
Qed.

Lemma parse_first_expression (pre ds ws w post : list ascii) :
  ds ≠ [] →
  Forall (λ c, isDigit c = false) pre →
  Forall (λ c, isDigit c = true) ds →
  Forall (λ c, isSpace c = true) ws →
  isUnitWord w →
  parseTimeToMinutes (str (pre ++ ds ++ ws ++ w ++ post))
  = if bool_decide (str (toLowerChar <$> w) ∈ ["hour"; "hr"])
    then parseDigits ds * 60 else parseDigits ds.
Proof.
  intros Hne Hpre Hds Hws Hw. unfold parseTimeToMinutes.
  rewrite chars_str, regexMatch_skip by done.
  destruct (unitWord_initial w Hw) as (c & w' & Hc & Hcd & Hcs).
  assert (Hm : ∃ m post', matchHere (ds ++ ws ++ w ++ post) = Some (ds, m)
                 ∧ w ++ post = m ++ post' ∧ isUnitWord m).
  { unfold matchHere. rewrite (span_app isDigit ds (ws ++ w ++ post)); [|done|].
    - destruct ds as [|d ds']; [done|].
      rewrite (span_app isSpace ws (w ++ post)); [|done|].
      + destruct (matchUnit_complete units w post Hw) as [m Hm].
        destruct (matchUnit_sound _ _ _ Hm) as (post' & Heq & Hu).
        exists m, post'. by rewrite Hm.
      + rewrite Hc. cbn. by rewrite Hcs.
    - destruct ws as [|x ws']; cbn.
      + rewrite Hc. cbn. by rewrite Hcd.
      + apply Forall_cons in Hws as [Hx _]. by rewrite (space_not_digit x Hx). }
  destruct Hm as (m & post' & Hm & Heq & Hu).
  assert (Hr : regexMatch (ds ++ ws ++ w ++ post) = Some (ds, m)).
  { destruct ds as [|d ds']; [done|]. cbn [app regexMatch] in *. by rewrite Hm. }
  rewrite Hr. rewrite (unit_kind w m Hw Hu); [done|].
  destruct (unitWord_initial m Hu) as (c' & m' & -> & _).
  rewrite Hc in Heq |- *. cbn [app] in Heq. by injection Heq as -> _.
Qed.

(** X3.  [parseTimeToMinutes] reads the first number of the string when a
    unit follows it, whatever comes after: a text without digits, the
    number [n], white space or none, one of the unit words in any case, and
    any rest, gives [n] minutes for minute and min, and [60 n] for hour
    and hr. *)
Theorem parseTimeToMinutes_first_number (pre : string) (n : Z)
    (ws unit post : string) :
  0 ≤ n →
  Forall (λ c, isDigit c = false) (chars pre) →
  Forall (λ c, isSpace c = true) (chars ws) →
  isUnitWord (chars unit) →
  parseTimeToMinutes (pre +:+ pretty n +:+ ws +:+ unit +:+ post)
  = if bool_decide (toLowerCase unit ∈ ["hour"; "hr"]) then n * 60 else n.
Proof.
  intros Hn Hpre Hws Hu.
  destruct (pretty_digits n Hn) as (d & ds & Hc & Hall & Hval).
  rewrite <- (str_chars (pre +:+ _)), !chars_app, Hc.
  rewrite (parse_first_expression (chars pre) (d :: ds) (chars ws) (chars unit)
             (chars post)) by done.
  by rewrite Hval.
Qed.

Lemma parseTimeToMinutes_first_number_witness :
  parseTimeToMinutes "about 2 Hours and 30 min" = 120
  ∧ parseTimeToMinutes "45min, then 2 hours" = 45.
Proof.
  split.
  - apply (parseTimeToMinutes_first_number "about " 2 " " "Hour" "s and 30 min").
    + lia.
    + by repeat constructor.
    + by repeat constructor.
    + vm_compute. right. left.
  - apply (parseTimeToMinutes_first_number "" 45 "" "min" ", then 2 hours").
    + lia.
    + constructor.
    + constructor.
    + vm_compute. do 2 right. left.
Defined.

End FirstExpression.

(** ** Domain relevance without a domain *)

Section DomainRelevance.
Import JS Model TaskIntelligence.

Lemma str_app (a b : list ascii) : str (a ++ b) = str a +:+ str b.
Proof.
  induction a as [|c a IH]; [done|].
  change (str ((c :: a) ++ b)) with (String c (str (a ++ b))).
  by rewrite IH.
Qed.

Lemma toLowerCase_app (s t : string) :
  toLowerCase (s +:+ t) = toLowerCase s +:+ toLowerCase t.
Proof. unfold toLowerCase. by rewrite chars_app, fmap_app, str_app. Qed.

Lemma splitL_nonempty (sep : ascii) (s : list ascii) : splitL sep s ≠ [].
Proof.
  destruct s as [|c s]; cbn [splitL]; [done|].
  case_bool_decide; [done|]. by destruct (splitL sep s).
Qed.

(** Splitting around an occurrence of the separator. *)
Lemma splitL_app (sep : ascii) (xs w : list ascii) :
  splitL sep (xs ++ sep :: w) = splitL sep xs ++ splitL sep w.
Proof.
  induction xs as [|c xs IH]; cbn [app splitL].
  - by rewrite bool_decide_eq_true_2.
  - rewrite IH. case_bool_decide; [done|].
    pose proof (splitL_nonempty sep xs).
    by destruct (splitL sep xs).
Qed.

Lemma startsWithL_app (sub post : list ascii) :
  startsWithL sub (sub ++ post) = true.
Proof.
  induction sub as [|c sub IH]; cbn; [done|].
  by rewrite bool_decide_eq_true_2.
Qed.

Lemma includesL_intro (pre sub post : list ascii) :
  includesL (pre ++ sub ++ post) sub = true.
Proof.
  induction pre as [|c pre IH].
  - cbn [app]. destruct (sub ++ post) eqn:Heq; cbn [includesL];
      rewrite <- Heq, startsWithL_app; done.
  - cbn [app includesL]. rewrite IH. apply orb_true_r.
Qed.

(** X4.  With no domain in the project configuration the text that the
    keywords are taken from ends in the word undefined, and so does, or
    begins, the text of a task without description or without title: such
    a task counts as relevant to the domain, whatever the goal is. *)
Theorem undefined_domain_is_relevant (task : Task) (pc : ProjectContext) :
  pc_domain pc = None →
  title task = None ∨ description task = None →
  isDomainRelevant task pc = true.
Proof.
  intros Hd Ht. unfold isDomainRelevant. apply existsb_exists.
  exists "undefined". split.
  - apply List.filter_In. split; [|done].
    apply List.filter_In. split; [|done].
    apply list_elem_of_In. rewrite Hd. unfold split.
    rewrite !toLowerCase_app, !chars_app.
    change (chars (toLowerCase " ")) with [" "%char].
    change ([" "%char] ++ ?l) with (" "%char :: l).
    rewrite splitL_app, fmap_app. apply elem_of_app. right.
    vm_compute. left.
  - unfold includes, taskText. rewrite !toLowerCase_app, !chars_app.
    destruct Ht as [-> | ->].
    + exact (includesL_intro [] (chars "undefined") _).
    + rewrite <- (app_nil_r (chars (toLowerCase (toString None)))), app_assoc.
      apply includesL_intro.
Qed.

Lemma undefined_domain_is_relevant_witness :
  isDomainRelevant
    {| id := "node_1"; title := Some "Stretch"; description := None;
       branch := None; difficulty := None; priority := None; duration := None;
       prerequisites := None; completed := false; generated := false;
       opportunityType := None; learningOutcome := None |}
    {| pc_goal := Some "Learn guitar"; pc_domain := None;
       pc_learningStyle := None; pc_activePath := "general" |} = true.
Proof.
  apply undefined_domain_is_relevant; [reflexivity | by right].
Defined.

End DomainRelevance.

(** ** What [evolveStrategy] leaves behind *)

Section AfterEvolution.
Import JS Model TaskIntelligence Spec.

(** The document that a successful [evolveStrategy] stores. *)
Lemma evolveStrategy_success (now : Z) (nowIso feedback : string)
    (st st' : Store) (result : EvolutionResult) :
  evolveStrategy now nowIso feedback st = (inr result, st') →
  ∃ projectId config,
    activeProject st = Some projectId
    ∧ configs st !! projectId = Some config
    ∧ let pathName := orStr (activePath config) "general" in
      let htaData := default emptyHta (loadPathHTA st projectId pathName) in
      generateSmartNextTasks st projectId pathName
        (analyzeCurrentStrategy now st projectId pathName feedback)
      = inr (new_tasks result)
      ∧ (new_tasks result = [] → st' = st)
      ∧ (new_tasks result ≠ [] →
         ∃ stored,
           st' = savePathHTA st projectId pathName stored
           ∧ frontierNodes stored
             = Some (nodesOf htaData ++ new_tasks result)).
Proof.
  unfold evolveStrategy, evolveStrategyTry, requireActiveProject, loadConfig.
  destruct (activeProject st) as [projectId|] eqn:Hp;
    cbn [bind throw ret]; [|intros [=]].
  destruct (configs st !! projectId) as [config|] eqn:Hc;
    cbn [bind throw ret]; [|intros [=]].
  set (pathName := orStr (activePath config) "general").
  set (analysis := analyzeCurrentStrategy now st projectId pathName feedback).
  destruct (generateSmartNextTasks st projectId pathName analysis)
    as [e | newTasks] eqn:Hgen; cbn [bind]; [intros [=]|].
  unfold ret. intros Hev. apply (inj2 pair) in Hev as [Hr <-].
  apply (inj inr) in Hr. subst result. cbn [new_tasks].
  exists projectId, config. split; [done|]. split; [done|].
  cbn zeta. split; [done|]. split.
  - by intros ->.
  - intros Hne. destruct newTasks as [|t ts]; [done|].
    cbn [List.length]. rewrite (proj2 (Z.ltb_lt 0 _)) by lia.
    eexists. split; [reflexivity|]. reflexivity.
Qed.


(** What every synthesized task looks like: open, at most 35 minutes long,
    and waiting at most for the last completed task of the document. *)
Lemma generateExplorationTasks_ready (nodes : list Task) (config : Config)
    (startId : Z) :
  Forall (λ task,
            completed task = false
            ∧ taskMinutesOf task ≤ 35
            ∧ Forall (resolvesToCompleted nodes) (prerequisitesOf task))
         (generateExplorationTasks config startId).
Proof. repeat constructor; by vm_compute. Qed.

Lemma interestTasks_ready (nodes : list Task) (interests : list string)
    (startId i : Z) (fuel : nat) :
  Forall (λ task,
            completed task = false
            ∧ taskMinutesOf task ≤ 35
            ∧ Forall (resolvesToCompleted nodes) (prerequisitesOf task))
         (interestTasks interests startId i fuel).
Proof.
  revert i fuel. induction interests as [|x l IH]; intros i [|fuel];
    cbn [interestTasks]; try constructor; [|apply IH].
  repeat split; [by vm_compute | constructor].
Qed.

Lemma generateProgressiveTasks_ready (htaData : HtaData) (startId : Z) :
  Forall (λ task,
            completed task = false
            ∧ taskMinutesOf task ≤ 35
            ∧ Forall (resolvesToCompleted (nodesOf htaData))
                     (prerequisitesOf task))
         (generateProgressiveTasks htaData startId).
Proof.
  unfold generateProgressiveTasks, nodesOf.
  destruct (last (List.filter completed (default [] (frontierNodes htaData))))
    as [lastCompleted|] eqn:Hl; [|apply generateExplorationTasks_ready].
  apply last_Some_elem_of, list_elem_of_In, List.filter_In in Hl as [Hin Hc].
  constructor; [|constructor].
  split; [done|]. split; [by vm_compute|].
  constructor; [|constructor].
  exists lastCompleted. rewrite list_elem_of_In. auto.
Qed.

Lemma synthesized_ready (st : Store) (projectId pathName : string)
    (analysis : Analysis) (newTasks : list Task) :
  generateSmartNextTasks st projectId pathName analysis = inr newTasks →
  Forall (λ task,
            completed task = false
            ∧ taskMinutesOf task ≤ 35
            ∧ Forall (resolvesToCompleted
                        (nodesOf (default emptyHta
                                    (loadPathHTA st projectId pathName))))
                     (prerequisitesOf task))
         newTasks.
Proof.
  unfold generateSmartNextTasks, withConfig, slice05.
  repeat case_bool_decide; destruct (loadConfig st projectId);
    cbn [bind]; unfold ret, throw; intros Heq;
    (discriminate Heq || (apply (inj inr) in Heq; rewrite <- Heq;
                          apply Forall_take)).
  all: first [ apply generateExplorationTasks_ready
             | apply interestTasks_ready
             | apply generateProgressiveTasks_ready
             | by constructor
             | repeat constructor; by vm_compute ].
Qed.

Lemma resolvesToCompleted_app (nodes more : list Task) (prereq : string) :
  resolvesToCompleted nodes prereq → resolvesToCompleted (nodes ++ more) prereq.
Proof.
  intros (n & Hn & ?). exists n. split; [|done]. apply elem_of_app. by left.
Qed.

Lemma selectOptimalTask_is_Some (htaData : HtaData) (energyLevel : Z)
    (timeAvailable contextFromMemory : string) (pc : ProjectContext) :
  availableTasks htaData timeAvailable ≠ [] →
  is_Some (selectOptimalTask htaData energyLevel timeAvailable
             contextFromMemory pc).
Proof.
  intros Hne. unfold selectOptimalTask.
  destruct (availableTasks htaData timeAvailable) as [|t ts]; [done|].
  pose proof (scoring_loop_first_best
    (λ task, calculateTaskScore task energyLevel
               (parseTimeToMinutes timeAvailable) contextFromMemory pc)
    (t :: ts) [] None eq_refl) as Hbest.
  destruct (foldl _ None (t :: ts)); [eauto | done].
Qed.

(** X6.  The tasks that a call of [evolveStrategy] appends are candidates
    of [selectOptimalTask] on the stored document as soon as 30 minutes or
    more are available; so, when the call appended a task, a selection on
    the stored document with that much time returns a task. *)
Theorem evolved_tasks_are_candidates (now : Z) (nowIso feedback : string)
    (st st' : Store) (result : EvolutionResult) (timeAvailable : string) :
  evolveStrategy now nowIso feedback st = (inr result, st') →
  30 ≤ parseTimeToMinutes timeAvailable →
  ∃ key,
    activeDocument st = Some key
    ∧ activeDocument st' = Some key
    ∧ let stored := default emptyHta (htas st' !! key) in
      Forall (λ task, task ∈ availableTasks stored timeAvailable)
             (new_tasks result)
      ∧ (new_tasks result ≠ [] →
         ∀ energyLevel contextFromMemory pc,
           is_Some (selectOptimalTask stored energyLevel timeAvailable
                      contextFromMemory pc)).
Proof.
  intros Hev Htime.
  destruct (evolveStrategy_success _ _ _ _ _ _ Hev)
    as (projectId & config & Hp & Hc & Hgen & Hnil & Hcons).
  cbn zeta in *. set (pathName := orStr (activePath config) "general") in *.
  exists (projectId, pathName).
  assert (Hkey : ∀ s, activeProject s = Some projectId →
                      configs s !! projectId = Some config →
                      activeDocument s = Some (projectId, pathName)).
  { intros s Hps Hcs. unfold activeDocument. rewrite Hps. cbn. by rewrite Hcs. }
  split; [by apply Hkey|].
  destruct (new_tasks result) as [|t ts] eqn:Hnew.
  { rewrite (Hnil eq_refl). split; [by apply Hkey|]. cbn zeta.
    split; [constructor | done]. }
  destruct (Hcons ltac:(done)) as (stored & -> & Hfrontier).
  split; [by apply Hkey|]. cbn zeta.
  unfold savePathHTA. cbn [htas]. rewrite lookup_insert_eq.
  change (default emptyHta (Some stored)) with stored.
  assert (Hall : Forall (λ task, task ∈ availableTasks stored timeAvailable)
                        (t :: ts)).
  { apply synthesized_ready in Hgen. rewrite Forall_forall in Hgen |- *.
    intros task Hin. destruct (Hgen task Hin) as (Hopen & Hmin & Hpre).
    apply availableTasks_spec. unfold nodesOf at 1 2. rewrite Hfrontier.
    cbn [default]. split; [apply elem_of_app; by right|]. split; [done|].
    split; [|lia].
    eapply Forall_impl; [exact Hpre|]. intros q. apply resolvesToCompleted_app. }
  split; [exact Hall|]. intros _ energyLevel contextFromMemory pc.
  apply selectOptimalTask_is_Some. apply Forall_cons in Hall as [Hin _].
  intros Hnone. rewrite Hnone in Hin. by apply elem_of_nil in Hin.
Qed.

Lemma evolved_tasks_are_candidates_witness :
  ∃ result st',
    evolveStrategy 0 "2025-06-17T00:00:00.000Z" "" Examples.stalledStore
    = (inr result, st')
    ∧ List.length (new_tasks result) = 2%nat
    ∧ is_Some (selectOptimalTask
                 (default emptyHta (htas st' !! ("guitar", "general")))
                 3 "30 minutes" "" Examples.guitarContext).
Proof.
  destruct (evolveStrategy 0 "2025-06-17T00:00:00.000Z" "" Examples.stalledStore)
    as [[e | result] st'] eqn:Hev; [by vm_compute in Hev|].
  exists result, st'. split; [done|].
  destruct (evolved_tasks_are_candidates 0 "2025-06-17T00:00:00.000Z" ""
              Examples.stalledStore st' result "30 minutes" Hev)
    as (key & Hk & _ & _ & Hsel); [by vm_compute|].
  vm_compute in Hk. injection Hk as <-.
  assert (Hlen : List.length (new_tasks result) = 2%nat).
  { vm_compute in Hev. by injection Hev as <- _. }
  split; [done|]. apply Hsel. by destruct (new_tasks result).
Defined.

End AfterEvolution.

(** ** The ids of synthesized tasks *)

Section SynthesizedIds.
Import JS Model TaskIntelligence Spec.

(** Peels the literal prefix off both sides of an equation between
    concatenations. *)
Ltac peel H :=
  repeat match type of H with
         | context [String ?c ?s +:+ ?t] =>
             change (String c s +:+ t) with (String c (s +:+ t)) in H
         | context [EmptyString +:+ ?t] =>
             change (EmptyString +:+ t) with t in H
         end.

(** Membership of a literal in a list of literals. *)
Ltac listed := repeat first [by left | right].

Lemma interestTasks_ids (interests : list string) (startId i : Z) (fuel : nat)
    (k : nat) (task : Task) :
  interestTasks interests startId i fuel !! k = Some task →
  id task = "interest_" +:+ pretty (startId + (i + Z.of_nat k)).
Proof.
  revert i fuel k. induction interests as [|x l IH]; intros i [|fuel] k;
    cbn [interestTasks]; try done.
  destruct k as [|k]; cbn [lookup list_lookup].
  - intros [= <-]. cbn [id]. do 3 f_equal. lia.
  - intros Hk. rewrite (IH _ _ _ Hk). do 3 f_equal. lia.
Qed.

(** The number in the id of a synthesized task is the number the call
    starts from plus the position of the task. *)
Lemma synthesized_ids (st : Store) (projectId pathName : string)
    (analysis : Analysis) (newTasks : list Task) (i : nat) (task : Task) :
  generateSmartNextTasks st projectId pathName analysis = inr newTasks →
  newTasks !! i = Some task →
  ∃ prefix,
    prefix ∈ ["explore_"; "sample_"; "interest_"; "address_"; "build_"]
    ∧ id task
      = prefix +:+ pretty
          (Z.of_nat (List.length
             (nodesOf (default emptyHta (loadPathHTA st projectId pathName))))
           + 3000 + Z.of_nat i).
Proof.
  unfold generateSmartNextTasks, withConfig, slice05, nodesOf.
  set (taskId := Z.of_nat _ + 3000).
  assert (Hex : ∀ c, generateExplorationTasks c taskId !! i = Some task →
            ∃ prefix,
              prefix ∈ ["explore_"; "sample_"; "interest_"; "address_"; "build_"]
              ∧ id task = prefix +:+ pretty (taskId + Z.of_nat i)).
  { intros c. destruct i as [|[|i]]; cbn; [| |done]; intros [= <-]; cbn [id].
    - exists "explore_". split; [listed|]. by rewrite Z.add_0_r.
    - exists "sample_". split; [listed|]. done. }
  repeat case_bool_decide; destruct (loadConfig st projectId);
    cbn [bind]; unfold ret, throw; intros Heq Hi;
    (discriminate Heq || (apply (inj inr) in Heq; rewrite <- Heq in Hi;
                          apply lookup_take_Some in Hi as [Hi _])).
  all: try (by apply (Hex _ Hi)).
  all: try (apply interestTasks_ids in Hi; exists "interest_";
            split; [listed|]; by rewrite Hi, Z.add_0_l).
  all: try (destruct i as [|i]; [|done]; cbn in Hi; injection Hi as <-;
            exists "address_"; split; [listed|]; cbn [id];
            by rewrite Z.add_0_r).
  all: try done.
  all: unfold generateProgressiveTasks in Hi;
    destruct (last _) in Hi; [|by apply (Hex _ Hi)].
  all: destruct i as [|i]; [|done]; cbn in Hi; injection Hi as <-.
  all: exists "build_"; split; [listed|]; cbn [id]; by rewrite Z.add_0_r.
Qed.

(** X7.  The id of a task appended by [evolveStrategy] is one of the five
    prefixes followed by 3000 plus the position that the task takes in the
    stored list, counted from 0; the ids of the tasks of one call are
    pairwise distinct. *)
Theorem evolved_ids_follow_position (now : Z) (nowIso feedback : string)
    (st st' : Store) (result : EvolutionResult) :
  evolveStrategy now nowIso feedback st = (inr result, st') →
  NoDup (id <$> new_tasks result)
  ∧ ∃ key,
      activeDocument st = Some key
      ∧ ∀ i task,
          new_tasks result !! i = Some task →
          ∃ prefix,
            prefix ∈ ["explore_"; "sample_"; "interest_"; "address_"; "build_"]
            ∧ id task
              = prefix +:+ pretty
                  (3000 + Z.of_nat (List.length (storedNodes st key) + i)).
Proof.
  intros Hev.
  destruct (evolveStrategy_success _ _ _ _ _ _ Hev)
    as (projectId & config & Hp & Hc & Hgen & _).
  cbn zeta in Hgen. set (pathName := orStr (activePath config) "general") in *.
  assert (Hids : ∀ i task,
            new_tasks result !! i = Some task →
            ∃ prefix,
              prefix ∈ ["explore_"; "sample_"; "interest_"; "address_"; "build_"]
              ∧ id task
                = prefix +:+ pretty
                    (3000 + Z.of_nat
                       (List.length (storedNodes st (projectId, pathName)) + i))).
  { intros i task Hi.
    destruct (synthesized_ids _ _ _ _ _ i task Hgen Hi) as (prefix & Hin & ->).
    exists prefix. split; [done|]. unfold storedNodes, loadPathHTA.
    do 2 f_equal. lia. }
  split.
  - apply NoDup_alt. intros i j x Hi Hj.
    apply list_lookup_fmap_Some in Hi as (a & -> & Ha).
    apply list_lookup_fmap_Some in Hj as (b & Hab & Hb).
    destruct (Hids i a Ha) as (p & Hp1 & Hia).
    destruct (Hids j b Hb) as (q & Hq1 & Hjb).
    rewrite Hia, Hjb in Hab. clear -Hab Hp1 Hq1.
    set_unfold in Hp1. set_unfold in Hq1.
    destruct Hp1 as [-> | [-> | [-> | [-> | [-> | []]]]]];
      destruct Hq1 as [-> | [-> | [-> | [-> | [-> | []]]]]];
      peel Hab; try discriminate Hab.
    all: simplify_eq; lia.
  - exists (projectId, pathName). split; [|exact Hids].
    unfold activeDocument. rewrite Hp. cbn. by rewrite Hc.
Qed.

Lemma evolved_ids_follow_position_witness :
  ∃ result st',
    evolveStrategy 0 "2025-06-17T00:00:00.000Z" "" Examples.stalledStore
    = (inr result, st')
    ∧ id <$> new_tasks result = ["explore_3002"; "sample_3003"]
    ∧ NoDup (id <$> new_tasks result).
Proof.
  destruct (evolveStrategy 0 "2025-06-17T00:00:00.000Z" "" Examples.stalledStore)
    as [[e | result] st'] eqn:Hev; [by vm_compute in Hev|].
  exists result, st'. split; [done|]. split.
  - vm_compute in Hev. by injection Hev as <- _.
  - exact (proj1 (evolved_ids_follow_position _ _ _ _ _ _ Hev)).
Defined.

End SynthesizedIds.

(** ** The reply of [getNextTask] *)

Section Reply.
Import JS Model TaskIntelligence Spec TaskResponse.

(** On whole minutes up to four hours the comparisons and the rounding of
    [getTimeMatchText] in binary64 are the integer ones of the model. *)
Lemma withinSlot_exact :
  Forall (λ t, Forall (λ d, DoubleMatch.withinSlot d t = (5 * d <=? 6 * t)
                            ∧ DoubleMatch.withinHalfAgain d t
                              = (2 * d <=? 3 * t))
                      (seqZ 0 241))
         (seqZ 0 241).
Proof. refine (bool_decide_unpack _ _). by vm_compute. Qed.

Lemma roundFourFifths_exact :
  Forall (λ t, DoubleMatch.roundsTo t (roundFourFifths t) = true) (seqZ 0 1441).
Proof. refine (bool_decide_unpack _ _). by vm_compute. Qed.

Lemma digits_nonneg (l : list ascii) (acc : Z) :
  0 ≤ acc → Forall (λ c, isDigit c = true) l →
  0 ≤ foldl (λ acc c, 10 * acc + digitVal c) acc l.
Proof.
  revert acc. induction l as [|c l IH]; intros acc Hacc Hl; [done|].
  apply Forall_cons in Hl as [Hc Hl]. cbn [foldl]. apply IH; [|done].
  unfold isDigit, between in Hc. apply andb_true_iff in Hc as [Hc _].
  apply N.leb_le in Hc. unfold digitVal. lia.
Qed.

Lemma parseTimeToMinutes_nonneg (s : string) : 0 ≤ parseTimeToMinutes s.
Proof.
  unfold parseTimeToMinutes.
  destruct (regexMatch (chars s)) as [[g1 g2]|] eqn:Hm; [|lia].
  destruct (regexMatch_sound _ _ _ Hm) as (_ & _ & _ & _ & _ & Hd & _).
  pose proof (digits_nonneg g1 0 ltac:(lia) Hd) as Hg.
  fold (parseDigits g1) in Hg. destruct (_ || _); lia.
Qed.

Lemma time_match_fits (taskDuration timeAvailable : string) :
  getTimeMatchText taskDuration timeAvailable = PerfectFit
  ∨ getTimeMatchText taskDuration timeAvailable = CloseFit
  ↔ 5 * parseTimeToMinutes taskDuration ≤ 6 * parseTimeToMinutes timeAvailable.
Proof.
  unfold getTimeMatchText.
  pose proof (parseTimeToMinutes_nonneg timeAvailable).
  repeat case_match; rewrite ?Z.leb_le, ?Z.leb_gt in *;
    split; try (intros [[=] | [=]]); try lia; auto.
Qed.

(** X8.  The time text of the reply and the time rule of admission draw
    the same line: among the open tasks whose prerequisites are met, the
    candidates are those whose text is a perfect or a close fit, and a
    task left out for its length is told too long or much too long.  The
    reply of a selected task therefore never says too long. *)
Theorem time_match_agrees_with_admission (htaData : HtaData)
    (timeAvailable : string) (node : Task) :
  node ∈ nodesOf htaData →
  admissible (nodesOf htaData) node →
  let verdict :=
    getTimeMatchText (orStr (duration node) "30 minutes") timeAvailable in
  (node ∈ availableTasks htaData timeAvailable
   ↔ verdict = PerfectFit ∨ verdict = CloseFit)
  ∧ (node ∉ availableTasks htaData timeAvailable
     ↔ verdict = TooLong (roundFourFifths (parseTimeToMinutes timeAvailable))
       ∨ verdict
         = MuchTooLong (roundFourFifths (parseTimeToMinutes timeAvailable)))
  ∧ ∀ maxStringLength energyLevel response,
      formatTaskResponse maxStringLength node energyLevel timeAvailable
      = inr response →
      time_match response = verdict.
Proof.
  intros Hin [Hopen Hpre] verdict.
  assert (Hcand : node ∈ availableTasks htaData timeAvailable
                  ↔ verdict = PerfectFit ∨ verdict = CloseFit).
  { unfold verdict. rewrite time_match_fits, availableTasks_spec.
    unfold taskMinutesOf. tauto. }
  split; [exact Hcand|]. split.
  - rewrite Hcand. unfold verdict, getTimeMatchText.
    destruct (_ <=? _);
      [split; [intros Hno; destruct Hno; auto | intros [[=] | [=]]]|].
    destruct (_ <=? _);
      [split; [intros Hno; destruct Hno; auto | intros [[=] | [=]]]|].
    destruct (_ <=? _); (split; [auto | intros _ [[=] | [=]]]).
  - intros maxStringLength energyLevel response. unfold formatTaskResponse.
    case_match; [done|]. case_match; [done|]. by intros [= <-].
Qed.

Lemma time_match_agrees_with_admission_witness :
  getTimeMatchText "10 minutes" "10 minutes" = PerfectFit
  ∧ (Examples.byId ∉ availableTasks Examples.chords "10 minutes")
  ∧ getTimeMatchText "15 minutes" "10 minutes" = TooLong 8.
Proof.
  destruct (time_match_agrees_with_admission Examples.chords "10 minutes"
              Examples.byId) as (Hfit & Hlong & _).
  - vm_compute. do 2 right. left.
  - split; [reflexivity|]. repeat constructor.
    exists Examples.tuning. split; [left | by split; [|left]].
  - split; [reflexivity|]. split; [|reflexivity].
    apply Hlong. by left.
Defined.

(** The reply holds a star for every point of difficulty. *)
Lemma responseLength_stars (r : Response) :
  difficultyStars r + 210 ≤ responseLength r.
Proof.
  unfold responseLength, JS.length.
  assert (10 ≤ energyMatchLength (energy_match r))
    by (destruct (energy_match r); cbn; lia).
  assert (13 ≤ timeMatchLength (time_match r))
    by (destruct (time_match r); cbn; unfold JS.length; lia).
  destruct (shown_learningOutcome r); lia.
Qed.

(** X9.  [getNextTask] fails in three cases only: no project is active or
    the active project has no configuration; the task that was selected
    carries a negative difficulty, for which the line of stars cannot be
    written; or the reply, which holds one star for every point of
    difficulty, is longer than the longest string of the engine.  A
    failure adds an entry to the error log and changes nothing else, so
    the same call fails again; a success leaves the store as it was. *)
Theorem getNextTask_failures (maxStringLength : Z)
    (contextFromMemory : string) (energyLevel : Z) (timeAvailable : string)
    (st : Store) :
  match getNextTaskReply maxStringLength contextFromMemory energyLevel
          timeAvailable st with
  | (inl failure, st') =>
      st' = logError st "getNextTask"
      ∧ (activeDocument st = None
         ∧ (failure = Thrown NoActiveProject
            ∨ ∃ projectId, failure = Thrown (ConfigNotFound "getNextTask"
                                               projectId))
         ∨ ∃ key htaData pc task score,
             activeDocument st = Some key
             ∧ htas st !! key = Some htaData
             ∧ selectOptimalTask htaData energyLevel timeAvailable
                 contextFromMemory pc = Some (task, score)
             ∧ (failure = InvalidCount
                ∧ (∃ d, difficulty task = Some d ∧ d < 0)
                ∨ failure = InvalidStringLength
                  ∧ 0 ≤ orNum (difficulty task) 1
                  ∧ maxStringLength
                    < responseLength
                        (templateValues task energyLevel timeAvailable)))
  | (inr (next, response), st') =>
      st' = st
      ∧ is_Some (activeDocument st)
      ∧ match next with
        | Selected task _ =>
            response = Some (templateValues task energyLevel timeAvailable)
            ∧ 0 ≤ orNum (difficulty task) 1
            ∧ orNum (difficulty task) 1 + 210
              ≤ responseLength (templateValues task energyLevel timeAvailable)
              ≤ maxStringLength
        | _ => response = None
        end
  end.
Proof.
  unfold getNextTaskReply, getNextTaskTry, requireActiveProject, loadConfig,
    activeDocument.
  destruct (activeProject st) as [projectId|] eqn:Hp;
    cbn [bind throw ret mbind option_bind];
    [|split; [done|]; left; split; [done | by left]].
  destruct (configs st !! projectId) as [config|] eqn:Hc;
    cbn [bind throw ret mbind option_bind];
    [|split; [done|]; left; split; [done | right; by exists projectId]].
  set (pathName := orStr (activePath config) "general").
  assert (Hsome : is_Some (Some (projectId, pathName))) by by eexists.
  unfold loadPathHTA. cbn [pc_activePath].
  destruct (htas st !! (projectId, pathName)) as [htaData|] eqn:Hdoc;
    [|done].
  destruct (frontierNodes htaData) as [[|n ns]|] eqn:Hnodes; [done| |done].
  set (pc := {| pc_goal := goal config |}) in *.
  destruct (selectOptimalTask htaData energyLevel timeAvailable
              contextFromMemory pc) as [[task score]|] eqn:Hsel; [|done].
  unfold ret, formatTaskResponse.
  pose proof (responseLength_stars
                (templateValues task energyLevel timeAvailable)) as Hstars.
  cbn [templateValues difficultyStars] in Hstars.
  destruct (Z.ltb_spec (orNum (difficulty task) 1) 0) as [Hneg | Hpos].
  - split; [done|]. right.
    exists (projectId, pathName), htaData, pc, task, score.
    split; [done|]. split; [done|]. split; [done|]. left. split; [done|].
    unfold orNum in Hneg. destruct (difficulty task) as [d|]; [|lia].
    exists d. split; [done|]. destruct (truthyNum d); lia.
  - destruct (Z.ltb_spec maxStringLength
                (responseLength (templateValues task energyLevel timeAvailable)))
      as [Hlong | Hfits].
    + split; [done|]. right.
      exists (projectId, pathName), htaData, pc, task, score.
      split; [done|]. split; [done|]. split; [done|]. by right.
    + split; [done|]. split; [done|]. split; [done|]. split; [done|]. lia.
Qed.

End Reply.

(** ** The level bands of generated nodes *)

Section Bands.
Import JS Model HtaTreeBuilder Spec.
Import TaskIntelligence.
Context {O : Type} `{LlmInterface O}.
Variable JSON_parse_tasks : string → Parsed AiTask.

Lemma written_minutes_nonempty (n : Z) :
  orStr (Some (pretty n +:+ " minutes")) "30 minutes" = pretty n +:+ " minutes".
Proof.
  cbn [orStr]. unfold truthyStr. rewrite bool_decide_eq_false_2; [done|].
  intros Hnil%(f_equal chars). rewrite chars_app in Hnil.
  by apply app_eq_nil in Hnil as [_ [=]].
Qed.

(** The template [`${n} minutes`] on a whole number reads back without
    the sign of the number. *)
Lemma parse_signed_minutes (n : Z) :
  parseTimeToMinutes (pretty n +:+ " minutes") = Z.abs n.
Proof.
  destruct n as [|x|x].
  - by vm_compute.
  - by apply parse_written_minutes.
  - change (pretty (Z.neg x)) with ("-" +:+ pretty (Z.pos x)).
    destruct (pretty_digits (Z.pos x)) as (d & ds & Hc & Hall & Hval); [lia|].
    rewrite <- (str_chars (_ +:+ _)), !chars_app, Hc, <- app_assoc.
    change (chars " minutes") with (chars " " ++ chars "minute" ++ chars "s").
    rewrite (parse_first_expression (chars "-") (d :: ds) (chars " ")
               (chars "minute") (chars "s")).
    + rewrite bool_decide_eq_false_2, Hval; [lia|].
      vm_compute. by intros [[=] | [[=] | []%elem_of_nil]%elem_of_cons]%elem_of_cons.
    + done.
    + by repeat constructor.
    + done.
    + by repeat constructor.
    + vm_compute. left.
Qed.

Lemma clampToLevel_band (knowledgeLevel : Z) (t : AiTask) :
  let band :=
    if knowledgeLevel <=? 2 then (1, Some 25)
    else if knowledgeLevel <=? 4 then (2, Some 45)
    else if knowledgeLevel <=? 6 then (3, Some 60)
    else (5, None) in
  (∃ d, ai_difficulty (clampToLevel knowledgeLevel t) = Some d ∧ 1 ≤ d ≤ band.1)
  ∧ ai_duration (clampToLevel knowledgeLevel t)
    = match band.2 with
      | Some cap => capDuration cap (ai_duration t)
      | None => ai_duration t
      end.
Proof.
  unfold clampToLevel.
  destruct (knowledgeLevel <=? 2); [|destruct (knowledgeLevel <=? 4);
    [|destruct (knowledgeLevel <=? 6)]];
    cbn [withDifficulty ai_difficulty ai_duration fst snd];
    (split; [eexists; split; [reflexivity | lia] | done]).
Qed.

(** A node made from a clamped proposal. *)
Lemma toNode_clamped (branch : Branch) (startNodeId : Z) (knowledgeLevel : Z)
    (t : AiTask) (i : Z) :
  let node := toNode branch startNodeId (clampToLevel knowledgeLevel t) i in
  let band :=
    if knowledgeLevel <=? 2 then (1, Some 25)
    else if knowledgeLevel <=? 4 then (2, Some 45)
    else if knowledgeLevel <=? 6 then (3, Some 60)
    else (5, None) in
  (∃ d, difficulty node = Some d ∧ 1 ≤ d ≤ band.1
        ∧ priority node = Some (200 + d * 10))
  ∧ match ai_duration t with
    | DurNumber n =>
        let capped := match band.2 with
                      | Some cap => Z.min cap n
                      | None => n
                      end in
        duration node = Some (pretty capped +:+ " minutes")
        ∧ taskMinutesOf node = Z.abs capped
    | DurText s => duration node = Some (orStr (Some s) "30 minutes")
    | DurAbsent => duration node = Some "30 minutes"
    end.
Proof.
  intros node band.
  destruct (clampToLevel_band knowledgeLevel t) as [(d & Hd & Hband) Hdur].
  fold band in Hband, Hdur. subst node.
  unfold taskMinutesOf. cbn [toNode difficulty priority duration].
  rewrite Hd, Hdur. split.
  - exists d. unfold orNum, truthyNum.
    rewrite (proj2 (Z.eqb_neq d 0)) by lia. done.
  - clear Hband Hdur. subst band.
    destruct (knowledgeLevel <=? 2); [|destruct (knowledgeLevel <=? 4);
      [|destruct (knowledgeLevel <=? 6)]]; cbn [snd];
      destruct (ai_duration t) as [n | s |];
      cbn [capDuration durationText]; try done.
    all: by rewrite written_minutes_nonempty, parse_signed_minutes.
Qed.

(** X10.  Whatever the LLM proposes, a node returned by per-branch
    generation has a difficulty between 1 and the maximum of the band of
    the knowledge level (1 up to level 2, 2 up to level 4, 3 up to level 6,
    5 above), and the priority 200 + 10 x difficulty; it is open and
    belongs to the branch.  A duration proposed as a whole number [n] of
    minutes becomes the text of [min(cap, n)] minutes, with the caps 25,
    45 and 60 of the first three bands and none above; the text reads back
    as the magnitude of that number, so as the capped number when [n] is
    not negative and without its sign when it is.  A duration proposed as
    text is passed on in every band, the empty text and a missing duration
    as ["30 minutes"]. *)
Theorem level_band_clamp (b : Builder O) (branch : Branch)
    (interests : list string) (learningStyle : string) (knowledgeLevel : Z)
    (completedTasks : list (option string)) (startNodeId : Z)
    (context : string) (node : Task) :
  node ∈ fst (generateBranchNodesAI JSON_parse_tasks b branch interests
                learningStyle knowledgeLevel completedTasks startNodeId context) →
  let band :=
    if knowledgeLevel <=? 2 then (1, Some 25)
    else if knowledgeLevel <=? 4 then (2, Some 45)
    else if knowledgeLevel <=? 6 then (3, Some 60)
    else (5, None) in
  (∃ d, difficulty node = Some d ∧ 1 ≤ d ≤ band.1
        ∧ priority node = Some (200 + d * 10))
  ∧ completed node = false
  ∧ Model.branch node = Some (branch_id branch)
  ∧ ∃ t,
      t ∈ fst (requestTasks JSON_parse_tasks b branch interests learningStyle
                 knowledgeLevel context)
      ∧ title node = ai_title t
      ∧ match ai_duration t with
        | DurNumber n =>
            let capped := match band.2 with
                          | Some cap => Z.min cap n
                          | None => n
                          end in
            duration node = Some (pretty capped +:+ " minutes")
            ∧ taskMinutesOf node = Z.abs capped
        | DurText s => duration node = Some (orStr (Some s) "30 minutes")
        | DurAbsent => duration node = Some "30 minutes"
        end.
Proof.
  intros (t & i & Ht & _ & ->)%generateBranchNodesAI_origin band.
  destruct (toNode_clamped branch startNodeId knowledgeLevel t i) as [Hd Hdur].
  split; [exact Hd|]. split; [done|]. split; [done|].
  exists t. split; [done|]. split; [|exact Hdur].
  cbn [toNode title]. apply clampToLevel_title.
Qed.

End Bands.

Lemma level_band_clamp_witness :
  ∃ node,
    node ∈ fst (HtaTreeBuilder.generateBranchNodesAI
                  (H := Examples.answering Examples.soloText)
                  (Examples.parsing Examples.soloText [Examples.solo])
                  Examples.freshBuilder Examples.basics [] "mixed" 3 [] 1 "")
    ∧ Model.difficulty node = Some 2
    ∧ Model.priority node = Some 220
    ∧ TaskIntelligence.taskMinutesOf node = 45.
Proof.
  eexists. split; [vm_compute; left|].
  match goal with |- Model.difficulty ?n = _ ∧ _ => set (node := n) end.
  destruct (level_band_clamp (H := Examples.answering Examples.soloText)
              (Examples.parsing Examples.soloText [Examples.solo])
              Examples.freshBuilder Examples.basics [] "mixed" 3 [] 1 "" node)
    as ((d & Hd & Hband & Hp) & _ & _ & t & Ht & _ & Hdur); [vm_compute; left|].
  split; [reflexivity|]. split; [reflexivity|].
  vm_compute in Ht. apply list_elem_of_singleton in Ht. subst t.
  by destruct Hdur as [_ ->].
Defined.

(** ** The sequence of generated nodes *)

Section Sequence.
Import JS Model HtaTreeBuilder Spec.
Import TaskIntelligence.
Context {O : Type} `{LlmInterface O}.
Variable JSON_parse_tasks : string → Parsed AiTask.

Lemma mapi_toNode_ids (branch : Branch) (startNodeId : Z) (l : list AiTask) :
  id <$> mapi (toNode branch startNodeId) l
  = (λ k, "node_" +:+ pretty k) <$> seqZ startNodeId (Z.of_nat (List.length l)).
Proof.
  unfold mapi. revert startNodeId. induction l as [|t l IH]; intros startNodeId.
  - done.
  - rewrite imap_cons, seqZ_cons by (cbn [List.length]; lia).
    rewrite !fmap_cons. f_equal.
    + cbn [toNode id]. by rewrite Z.add_0_r.
    + replace (Z.pred (Z.of_nat (List.length (t :: l))))
        with (Z.of_nat (List.length l)) by (cbn [List.length]; lia).
      rewrite <- IH. f_equal. apply imap_ext. intros i x _.
      unfold compose, toNode. do 3 f_equal. lia.
Qed.

(** The loop over the branches numbers the nodes consecutively. *)
Lemma branchLoop_ids (strategicBranches : list Branch) (interests : list string)
    (learningStyle : string) (knowledgeLevel : Z)
    (completedTasks : list (option string)) (context : string) (b : Builder O)
    (frontierNodes : list Task) (nodeId : Z) :
  ∃ n : nat,
    id <$> fst (branchLoop JSON_parse_tasks b strategicBranches interests
                  learningStyle knowledgeLevel completedTasks context
                  frontierNodes nodeId)
    = (id <$> frontierNodes)
      ++ ((λ k, "node_" +:+ pretty k) <$> seqZ nodeId (Z.of_nat n)).
Proof.
  revert b frontierNodes nodeId.
  induction strategicBranches as [|branch rest IH]; intros b frontierNodes nodeId;
    cbn [branchLoop].
  - exists 0%nat. cbn. by rewrite app_nil_r.
  - unfold generateBranchNodesAI.
    destruct (requestTasks _ b branch interests learningStyle knowledgeLevel
                context) as [tasks b'].
    set (filtered := clampToLevel knowledgeLevel <$> _).
    destruct (IH b' (frontierNodes ++ mapi (toNode branch nodeId) filtered)
                 (nodeId + Z.of_nat (List.length
                                       (mapi (toNode branch nodeId) filtered))))
      as (n & ->).
    exists (List.length filtered + n)%nat.
    rewrite fmap_app, mapi_toNode_ids, length_mapi, <- app_assoc.
    rewrite Nat2Z.inj_add, seqZ_app, fmap_app by lia. done.
Qed.

(** X11.  The ids of the nodes that [generateSequencedFrontierNodes]
    returns are node_1 to node_n, each once, n being the number of nodes:
    the numbering runs on from branch to branch, and sorting only
    rearranges. *)
Theorem frontier_ids_are_consecutive (b : Builder O)
    (strategicBranches : list Branch) (interests : list string)
    (learningStyle : string) (knowledgeLevel : Z)
    (existingHTA : option HtaData) (context : string) :
  let nodes :=
    fst (generateSequencedFrontierNodes JSON_parse_tasks b strategicBranches
           interests learningStyle knowledgeLevel existingHTA context) in
  id <$> nodes
  ≡ₚ (λ k, "node_" +:+ pretty k) <$> seqZ 1 (Z.of_nat (List.length nodes))
  ∧ NoDup (id <$> nodes).
Proof.
  intros nodes. subst nodes. unfold generateSequencedFrontierNodes.
  set (completedTasks := match existingHTA with Some _ => _ | None => _ end).
  destruct (branchLoop_ids strategicBranches interests learningStyle
              knowledgeLevel completedTasks context b [] 1) as (n & Hids).
  change ((id <$> []) ++ ?x) with x in Hids.
  destruct (branchLoop _ b strategicBranches interests learningStyle
              knowledgeLevel completedTasks context [] 1) as [nodes b'].
  cbn [fst] in *.
  assert (Hlen : List.length nodes = n).
  { apply (f_equal List.length) in Hids.
    rewrite !length_fmap, length_seqZ in Hids. cbn in Hids. lia. }
  pose proof (sortNodesBySequence_Permutation nodes knowledgeLevel) as Hperm.
  assert (Hall : id <$> sortNodesBySequence nodes knowledgeLevel
                 ≡ₚ (λ k, "node_" +:+ pretty k)
                    <$> seqZ 1 (Z.of_nat
                          (List.length (sortNodesBySequence nodes knowledgeLevel)))).
  { rewrite (Permutation_length Hperm), Hlen, Hperm, Hids. done. }
  split; [exact Hall|]. rewrite Hall.
  apply NoDup_fmap_2; [|apply NoDup_seqZ].
  intros x y Hxy. apply (inj (String.app "node_")) in Hxy.
  by apply (inj pretty) in Hxy.
Qed.

(** The comparator on nodes whose priority is 200 + 10 x difficulty: the
    order of the difficulties, the harder node first. *)
Lemma compareNodes_generated (knowledgeLevel : Z) (a b : Task) (da db : Z) :
  difficulty a = Some da → priority a = Some (200 + da * 10) →
  difficulty b = Some db → priority b = Some (200 + db * 10) →
  (compareNodes knowledgeLevel a b <=? 0) = (db <=? da).
Proof.
  intros Ha Hpa Hb Hpb. unfold compareNodes. rewrite Ha, Hpa, Hb, Hpb.
  case_bool_decide as Hne.
  - destruct (Z.leb_spec db da), (Z.leb_spec (200 + db * 10 - (200 + da * 10)) 0);
      lia.
  - assert (da = db) as -> by lia.
    rewrite Z.sub_diag. by rewrite (proj2 (Z.leb_le db db)) by lia.
Qed.

Lemma sortNodesBySequence_sorted (knowledgeLevel : Z) (l : list Task) :
  Forall (λ n, ∃ d, difficulty n = Some d ∧ priority n = Some (200 + d * 10)) l →
  StronglySorted
    (λ a b, ∃ da db, difficulty a = Some da ∧ difficulty b = Some db ∧ db ≤ da)
    (sortNodesBySequence l knowledgeLevel).
Proof.
  set (P := λ n : Task, ∃ d, difficulty n = Some d
                             ∧ priority n = Some (200 + d * 10)).
  set (R := λ a b : Task, ∃ da db, difficulty a = Some da
                                   ∧ difficulty b = Some db ∧ db ≤ da).
  assert (Hins : ∀ x s, P x → Forall P s → StronglySorted R s →
                        StronglySorted R (insertNode knowledgeLevel x s)).
  { intros x s (dx & Hdx & Hpx). induction s as [|y s IH]; intros Hs Hsorted.
    - repeat constructor.
    - apply Forall_cons in Hs as [(dy & Hdy & Hpy) Hs].
      apply StronglySorted_inv in Hsorted as [Hsorted Hy].
      cbn [insertNode].
      rewrite (compareNodes_generated knowledgeLevel x y dx dy) by done.
      destruct (Z.leb_spec dy dx) as [Hle | Hgt].
      + constructor; [by constructor|]. constructor.
        * by exists dx, dy.
        * eapply Forall_impl; [exact Hy|].
          intros z (dy' & dz & Hdy' & Hdz & Hzy). exists dx, dz.
          rewrite Hdy in Hdy'. injection Hdy' as <-. repeat split; [done..|lia].
      + constructor; [by apply IH|].
        rewrite insertNode_Permutation. constructor; [|done].
        exists dy, dx. repeat split; [done..|lia]. }
  intros Hall. unfold sortNodesBySequence.
  induction Hall as [|x l Hx Hl IH]; cbn [foldr]; [constructor|].
  apply Hins; [done| |done].
  fold (sortNodesBySequence l knowledgeLevel).
  by rewrite sortNodesBySequence_Permutation.
Qed.

(** Nodes that all compare equal stay in the order they were generated. *)
Lemma sortNodesBySequence_equal (knowledgeLevel : Z) (l : list Task) (d : Z) :
  Forall (λ n, difficulty n = Some d ∧ priority n = Some (200 + d * 10)) l →
  sortNodesBySequence l knowledgeLevel = l.
Proof.
  unfold sortNodesBySequence.
  induction 1 as [|x l [Hd Hp] Hl IH]; cbn [foldr]; [done|].
  rewrite IH. destruct Hl as [|y l [Hdy Hpy] _]; cbn [insertNode]; [done|].
  rewrite (compareNodes_generated knowledgeLevel x y d d) by done.
  by rewrite (proj2 (Z.leb_le d d)) by lia.
Qed.

(** X12.  The nodes come back with the hardest first: along the sequence
    that [generateSequencedFrontierNodes] returns the difficulty never
    increases.  Up to knowledge level 2, where every node has difficulty 1,
    the nodes stay in the order of their generation: their ids read
    node_1, node_2, ... in this order. *)
Theorem frontier_hardest_first (b : Builder O)
    (strategicBranches : list Branch) (interests : list string)
    (learningStyle : string) (knowledgeLevel : Z)
    (existingHTA : option HtaData) (context : string) :
  let nodes :=
    fst (generateSequencedFrontierNodes JSON_parse_tasks b strategicBranches
           interests learningStyle knowledgeLevel existingHTA context) in
  StronglySorted
    (λ a b, ∃ da db, difficulty a = Some da ∧ difficulty b = Some db ∧ db ≤ da)
    nodes
  ∧ (knowledgeLevel ≤ 2 →
     id <$> nodes
     = (λ k, "node_" +:+ pretty k) <$> seqZ 1 (Z.of_nat (List.length nodes))).
Proof.
  intros nodes. subst nodes. unfold generateSequencedFrontierNodes.
  set (completedTasks := match existingHTA with Some _ => _ | None => _ end).
  pose proof (branchLoop_Forall JSON_parse_tasks
                (λ n, ∃ d, difficulty n = Some d
                           ∧ 1 ≤ d ≤ (if knowledgeLevel <=? 2 then 1 else 5)
                           ∧ priority n = Some (200 + d * 10))
                interests learningStyle knowledgeLevel completedTasks context)
    as Hloop.
  destruct (branchLoop_ids strategicBranches interests learningStyle
              knowledgeLevel completedTasks context b [] 1) as (n & Hids).
  change ((id <$> []) ++ ?x) with x in Hids.
  specialize (Hloop ltac:(
    intros b0 branch startNodeId node
      (t & i & _ & _ & ->)%(generateBranchNodesAI_origin JSON_parse_tasks);
    destruct (toNode_clamped branch startNodeId knowledgeLevel t i)
      as [(d & Hd & Hband & Hp) _];
    exists d; split; [done|]; split; [|done];
    revert Hband; repeat case_match; cbn [fst]; lia)
    strategicBranches b [] 1 (Forall_nil_2 _)).
  destruct (branchLoop _ b strategicBranches interests learningStyle
              knowledgeLevel completedTasks context [] 1) as [nodes b'].
  cbn [fst] in *. split.
  - apply sortNodesBySequence_sorted.
    eapply Forall_impl; [exact Hloop|]. intros node (d & ? & _ & ?). eauto.
  - intros Hlevel.
    rewrite (sortNodesBySequence_equal knowledgeLevel nodes 1).
    + rewrite Hids. apply (f_equal List.length) in Hids.
      rewrite !length_fmap, length_seqZ in Hids. cbn in Hids.
      do 2 f_equal. lia.
    + eapply Forall_impl; [exact Hloop|]. intros node (d & Hd & Hband & Hp).
      rewrite (proj2 (Z.leb_le knowledgeLevel 2)) in Hband by done.
      assert (d = 1) as -> by lia. done.
Qed.

(** X13.  The request of a branch is queued exactly when the LLM hands it
    back: per-branch generation then returns no node and appends one
    request, carrying the branch id, to the queue, and otherwise leaves the
    queue as it is.  With an interface that hands every request back, as
    the one the server installs does, the whole sequence yields no node
    and queues one request per branch, in the order of the branches. *)
Theorem deferred_requests_are_queued (b : Builder O) (interests : list string)
    (learningStyle : string) (knowledgeLevel : Z) (context : string) :
  let request branch :=
    {| claude_request :=
         TaskPrompt branch knowledgeLevel context interests learningStyle;
       request_type := "tasks";
       request_branchId := branch_id branch;
       request_pathName := branch_title branch |} in
  (∀ branch completedTasks startNodeId,
     let r := generateBranchNodesAI JSON_parse_tasks b branch interests
                learningStyle knowledgeLevel completedTasks startNodeId
                context in
     match fst (requestIntelligence (llm b) "hta-task-generation"
                  (claude_request (request branch))) with
     | Some resp =>
         if request_for_claude resp
         then fst r = []
              ∧ pendingClaudeRequests (snd r)
                = pendingClaudeRequests b ++ [request branch]
         else pendingClaudeRequests (snd r) = pendingClaudeRequests b
     | None => fst r = [] ∧ pendingClaudeRequests (snd r) = pendingClaudeRequests b
     end)
  ∧ ((∀ o type prompt,
        ∃ resp, fst (requestIntelligence o type prompt) = Some resp
                ∧ request_for_claude resp = true) →
     ∀ strategicBranches existingHTA,
       let r := generateSequencedFrontierNodes JSON_parse_tasks b
                  strategicBranches interests learningStyle knowledgeLevel
                  existingHTA context in
       fst r = []
       ∧ pendingClaudeRequests (snd r)
         = pendingClaudeRequests b ++ (request <$> strategicBranches)).
Proof.
  intros request. split.
  - intros branch completedTasks startNodeId r. subst r.
    unfold generateBranchNodesAI, requestTasks. cbn [claude_request request].
    destruct (requestIntelligence (llm b) "hta-task-generation" _)
      as [[resp|] o]; cbn [fst].
    + destruct (request_for_claude resp); [done|].
      by destruct (JSON_parse_tasks (responseText resp)) as [| |[|t ts]].
    + done.
  - intros Hdefer strategicBranches existingHTA r. subst r.
    unfold generateSequencedFrontierNodes.
    set (completedTasks := match existingHTA with Some _ => _ | None => _ end).
    assert (Hloop : ∀ branches b0 nodeId,
              branchLoop JSON_parse_tasks b0 branches interests learningStyle
                knowledgeLevel completedTasks context [] nodeId
              = ([], {| llm := llm (snd (branchLoop JSON_parse_tasks b0 branches
                                           interests learningStyle knowledgeLevel
                                           completedTasks context [] nodeId));
                        pendingClaudeRequests :=
                          pendingClaudeRequests b0 ++ (request <$> branches) |})).
    { induction branches as [|branch rest IH]; intros b0 nodeId;
        cbn [branchLoop].
      - destruct b0. cbn. by rewrite app_nil_r.
      - unfold generateBranchNodesAI, requestTasks.
        destruct (Hdefer (llm b0) "hta-task-generation"
                    (TaskPrompt branch knowledgeLevel context interests
                       learningStyle)) as (resp & Hresp & Hr).
        destruct (requestIntelligence (llm b0) "hta-task-generation" _)
          as [aiResponse o]. cbn [fst] in Hresp. subst aiResponse.
        rewrite Hr. cbn [List.filter fmap list_fmap mapi imap app List.length].
        rewrite IH at 1. cbn [pendingClaudeRequests].
        rewrite <- app_assoc. done. }
    rewrite Hloop. cbn [fst snd pendingClaudeRequests]. done.
Qed.

End Sequence.

Lemma deferred_requests_are_queued_witness :
  fst (HtaTreeBuilder.generateSequencedFrontierNodes
         (H := Examples.deferring) (Examples.parsing "" [])
         Examples.freshBuilder [Examples.basics] [] "mixed" 1 None "") = []
  ∧ HtaTreeBuilder.request_branchId
      <$> HtaTreeBuilder.pendingClaudeRequests
            (snd (HtaTreeBuilder.generateSequencedFrontierNodes
                    (H := Examples.deferring) (Examples.parsing "" [])
                    Examples.freshBuilder [Examples.basics] [] "mixed" 1 None ""))
    = ["domain_1"].
Proof.
  destruct (deferred_requests_are_queued (H := Examples.deferring)
              (Examples.parsing "" []) Examples.freshBuilder [] "mixed" 1 "")
    as [_ Hall].
  destruct (Hall ltac:(intros; eexists; split; reflexivity)
              [Examples.basics] None) as [Hnodes Hqueue].
  split; [exact Hnodes|]. by rewrite Hqueue.
Defined.

(** ** The shape of the roadmap *)

Section Roadmap.
Import JS Model HtaTreeBuilder Spec.
Context {O : Type} `{LlmInterface O}.
Variable JSON_parse_strings : string → Parsed string.

Lemma generateSubBranches_bound (o : O) (domainTitle : string)
    (knowledgeLevel : Z) :
  (List.length (fst (generateSubBranches JSON_parse_strings o domainTitle
                       knowledgeLevel)) ≤ 3)%nat.
Proof.
  unfold generateSubBranches.
  destruct (requestIntelligence o "hta-subdomain-generation" _) as [resp o'].
  cbn [fst].
  assert (Hh : (List.length (heuristicSubBranches domainTitle) ≤ 3)%nat).
  { unfold heuristicSubBranches. destruct (List.filter _ _) as [|a [|c l]];
      cbn; lia. }
  destruct resp as [resp|]; [|done].
  destruct (request_for_claude resp); [done|]. cbn [negb].
  destruct (JSON_parse_strings (responseText resp)) as [| |[|s parsed]];
    try done.
  change (default ?d (Some ?x)) with x.
  rewrite length_mapi, length_take. lia.
Qed.

(** Enrichment gives every branch at most three sub-branches. *)
Lemma enrich_subBranches (knowledgeLevel : Z) (branches : list Branch) (o : O) :
  Forall (λ branch, branch_priority branch = "high"
                    ∧ branch_completed branch = false) branches →
  Forall (λ branch, (List.length (subBranches branch) ≤ 3)%nat
                    ∧ branch_priority branch = "high"
                    ∧ branch_completed branch = false)
         (fst (enrich JSON_parse_strings o knowledgeLevel branches)).
Proof.
  intros Hall. revert o. induction Hall as [|branch rest [Hp Hc] _ IH]; intros o;
    cbn [enrich]; [constructor|].
  pose proof (generateSubBranches_bound o (branch_title branch) knowledgeLevel)
    as Hb.
  destruct (generateSubBranches _ o (branch_title branch) knowledgeLevel)
    as [subs o1].
  specialize (IH o1).
  destruct (enrich _ o1 knowledgeLevel rest) as [rest' o2].
  cbn [fst] in *. by constructor.
Qed.

Lemma enrich_ids (knowledgeLevel : Z) (branches : list Branch) (o : O) :
  branch_id <$> fst (enrich JSON_parse_strings o knowledgeLevel branches)
  = branch_id <$> branches.
Proof.
  induction (enrich_shape JSON_parse_strings knowledgeLevel branches o)
    as [|b b' bs bs' (Hi & _) _ IH]; [done|].
  cbn. by rewrite Hi, IH.
Qed.

Lemma mapi_domainBranch (knowledgeLevel : Z) (domains : list string) :
  branch_title <$> mapi (domainBranch knowledgeLevel) domains = domains
  ∧ branch_id <$> mapi (domainBranch knowledgeLevel) domains
    = (λ k, "domain_" +:+ pretty k)
      <$> seqZ 1 (Z.of_nat (List.length domains)).
Proof.
  unfold mapi.
  assert (Hgen : ∀ start,
    branch_title <$> imap (λ idx d, domainBranch knowledgeLevel d
                                      (start + Z.of_nat idx)) domains = domains
    ∧ branch_id <$> imap (λ idx d, domainBranch knowledgeLevel d
                                     (start + Z.of_nat idx)) domains
      = (λ k, "domain_" +:+ pretty k)
        <$> seqZ (start + 1) (Z.of_nat (List.length domains))).
  { induction domains as [|d ds IH]; intros start; [done|].
    rewrite imap_cons, seqZ_cons by (cbn [List.length]; lia).
    rewrite !fmap_cons.
    replace (Z.pred (Z.of_nat (List.length (d :: ds))))
      with (Z.of_nat (List.length ds)) by (cbn [List.length]; lia).
    destruct (IH (start + 1)) as [IHt IHi].
    assert (Hext : imap ((λ idx d0, domainBranch knowledgeLevel d0
                                      (start + Z.of_nat idx)) ∘ S) ds
                   = imap (λ idx d0, domainBranch knowledgeLevel d0
                                       (start + 1 + Z.of_nat idx)) ds).
    { apply imap_ext. intros i x _. unfold compose. f_equal. lia. }
    rewrite Hext, IHt, IHi. split; [done|].
    cbn [domainBranch branch_id]. by rewrite Z.add_0_r. }
  destruct (Hgen 0) as [Ht Hi].
  assert (Hext : imap (λ idx d, domainBranch knowledgeLevel d (Z.of_nat idx))
                      domains
                 = imap (λ idx d, domainBranch knowledgeLevel d
                                    (0 + Z.of_nat idx)) domains).
  { apply imap_ext. intros i x _. f_equal. }
  by rewrite Hext, Ht, Hi.
Qed.

(** X14.  Every branch of the roadmap has the priority high, is open, and
    has at most three sub-branches, whatever the LLM answers.  When no
    focus areas are given and the LLM proposes domains, the branches are
    these domains in the order proposed, however many they are, with the
    ids domain_1, domain_2, ... *)
Theorem roadmap_shape (o : O) (goal : option string) (pathName : string)
    (focusAreas : list string) (knowledgeLevel : Z) :
  let branches :=
    fst (generateStrategicBranches JSON_parse_strings o goal pathName
           focusAreas knowledgeLevel) in
  Forall (λ branch, (List.length (subBranches branch) ≤ 3)%nat
                    ∧ branch_priority branch = "high"
                    ∧ branch_completed branch = false) branches
  ∧ ∀ resp d ds,
      focusAreas = [] →
      fst (requestIntelligence o "hta-domain-generation" (DomainPrompt goal))
      = Some resp →
      request_for_claude resp = false →
      JSON_parse_strings (responseText resp) = Array (d :: ds) →
      branch_title <$> branches = d :: ds
      ∧ branch_id <$> branches
        = (λ k, "domain_" +:+ pretty k)
          <$> seqZ 1 (Z.of_nat (List.length (d :: ds))).
Proof.
  intros branches. subst branches. unfold generateStrategicBranches. split.
  - destruct focusAreas as [|area areas].
    + destruct (requestIntelligence o "hta-domain-generation" _) as [aiResp o1].
      apply enrich_subBranches, Forall_forall.
      intros branch (d & i & _ & ->)%elem_of_mapi. done.
    + apply enrich_subBranches, Forall_forall.
      intros branch (raw & -> & _)%list_elem_of_fmap. done.
  - intros resp d ds -> Hresp Hreal Hparse.
    destruct (requestIntelligence o "hta-domain-generation" _) as [aiResp o1].
    cbn [fst] in Hresp. subst aiResp.
    unfold proposedDomains. rewrite Hreal, Hparse. cbn [negb].
    rewrite enrich_titles, enrich_ids.
    apply mapi_domainBranch.
Qed.

End Roadmap.

Lemma roadmap_shape_witness :
  Model.branch_id
    <$> fst (HtaTreeBuilder.generateStrategicBranches
               (H := Examples.answering "[chords,rhythm]")
               (Examples.parsing "[chords,rhythm]" ["Chords"; "Rhythm"])
               tt (Some "Learn guitar") "general" [] 1)
  = ["domain_1"; "domain_2"].
Proof.
  destruct (roadmap_shape (H := Examples.answering "[chords,rhythm]")
              (Examples.parsing "[chords,rhythm]" ["Chords"; "Rhythm"])
              tt (Some "Learn guitar") "general" [] 1) as [_ Hdom].
  destruct (Hdom _ "Chords" ["Rhythm"] eq_refl eq_refl eq_refl eq_refl)
    as [_ Hids].
  exact Hids.
Defined.

(** ** Building the tree *)

Section Building.
Import JS Model TaskIntelligence HtaTreeBuilder Spec TaskResponse TreeBuild.
Context {O : Type} `{LlmInterface O}.
Variable JSON_parse_strings : string → Parsed string.
Variable learning_paths : string → option (list string).

Lemma orStr_nonempty (o : option string) (d : string) :
  d ≠ "" → orStr o d ≠ "".
Proof.
  intros Hd. destruct o as [s|]; cbn [orStr]; [|done].
  unfold truthyStr. case_bool_decide; done.
Qed.

Lemma orStr_Some_nonempty (s d : string) : s ≠ "" → orStr (Some s) d = s.
Proof.
  intros Hs. cbn [orStr]. unfold truthyStr.
  by rewrite bool_decide_eq_false_2.
Qed.

Lemma generateHTAFramework_frontier (nowIso : string) (b : Builder O)
    (config : Config) (pathName learningStyle : string)
    (focusAreas : list string) (existingHTA : option HtaData) :
  frontierNodes (fst (generateHTAFramework JSON_parse_strings nowIso b config
                        pathName learningStyle focusAreas existingHTA))
  = Some []
  ∧ pendingClaudeRequests
      (snd (generateHTAFramework JSON_parse_strings nowIso b config pathName
              learningStyle focusAreas existingHTA))
    = pendingClaudeRequests b.
Proof.
  unfold generateHTAFramework.
  by destruct (generateStrategicBranches _ _ _ _ _ _).
Qed.

(** A successful build, spelled out. *)
Lemma buildHTATree_success (nowIso : string) (pathName : option string)
    (learningStyle : string) (focusAreas : list string) (st st' : Store)
    (b b' : Builder O) (reply : BuildReply) :
  buildHTATree JSON_parse_strings learning_paths nowIso pathName learningStyle
    focusAreas st b = (inr reply, st', b') →
  reply ≠ NeedsContext →
  ∃ projectId config,
    activeProject st = Some projectId
    ∧ configs st !! projectId = Some config
    ∧ contextMissing config = false
    ∧ let targetPath := orStr pathName (orStr (activePath config) "general") in
      let built :=
        generateHTAFramework JSON_parse_strings nowIso b config targetPath
          learningStyle focusAreas (loadPathHTA st projectId targetPath) in
      pathExists learning_paths projectId targetPath = true
      ∧ b' = snd built
      ∧ st' = saveConfig (savePathHTA st projectId targetPath (fst built))
                projectId (withActivePath config targetPath)
      ∧ reply = match pendingClaudeRequests b with
                | pending :: _ => PendingClaude pending
                | [] => Built (fst built) targetPath
                end.
Proof.
  unfold buildHTATree, buildHTATreeTry, loadConfig.
  destruct (activeProject st) as [projectId|] eqn:Hp; [|intros [=]].
  destruct (configs st !! projectId) as [config|] eqn:Hc; [|intros [=]].
  destruct (contextMissing config) eqn:Hctx.
  { intros [= <- <- <-]. done. }
  set (targetPath := orStr pathName (orStr (activePath config) "general")).
  destruct (pathExists learning_paths projectId targetPath) eqn:Hpath;
    cbn [negb]; [|intros [=]].
  destruct (generateHTAFramework_frontier nowIso b config targetPath
              learningStyle focusAreas (loadPathHTA st projectId targetPath))
    as [Hfrontier Hqueue].
  destruct (generateHTAFramework JSON_parse_strings nowIso b config targetPath
              learningStyle focusAreas (loadPathHTA st projectId targetPath))
    as [htaData b1] eqn:Hgen.
  cbn [fst snd] in *. rewrite Hfrontier, Hqueue. cbn [default List.length].
  change (Z.of_nat 0 =? 0) with true. cbn iota.
  intros Hres _. exists projectId, config.
  split; [done|]. split; [done|]. split; [done|]. cbn zeta.
  fold targetPath. rewrite Hgen. cbn [fst snd].
  split; [done|].
  destruct (pendingClaudeRequests b) as [|pending rest];
    injection Hres as <- <- <-; done.
Qed.

(** X16.  [buildHTATree] stops before anything is stored or asked of the
    LLM in four cases: no active project, no configuration, a context
    that is missing or blank, and a target path that is neither general
    nor a learning path of the project.  The first, second and fourth are
    errors and add an entry to the error log; the third is a reply that
    asks for the context and changes nothing. *)
Theorem buildHTATree_gates (nowIso : string) (pathName : option string)
    (learningStyle : string) (focusAreas : list string) (st : Store)
    (b : Builder O) :
  match buildHTATree JSON_parse_strings learning_paths nowIso pathName
          learningStyle focusAreas st b with
  | (inl error, st', b') =>
      st' = logError st "buildHTATree" ∧ b' = b
      ∧ match error with
        | NoProject => activeProject st = None
        | ConfigurationNotFound =>
            ∃ projectId, activeProject st = Some projectId
                         ∧ configs st !! projectId = None
        | PathNotFound targetPath =>
            targetPath ≠ "general"
            ∧ ∃ projectId config,
                activeProject st = Some projectId
                ∧ configs st !! projectId = Some config
                ∧ targetPath
                  = orStr pathName (orStr (activePath config) "general")
                ∧ ∀ names, learning_paths projectId = Some names →
                           targetPath ∉ names
        end
  | (inr NeedsContext, st', b') =>
      st' = st ∧ b' = b
      ∧ ∃ projectId config,
          activeProject st = Some projectId
          ∧ configs st !! projectId = Some config
          ∧ (context config = None
             ∨ ∃ c, context config = Some c ∧ trim c = "")
  | (inr _, st', b') =>
      errorLog st' = errorLog st
      ∧ ∃ projectId config c,
          activeProject st = Some projectId
          ∧ configs st !! projectId = Some config
          ∧ context config = Some c ∧ trim c ≠ ""
  end.
Proof.
  destruct (buildHTATree _ _ nowIso pathName learningStyle focusAreas st b)
    as [[[error | reply] st'] b'] eqn:Hbuild.
  - revert Hbuild. unfold buildHTATree, buildHTATreeTry, loadConfig.
    destruct (activeProject st) as [projectId|] eqn:Hp;
      [|intros [= <- <- <-]; done].
    destruct (configs st !! projectId) as [config|] eqn:Hc;
      [|intros [= <- <- <-]; eauto].
    destruct (contextMissing config); [intros [=]|].
    set (targetPath := orStr pathName (orStr (activePath config) "general")).
    destruct (pathExists learning_paths projectId targetPath) eqn:Hpath;
      cbn [negb].
    + destruct (generateHTAFramework _ _ _ _ _ _ _ _) as [htaData b1].
      destruct (pendingClaudeRequests b1); [intros [=]|].
      destruct (_ =? 0); intros [=].
    + intros [= <- <- <-]. split; [done|]. split; [done|].
      unfold pathExists in Hpath. apply orb_false_iff in Hpath as [Hin Hg].
      split; [by apply bool_decide_eq_false in Hg|].
      exists projectId, config. repeat split; try done.
      intros names Hnames. rewrite Hnames in Hin.
      by apply bool_decide_eq_false in Hin.
  - assert (Hctx : ∀ config, contextMissing config = true ↔
              context config = None
              ∨ ∃ c, context config = Some c ∧ trim c = "").
    { intros config. unfold contextMissing.
      destruct (context config) as [c|]; [|by split; auto].
      unfold truthyStr. rewrite negb_involutive. split.
      - intros [->%bool_decide_eq_true | Ht%bool_decide_eq_true]%orb_true_iff;
          right; eexists; eauto.
      - intros [[=] | (c' & [= <-] & Ht)].
        apply orb_true_iff. right. by apply bool_decide_eq_true. }
    assert (Hcase : reply = NeedsContext ∨ reply ≠ NeedsContext)
      by (destruct reply; auto).
    destruct Hcase as [-> | Hreply].
    + revert Hbuild. unfold buildHTATree, buildHTATreeTry, loadConfig.
      destruct (activeProject st) as [projectId|] eqn:Hp; [|intros [=]].
      destruct (configs st !! projectId) as [config|] eqn:Hc; [|intros [=]].
      destruct (contextMissing config) eqn:Hmiss.
      * intros [= <- <-]. split; [done|]. split; [done|].
        exists projectId, config. split; [done|]. split; [done|].
        by apply Hctx.
      * destruct (negb _); [intros [=]|].
        destruct (generateHTAFramework _ _ _ _ _ _ _ _) as [htaData b1].
        destruct (pendingClaudeRequests b1); [intros [=]|].
        destruct (_ =? 0); intros [=].
    + destruct (buildHTATree_success _ _ _ _ _ _ _ _ _ Hbuild Hreply)
        as (projectId & config & Hp & Hc & Hmiss & _ & _ & -> & _).
      assert (Hgoal : errorLog
                (saveConfig
                   (savePathHTA st projectId
                      (orStr pathName (orStr (activePath config) "general"))
                      (fst (generateHTAFramework JSON_parse_strings nowIso b
                              config
                              (orStr pathName
                                 (orStr (activePath config) "general"))
                              learningStyle focusAreas
                              (loadPathHTA st projectId
                                 (orStr pathName
                                    (orStr (activePath config) "general"))))))
                   projectId
                   (withActivePath config
                      (orStr pathName (orStr (activePath config) "general"))))
              = errorLog st
              ∧ ∃ projectId config c,
                  activeProject st = Some projectId
                  ∧ configs st !! projectId = Some config
                  ∧ context config = Some c ∧ trim c ≠ "").
      { split; [done|]. exists projectId, config.
        destruct (context config) as [c|] eqn:Hcc.
        - exists c. repeat split; try done. intros Ht.
          assert (contextMissing config = true) by (apply Hctx; eauto).
          congruence.
        - assert (contextMissing config = true) by (apply Hctx; eauto).
          congruence. }
      by destruct reply.
Qed.

End Building.

(** ** Taking in generated tasks *)

Section TakingIn.
Import JS Model TaskIntelligence HtaTreeBuilder Spec Ingestion.
Variable generalPath : string → option (HtaData * list Session).

Lemma nodesFrom_cons (nextId : Z) (named : string * AiTask)
    (flat : list (string * AiTask)) :
  nodesFrom nextId (named :: flat)
  = storedNode named.1 nextId named.2 :: nodesFrom (nextId + 1) flat.
Proof.
  unfold nodesFrom, mapi. rewrite imap_cons. f_equal.
  - by rewrite Z.add_0_r.
  - apply imap_ext. intros i x _. unfold compose. f_equal. lia.
Qed.

Lemma nodesFrom_app (nextId : Z) (flat more : list (string * AiTask)) :
  nodesFrom nextId (flat ++ more)
  = nodesFrom nextId flat
    ++ nodesFrom (nextId + Z.of_nat (List.length flat)) more.
Proof.
  revert nextId. induction flat as [|named flat IH]; intros nextId.
  - cbn [app List.length]. by rewrite Z.add_0_r.
  - cbn [app]. rewrite !nodesFrom_cons, IH. cbn [app List.length].
    do 3 f_equal. lia.
Qed.

Lemma storeTask_loop (branchName : string) (ts : list AiTask)
    (frontierNodes : option (list Task)) (nextId : Z) :
  foldl (storeTask branchName) (frontierNodes, nextId) ts
  = (match ts with
     | [] => frontierNodes
     | _ :: _ =>
         Some (default [] frontierNodes
               ++ nodesFrom nextId (pair branchName <$> ts))
     end,
     nextId + Z.of_nat (List.length ts)).
Proof.
  revert frontierNodes nextId. induction ts as [|t ts IH];
    intros frontierNodes nextId; cbn [foldl].
  - by rewrite Z.add_0_r.
  - cbn [storeTask]. rewrite IH. f_equal; [|cbn [List.length]; lia].
    rewrite fmap_cons, nodesFrom_cons. cbn [fst snd].
    destruct ts as [|t' ts]; [done|].
    change (default [] (Some ?l)) with l. by rewrite <- app_assoc.
Qed.

Lemma flatten_cons (branch : BranchTasks) (rest : list BranchTasks) :
  flatten (branch :: rest)
  = (pair (branch_name branch) <$> tasks branch) ++ flatten rest.
Proof. reflexivity. Qed.

Lemma storeBranch_loop (branchTasks : list BranchTasks)
    (strategicBranches : list Branch) (frontierNodes : option (list Task))
    (nextId : Z) :
  snd (foldl storeBranch (strategicBranches, (frontierNodes, nextId))
         branchTasks)
  = (match flatten branchTasks with
     | [] => frontierNodes
     | _ :: _ =>
         Some (default [] frontierNodes
               ++ nodesFrom nextId (flatten branchTasks))
     end,
     nextId + Z.of_nat (List.length (flatten branchTasks))).
Proof.
  revert strategicBranches frontierNodes nextId.
  induction branchTasks as [|branch rest IH];
    intros strategicBranches frontierNodes nextId; cbn [foldl].
  - cbn. by rewrite Z.add_0_r.
  - cbn [storeBranch]. rewrite storeTask_loop, IH.
    rewrite flatten_cons, length_app, length_fmap.
    f_equal; [|lia].
    destruct (tasks branch) as [|t ts]; [by rewrite Z.add_0_r|].
    rewrite nodesFrom_app, length_fmap.
    set (here := pair (branch_name branch) <$> t :: ts).
    change (default [] (Some ?l)) with l.
    destruct (flatten rest) as [|named flat].
    + by rewrite !app_nil_r.
    + rewrite <- app_assoc. by destruct here.
Qed.

Lemma nodesFrom_ids (nextId : Z) (flat : list (string * AiTask)) :
  id <$> nodesFrom nextId flat
  = (λ k, "node_" +:+ pretty k) <$> seqZ nextId (Z.of_nat (List.length flat)).
Proof.
  revert nextId. induction flat as [|named flat IH]; intros nextId; [done|].
  rewrite nodesFrom_cons, seqZ_cons by (cbn [List.length]; lia).
  rewrite !fmap_cons, IH. do 3 f_equal. cbn [List.length]. lia.
Qed.

(** The state that [storeGeneratedTasks] leaves, when a project is active
    and configured and no [paths/general/hta.json] stands in front of the
    document. *)
Lemma storeGeneratedTasks_stored (nowIso sessionId : string)
    (branchTasks : list BranchTasks) (sv : Server) (projectId : string)
    (config : Config) :
  activeProject (documents sv) = Some projectId →
  configs (documents sv) !! projectId = Some config →
  let pathName := orStr (activePath config) "general" in
  (pathName = "general" → generalPath projectId = None) →
  let old := storedNodes (documents sv) (projectId, pathName) in
  let new := nodesFrom (Z.of_nat (List.length old) + 1) (flatten branchTasks) in
  let r := storeGeneratedTasks generalPath nowIso sessionId branchTasks sv in
  ∃ stored,
    htas (documents (snd r))
    = <[(projectId, pathName) := stored]> (htas (documents sv))
    ∧ default [] (frontierNodes stored) = old ++ new
    ∧ session_logs (snd r)
      = <[(projectId, pathName) :=
            match htas (documents sv) !! (projectId, pathName) with
            | Some _ => default [] (session_logs sv !! (projectId, pathName))
            | None => []
            end
            ++ [ {| timestamp := nowIso; session_id := sessionId;
                    tasks_count := countTasks branchTasks;
                    branches_populated := branch_name <$> branchTasks |} ]]>
          (session_logs sv)
    ∧ activeProject (documents (snd r)) = Some projectId
    ∧ configs (documents (snd r)) = configs (documents sv)
    ∧ (new ≠ [] →
       ∃ reply, fst r = inr reply
                ∧ hta_frontier_count reply
                  = Z.of_nat (List.length (old ++ new))).
Proof.
  intros Hp Hc pathName Hshadow old new r. subst r.
  unfold storeGeneratedTasks, loadConfig. rewrite Hp, Hc. fold pathName.
  assert (Hload : loadPathHTA generalPath sv projectId pathName
                  = htaData ← htas (documents sv) !! (projectId, pathName);
                    Some (htaData,
                          default [] (session_logs sv !! (projectId, pathName)))).
  { unfold loadPathHTA. case_bool_decide as Hg; [|done].
    by rewrite (Hshadow Hg). }
  rewrite Hload. unfold old, storedNodes, nodesOf in *.
  assert (Hsnd : ∀ (nodes : option (list Task))
                   (f : list Task → Error + StoreReply) e (s : Server),
            snd (match nodes with Some n => (f n, s) | None => (e, s) end) = s)
    by by intros [?|].
  destruct (htas (documents sv) !! (projectId, pathName)) as [htaData|];
    cbn [mbind option_bind];
    [change (default ?d (Some ?x)) with x in * |
     change (default ?d None) with d in *];
    cbv iota beta.
  - pose proof (storeBranch_loop branchTasks (strategicBranches htaData)
                  (frontierNodes htaData)
                  (Z.of_nat (List.length (default [] (frontierNodes htaData)))
                   + 1)) as Hloop.
    destruct (foldl storeBranch _ branchTasks) as [branches [nodes next]].
    cbn [snd] in Hloop. injection Hloop as -> _.
    rewrite Hsnd. eexists. split; [reflexivity|].
    cbn [frontierNodes]. fold new. split; [|split; [done|split; [done|]]].
    + destruct (flatten branchTasks) eqn:Hflat; [|done].
      subst new. cbn. by rewrite app_nil_r.
    + split; [done|]. intros Hnew. subst new.
      destruct (flatten branchTasks) as [|named flat]; [done|].
      eexists. split; [reflexivity|]. done.
  - pose proof (storeBranch_loop branchTasks [] (Some []) (Z.of_nat 0 + 1))
      as Hloop.
    cbn [frontierNodes strategicBranches List.length].
    destruct (foldl storeBranch _ branchTasks) as [branches [nodes next]].
    cbn [snd] in Hloop. injection Hloop as -> _.
    change (default [] (frontierNodes emptyHta)) with ([] : list Task) in *.
    rewrite Hsnd. eexists. split; [reflexivity|].
    cbn [frontierNodes]. fold new. split; [|split; [done|split; [done|]]].
    + by destruct (flatten branchTasks) eqn:Hflat.
    + split; [done|]. intros Hnew. subst new.
      destruct (flatten branchTasks) as [|named flat]; [done|].
      eexists. split; [reflexivity|]. done.
Qed.

Lemma countTasks_flatten (branchTasks : list BranchTasks) :
  countTasks branchTasks = Z.of_nat (List.length (flatten branchTasks)).
Proof.
  unfold countTasks.
  assert (Hgen : ∀ acc,
            foldl (λ sum b, sum + Z.of_nat (List.length (tasks b))) acc
                  branchTasks
            = acc + Z.of_nat (List.length (flatten branchTasks))).
  { induction branchTasks as [|branch rest IH]; intros acc; cbn [foldl].
    - cbn. lia.
    - rewrite IH, flatten_cons, length_app, length_fmap. lia. }
  by rewrite Hgen.
Qed.

Lemma nodesFrom_shape (nextId : Z) (flat : list (string * AiTask)) :
  Forall2 (λ (named : string * AiTask) node,
             title node = ai_title named.2
             ∧ difficulty node = Some (orNum (ai_difficulty named.2) 1)
             ∧ priority node = Some 200
             ∧ generated node = true
             ∧ completed node = false)
          flat (nodesFrom nextId flat).
Proof.
  revert nextId. induction flat as [|named flat IH]; intros nextId.
  - constructor.
  - rewrite nodesFrom_cons. constructor; [done | apply IH].
Qed.

Lemma storeGeneratedTasks_count (nowIso sessionId : string)
    (branchTasks : list BranchTasks) (sv : Server) (reply : StoreReply) :
  fst (storeGeneratedTasks generalPath nowIso sessionId branchTasks sv)
  = inr reply →
  stored_count reply = countTasks branchTasks.
Proof.
  unfold storeGeneratedTasks.
  destruct (activeProject (documents sv)) as [projectId|]; [|done].
  destruct (loadConfig (documents sv) projectId) as [config|]; [|done].
  cbv zeta.
  destruct (default (_, _) (loadPathHTA _ _ _ _)) as [htaData sessions].
  destruct (foldl storeBranch _ branchTasks) as [branches [nodes next]].
  destruct nodes; [|done]. cbn [fst]. by intros [= <-].
Qed.

Lemma durationText_minutes (d : AiDuration) :
  parseTimeToMinutes (orStr (Some (durationText d)) "30 minutes")
  = parseTimeToMinutes (durationText d).
Proof.
  destruct d as [n | s |]; cbn [durationText]; [|by destruct s|done].
  by rewrite written_minutes_nonempty.
Qed.

(** X18.  A task taken in without prerequisites is a candidate of
    [selectOptimalTask] on the stored document whenever its duration is
    within 1.2 times the time available; so, once such a task has been
    stored, a selection with that much time returns a task. *)
Theorem ingested_tasks_are_candidates (nowIso sessionId : string)
    (branchTasks : list BranchTasks) (sv : Server) (projectId : string)
    (config : Config) (timeAvailable : string) (branchName : string)
    (t : AiTask) :
  activeProject (documents sv) = Some projectId →
  configs (documents sv) !! projectId = Some config →
  let pathName := orStr (activePath config) "general" in
  (pathName = "general" → generalPath projectId = None) →
  (branchName, t) ∈ flatten branchTasks →
  default [] (ai_prerequisites t) = [] →
  5 * parseTimeToMinutes (durationText (ai_duration t))
  ≤ 6 * parseTimeToMinutes timeAvailable →
  let sv' :=
    snd (storeGeneratedTasks generalPath nowIso sessionId branchTasks sv) in
  let stored :=
    default emptyHta (htas (documents sv') !! (projectId, pathName)) in
  (∃ node, node ∈ availableTasks stored timeAvailable
           ∧ title node = ai_title t
           ∧ branch node = Some (slug branchName)
           ∧ generated node = true)
  ∧ ∀ energyLevel contextFromMemory pc,
      is_Some (selectOptimalTask stored energyLevel timeAvailable
                 contextFromMemory pc).
Proof.
  intros Hp Hc pathName Hshadow Hin Hpre Htime sv' stored.
  destruct (storeGeneratedTasks_stored nowIso sessionId branchTasks sv
              projectId config Hp Hc Hshadow)
    as (doc & Hdocs & Hnodes & _).
  fold pathName sv' in Hdocs, Hnodes.
  assert (Hstored : stored = doc)
    by (unfold stored; by rewrite Hdocs, lookup_insert_eq).
  assert (Hnode : ∃ node, node ∈ availableTasks stored timeAvailable
                          ∧ title node = ai_title t
                          ∧ branch node = Some (slug branchName)
                          ∧ generated node = true).
  { apply list_elem_of_lookup in Hin as [i Hi].
    exists (storedNode branchName
              (Z.of_nat (List.length
                           (storedNodes (documents sv) (projectId, pathName)))
               + 1 + Z.of_nat i) t).
    split; [|done]. apply availableTasks_spec. rewrite Hstored.
    unfold nodesOf. rewrite Hnodes.
    split; [|split; [done|split]].
    - apply elem_of_app. right. unfold nodesFrom, mapi.
      apply elem_of_lookup_imap. exists i, (branchName, t). by split.
    - unfold prerequisitesOf. cbn [storedNode prerequisites default].
      change (default [] (Some ?l)) with l. rewrite Hpre. constructor.
    - unfold taskMinutesOf. cbn [storedNode duration].
      by rewrite durationText_minutes. }
  split; [exact Hnode|]. intros energyLevel contextFromMemory pc.
  apply selectOptimalTask_is_Some. destruct Hnode as (node & Hnode & _).
  intros Hnone. rewrite Hnone in Hnode. by apply elem_of_nil in Hnode.
Qed.

Lemma sliceLast_snoc {A} (limit : Z) (l : list A) (x : A) :
  0 < limit →
  ∃ earlier, sliceLast limit (l ++ [x]) = earlier ++ [x]
             ∧ Z.of_nat (List.length earlier) < limit
             ∧ earlier `suffix_of` l.
Proof.
  intros Hlimit. unfold sliceLast.
  rewrite (proj2 (Z.eqb_neq limit 0)) by lia.
  rewrite (proj2 (Z.ltb_lt 0 limit)) by lia.
  rewrite length_app. cbn [List.length].
  set (k := Z.to_nat (Z.of_nat (List.length l + 1) - limit)).
  assert (Hk : (k ≤ List.length l)%nat) by lia.
  exists (drop k l). split; [by rewrite drop_app_le|].
  split; [rewrite length_drop; lia|].
  exists (take k l). by rewrite take_drop.
Qed.

End TakingIn.

Lemma getNextTask_failures_witness :
  fst (TaskResponse.getNextTaskReply 536870888 "" 3 "30 minutes"
         (Ingestion.documents
            (snd (Ingestion.storeGeneratedTasks Samples.noGeneralPath
                    "2025-06-17T00:00:00.000Z" "sess_1"
                    [ {| Ingestion.branch_name := "Basics";
                         Ingestion.tasks := [Samples.risky] |} ]
                    (Samples.serving Samples.bareStore)))))
  = inl TaskResponse.InvalidCount.
Proof.
  pose proof (getNextTask_failures 536870888 "" 3 "30 minutes"
    (Ingestion.documents
       (snd (Ingestion.storeGeneratedTasks Samples.noGeneralPath
               "2025-06-17T00:00:00.000Z" "sess_1"
               [ {| Ingestion.branch_name := "Basics";
                    Ingestion.tasks := [Samples.risky] |} ]
               (Samples.serving Samples.bareStore))))) as Hfail.
  destruct (TaskResponse.getNextTaskReply _ _ _ _ _)
    as [[failure | [next response]] st'] eqn:Hreply.
  - destruct Hfail as (_ & [[Hnone _] | Hsel]); [by vm_compute in Hnone|].
    destruct Hsel as (key & htaData & pc & task & score & _ & _ & _ & Hcase).
    destruct Hcase as [[-> _] | [-> _]]; [done|].
    by vm_compute in Hreply.
  - by vm_compute in Hreply.
Defined.

Lemma ingested_tasks_are_candidates_witness :
  is_Some (TaskIntelligence.selectOptimalTask
             (default Model.emptyHta
                (Model.htas
                   (Ingestion.documents
                      (snd (Ingestion.storeGeneratedTasks Samples.noGeneralPath
                              "2025-06-17T00:00:00.000Z" "sess_1"
                              Samples.proposals
                              (Samples.serving Samples.bareStore))))
                 !! ("guitar", "general")))
             3 "10 minutes" "" Examples.guitarContext).
Proof.
  apply (ingested_tasks_are_candidates Samples.noGeneralPath
           "2025-06-17T00:00:00.000Z" "sess_1" Samples.proposals
           (Samples.serving Samples.bareStore) "guitar" Examples.guitarConfig
           "10 minutes" "Basic Chords" Samples.warmUp eq_refl eq_refl).
  - done.
  - vm_compute. left.
  - reflexivity.
  - by vm_compute.
Defined.

(** ** The cache of [DataPersistence] *)

Section Caching.
Import JS DataPersistence.
Variable Data : Type.
Variable JSON_stringify : Data → option string.
Variable JSON_parse : string → option Data.
Variable projectFile : string → string → string.
Variable pathFile : string → string → string → string.
Variable writable : string → bool.
Variable logPath : string.
Variable loggable : bool.
Variable logEntry : string → string → Z → string.

Local Abbreviation fileOf := (fileOf projectFile pathFile).
Local Abbreviation appendLog := (appendLog logPath loggable logEntry).
Local Abbreviation step :=
  (step Data JSON_stringify JSON_parse projectFile pathFile writable logPath
        loggable logEntry).
Local Abbreviation run :=
  (run Data JSON_stringify JSON_parse projectFile pathFile writable logPath
       loggable logEntry).
Local Abbreviation stepDirect :=
  (stepDirect Data JSON_stringify JSON_parse projectFile pathFile writable
              logPath loggable logEntry).
Local Abbreviation runDirect :=
  (runDirect Data JSON_stringify JSON_parse projectFile pathFile writable
             logPath loggable logEntry).

(** A line added to the error log leaves the other files as they are. *)
Lemma appendLog_other (fs : gmap string string) (operation filePath : string)
    (now : Z) (file : string) :
  file ≠ logPath → appendLog fs operation filePath now !! file = fs !! file.
Proof.
  intros Hfile. unfold DataPersistence.appendLog.
  destruct loggable; [|done]. by rewrite lookup_insert_ne.
Qed.

(** The state of the cache agrees with the files, on the targets [used]:
    what is cached under the key of a target is what its file parses to,
    and every time stamp comes with an entry. *)
Lemma step_coherent (used : list Target) (op : Op Data) (st : State Data) :
  (∀ t t', t ∈ used → t' ∈ used → keyOf t = keyOf t' ↔ fileOf t = fileOf t') →
  (∀ t, t ∈ used → fileOf t ≠ logPath) →
  targetOf Data op ∈ used →
  (∀ t d, t ∈ used → cache st !! keyOf t = Some d →
          files st !! fileOf t ≫= JSON_parse = Some d) →
  (∀ key, is_Some (cacheTimestamps st !! key) → is_Some (cache st !! key)) →
  fst (step op st) = fst (stepDirect op (files st))
  ∧ files (snd (step op st)) = snd (stepDirect op (files st))
  ∧ (∀ t d, t ∈ used → cache (snd (step op st)) !! keyOf t = Some d →
            files (snd (step op st)) !! fileOf t ≫= JSON_parse = Some d)
  ∧ (∀ key, is_Some (cacheTimestamps (snd (step op st)) !! key) →
            is_Some (cache (snd (step op st)) !! key)).
Proof.
  intros Hfaithful Hlog Hop Hcached Hstamped.
  assert (Hload : ∀ now later target, target ∈ used →
    let r := loadFile Data JSON_parse now later (keyOf target) (fileOf target)
               st in
    fst r = files st !! fileOf target ≫= JSON_parse
    ∧ files (snd r) = files st
    ∧ (∀ t d, t ∈ used → cache (snd r) !! keyOf t = Some d →
              files (snd r) !! fileOf t ≫= JSON_parse = Some d)
    ∧ (∀ key, is_Some (cacheTimestamps (snd r) !! key) →
              is_Some (cache (snd r) !! key))).
  { intros now later target Hin r. subst r. unfold loadFile, isCacheValid.
    destruct (cacheTimestamps st !! keyOf target) as [timestamp|] eqn:Hstamp.
    - destruct (truthyNum timestamp && (now - timestamp <? cacheMaxAge)).
      + cbn [fst snd]. split; [|by auto].
        destruct (Hstamped (keyOf target)) as [d Hd]; [by eauto|].
        rewrite Hd. symmetry. by apply Hcached.
      + destruct (files st !! fileOf target ≫= JSON_parse) as [parsed|] eqn:Hp;
          cbn [fst snd setCache files cache cacheTimestamps]; [|by auto].
        split; [done|]. split; [done|]. split.
        * intros t d Ht. destruct (decide (keyOf t = keyOf target)) as [Hk | Hk].
          -- rewrite Hk, lookup_insert_eq. intros [= <-].
             by rewrite (proj1 (Hfaithful t target Ht Hin) Hk).
          -- rewrite lookup_insert_ne by done. by apply Hcached.
        * intros key. rewrite !lookup_insert_is_Some. intros [? | [? ?]]; auto.
    - destruct (files st !! fileOf target ≫= JSON_parse) as [parsed|] eqn:Hp;
        cbn [fst snd setCache files cache cacheTimestamps]; [|by auto].
      split; [done|]. split; [done|]. split.
      + intros t d Ht. destruct (decide (keyOf t = keyOf target)) as [Hk | Hk].
        * rewrite Hk, lookup_insert_eq. intros [= <-].
          by rewrite (proj1 (Hfaithful t target Ht Hin) Hk).
        * rewrite lookup_insert_ne by done. by apply Hcached.
      + intros key. rewrite !lookup_insert_is_Some. intros [? | [? ?]]; auto. }
  assert (Hfailed : ∀ operation filePath now,
    let st' := logError Data logPath loggable logEntry st operation filePath
                 now in
    (∀ t d, t ∈ used → cache st' !! keyOf t = Some d →
            files st' !! fileOf t ≫= JSON_parse = Some d)
    ∧ (∀ key, is_Some (cacheTimestamps st' !! key) →
              is_Some (cache st' !! key))).
  { intros operation filePath now st'. subst st'.
    cbn [logError files cache cacheTimestamps]. split; [|done].
    intros t d Ht Hd. rewrite appendLog_other by auto. by apply Hcached. }
  assert (Hsave : ∀ now target data, target ∈ used →
    let r := saveFile Data JSON_stringify writable logPath loggable logEntry
               now (operationOf target) (keyOf target) (fileOf target) data
               st in
    Saved (fst r) = fst (stepDirect (Save now target data) (files st))
    ∧ files (snd r) = snd (stepDirect (Save now target data) (files st))
    ∧ (∀ t d, t ∈ used → cache (snd r) !! keyOf t = Some d →
              files (snd r) !! fileOf t ≫= JSON_parse = Some d)
    ∧ (∀ key, is_Some (cacheTimestamps (snd r) !! key) →
              is_Some (cache (snd r) !! key))).
  { intros now target data Hin r. subst r. unfold saveFile, stepDirect.
    destruct (JSON_stringify data) as [text|];
      [|by cbn [fst snd]; repeat split; try apply Hfailed].
    destruct (writable (fileOf target));
      [|by cbn [fst snd]; repeat split; try apply Hfailed].
    cbn [fst snd invalidateCache files cache cacheTimestamps].
    split; [done|]. split; [done|]. split.
    - intros t d Ht. destruct (decide (keyOf t = keyOf target)) as [Hk | Hk].
      + by rewrite Hk, lookup_delete_eq.
      + rewrite lookup_delete_ne by done. intros Hd.
        rewrite lookup_insert_ne; [by apply Hcached|].
        intros Hf. apply Hk. by apply (Hfaithful t target Ht Hin).
    - intros key. destruct (decide (key = keyOf target)) as [-> | Hk].
      + rewrite lookup_delete_eq. by intros [? [=]].
      + rewrite !lookup_delete_ne by done. apply Hstamped. }
  destruct op as [now later [projectId filename | projectId pathName filename]
                 | now [projectId filename | projectId pathName filename] data];
    cbn [targetOf] in Hop; cbn [step stepDirect].
  - unfold loadProjectData.
    destruct (Hload now later (ProjectFile projectId filename) Hop)
      as (Hr & Hf & Hc & Hs). cbn [keyOf DataPersistence.fileOf] in *.
    destruct (loadFile _ _ _ _ _ _ _) as [data st']. cbn [fst snd] in *.
    by rewrite Hr.
  - unfold loadPathData.
    destruct (Hload now later (PathFile projectId pathName filename) Hop)
      as (Hr & Hf & Hc & Hs). cbn [keyOf DataPersistence.fileOf] in *.
    destruct (loadFile _ _ _ _ _ _ _) as [data st']. cbn [fst snd] in *.
    by rewrite Hr.
  - unfold saveProjectData.
    destruct (Hsave now (ProjectFile projectId filename) data Hop)
      as (Hr & Hf & Hc & Hs).
    cbn [keyOf DataPersistence.fileOf operationOf stepDirect] in *.
    destruct (saveFile _ _ _ _ _ _ _ _ _ _ _ _) as [ok st']. cbn [fst snd] in *.
    by rewrite Hr.
  - unfold savePathData.
    destruct (Hsave now (PathFile projectId pathName filename) data Hop)
      as (Hr & Hf & Hc & Hs).
    cbn [keyOf DataPersistence.fileOf operationOf stepDirect] in *.
    destruct (saveFile _ _ _ _ _ _ _ _ _ _ _ _) as [ok st']. cbn [fst snd] in *.
    by rewrite Hr.
Qed.

(** X20.  The cache is transparent.  Started on any file system, a
    sequence of loads and saves answers every load and save as the same
    sequence does without a cache, where a load reads and parses the file
    and a save writes it or logs its failure, and it leaves the same
    files, whatever the clock reads.  This holds for targets whose cache
    keys are equal exactly when their files are the same one, none of them
    the error log, and for callers that leave the loaded values as they
    are. *)
Theorem cache_is_transparent (ops : list (Op Data)) (fs : gmap string string) :
  (∀ t t', t ∈ targetOf Data <$> ops → t' ∈ targetOf Data <$> ops →
           keyOf t = keyOf t' ↔ fileOf t = fileOf t') →
  (∀ t, t ∈ targetOf Data <$> ops → fileOf t ≠ logPath) →
  fst (run ops (fresh fs)) = fst (runDirect ops fs)
  ∧ files (snd (run ops (fresh fs))) = snd (runDirect ops fs).
Proof.
  intros Hfaithful Hlog.
  assert (Hgen : ∀ todo st,
    (∀ op, op ∈ todo → targetOf Data op ∈ targetOf Data <$> ops) →
    (∀ t d, t ∈ targetOf Data <$> ops → cache st !! keyOf t = Some d →
            files st !! fileOf t ≫= JSON_parse = Some d) →
    (∀ key, is_Some (cacheTimestamps st !! key) → is_Some (cache st !! key)) →
    fst (run todo st) = fst (runDirect todo (files st))
    ∧ files (snd (run todo st)) = snd (runDirect todo (files st))).
  { induction todo as [|op todo IH]; intros st Hused Hcached Hstamped;
      cbn [run runDirect]; [done|].
    destruct (step_coherent (targetOf Data <$> ops) op st Hfaithful Hlog)
      as (Hr & Hf & Hc & Hs); [apply Hused; left | done | done |].
    destruct (step op st) as [result st'].
    destruct (stepDirect op (files st)) as [result' fs'].
    cbn [fst snd] in *. subst result' fs'.
    destruct (IH st') as [IHr IHf]; [|done|done|].
    { intros op' Hop'. apply Hused. by right. }
    destruct (run todo st') as [results st''].
    destruct (runDirect todo (files st')) as [results' fs''].
    cbn [fst snd] in *. by subst. }
  apply (Hgen ops (fresh fs)).
  - intros op Hop. by apply list_elem_of_fmap_2.
  - intros t d _. cbn. by rewrite lookup_empty.
  - intros key. cbn. rewrite lookup_empty. by intros [? [=]].
Qed.

(** X21.  A save that succeeds is what the next load of the same file
    returns, at whatever time and whatever the cache held before: the
    load parses the text that was written. *)
Theorem saved_data_is_loaded (target : Target) (data : Data)
    (st st' : State Data) (saved now later : Z) :
  step (Save saved target data) st = (Saved true, st') →
  ∃ text,
    JSON_stringify data = Some text
    ∧ files st' !! fileOf target = Some text
    ∧ fst (step (Load now later target) st') = Loaded (JSON_parse text).
Proof.
  assert (Hsave : ∀ operation key,
    saveFile Data JSON_stringify writable logPath loggable logEntry saved
      operation key (fileOf target) data st = (true, st') →
    ∃ text,
      JSON_stringify data = Some text
      ∧ files st' !! fileOf target = Some text
      ∧ fst (loadFile Data JSON_parse now later key (fileOf target) st')
        = JSON_parse text).
  { intros operation key. unfold saveFile.
    destruct (JSON_stringify data) as [text|]; [|intros [=]].
    destruct (writable (fileOf target)); [|intros [=]].
    intros [= <-]. exists text. split; [done|].
    cbn [invalidateCache files]. rewrite lookup_insert_eq. split; [done|].
    unfold loadFile, isCacheValid.
    cbn [invalidateCache files cache cacheTimestamps].
    rewrite lookup_delete_eq, lookup_insert_eq. cbn [mbind option_bind].
    by destruct (JSON_parse text). }
  destruct target as [projectId filename | projectId pathName filename];
    cbn [step DataPersistence.fileOf] in *.
  - unfold saveProjectData, loadProjectData.
    destruct (saveFile _ _ _ _ _ _ _ _ _ _ _ _) as [ok st1] eqn:Hs.
    intros [= -> ->]. destruct (Hsave _ _ Hs) as (text & ? & ? & Hl).
    exists text. split; [done|]. split; [done|].
    destruct (loadFile _ _ _ _ _ _ _). cbn [fst] in *. by subst.
  - unfold savePathData, loadPathData.
    destruct (saveFile _ _ _ _ _ _ _ _ _ _ _ _) as [ok st1] eqn:Hs.
    intros [= -> ->]. destruct (Hsave _ _ Hs) as (text & ? & ? & Hl).
    exists text. split; [done|]. split; [done|].
    destruct (loadFile _ _ _ _ _ _ _). cbn [fst] in *. by subst.
Qed.

Lemma append_assoc (a b c : string) : (a +:+ b) +:+ c = a +:+ (b +:+ c).
Proof.
  induction a as [|x a IH]; [done|].
  change (String x ((a +:+ b) +:+ c) = String x (a +:+ (b +:+ c))).
  by rewrite IH.
Qed.

(** X24.  The cache key joins its parts with colons and so does not tell
    a project whose name contains a colon from a project with a path: the
    file [filename] of project [a:b] and the file [filename] of path [b]
    of project [a] share one entry.  After a load of the path file, a
    load of the project file within five minutes returns the data of the
    path file, whatever the project file holds. *)
Theorem colon_keys_share_entry (projectId pathName filename : string)
    (fs : gmap string string) (d : Data) (now later now' later' : Z) :
  truthyStr pathName = true →
  fs !! pathFile projectId pathName filename ≫= JSON_parse = Some d →
  later ≠ 0 →
  now' - later < cacheMaxAge →
  keyOf (ProjectFile (projectId +:+ ":" +:+ pathName) filename)
  = keyOf (PathFile projectId pathName filename)
  ∧ fst (run [ Load now later (PathFile projectId pathName filename);
               Load now' later'
                 (ProjectFile (projectId +:+ ":" +:+ pathName) filename) ]
             (fresh fs))
    = [ Loaded (Some d); Loaded (Some d) ].
Proof.
  intros Hpath Hfile Hlater Hsoon.
  assert (Hkey :
    getCacheKey (projectId +:+ ":" +:+ pathName) filename None
    = getCacheKey projectId filename (Some pathName)).
  { unfold getCacheKey. rewrite Hpath.
    by rewrite !append_assoc. }
  split; [exact Hkey|].
  set (st1 := setCache Data later (fresh fs)
                (getCacheKey projectId filename (Some pathName)) d).
  assert (Hfirst :
    step (Load now later (PathFile projectId pathName filename)) (fresh fs)
    = (Loaded (Some d), st1)).
  { cbn [step]. unfold loadPathData, loadFile, isCacheValid.
    cbn [fresh cacheTimestamps files]. by rewrite lookup_empty, Hfile. }
  assert (Hsecond :
    step (Load now' later'
            (ProjectFile (projectId +:+ ":" +:+ pathName) filename)) st1
    = (Loaded (Some d), st1)).
  { cbn [step]. unfold loadProjectData, loadFile, isCacheValid.
    rewrite Hkey. subst st1. cbn [setCache cache cacheTimestamps].
    rewrite !lookup_insert_eq.
    replace (truthyNum later) with true
      by (symmetry; unfold truthyNum; apply negb_true_iff, Z.eqb_neq; lia).
    replace (now' - later <? cacheMaxAge) with true
      by (symmetry; apply Z.ltb_lt; lia).
    done. }
  cbn [run]. by rewrite Hfirst, Hsecond.
Qed.

End Caching.

Lemma cache_is_transparent_witness :
  fst (DataPersistence.run string Some Some Samples.projectFile
         Samples.pathFile (λ _, true) "error.log" true Samples.logLine
         Samples.session (DataPersistence.fresh Samples.disk))
  = [ DataPersistence.Loaded (Some "first"); DataPersistence.Saved true;
      DataPersistence.Loaded (Some "second"); DataPersistence.Loaded None ].
Proof.
  destruct (cache_is_transparent string Some Some Samples.projectFile
              Samples.pathFile (λ _, true) "error.log" true Samples.logLine
              Samples.session Samples.disk)
    as [Hresults _]; [| |by rewrite Hresults].
  - intros t t' Ht Ht'.
    apply list_elem_of_In in Ht, Ht'. cbn in Ht, Ht'.
    destruct Ht as [<- | [<- | [<- | [<- | []]]]];
      destruct Ht' as [<- | [<- | [<- | [<- | []]]]];
      by vm_compute.
  - intros t Ht. apply list_elem_of_In in Ht. cbn in Ht.
    destruct Ht as [<- | [<- | [<- | [<- | []]]]]; by vm_compute.
Defined.

Lemma saved_data_is_loaded_witness :
  ∃ st',
    DataPersistence.step string Some Some Samples.projectFile Samples.pathFile
      (λ _, true) "error.log" true Samples.logLine
      (DataPersistence.Save 6 (DataPersistence.ProjectFile "guitar" "hta.json")
                            "second")
      (DataPersistence.fresh Samples.disk) = (DataPersistence.Saved true, st')
    ∧ fst (DataPersistence.step string Some Some Samples.projectFile
             Samples.pathFile (λ _, true) "error.log" true Samples.logLine
             (DataPersistence.Load 7 8
                (DataPersistence.ProjectFile "guitar" "hta.json")) st')
      = DataPersistence.Loaded (Some "second").
Proof.
  eexists. split; [reflexivity|].
  destruct (saved_data_is_loaded string Some Some Samples.projectFile
              Samples.pathFile (λ _, true) "error.log" true Samples.logLine
              (DataPersistence.ProjectFile "guitar" "hta.json") "second"
              (DataPersistence.fresh Samples.disk) _ 6 7 8 eq_refl)
    as (text & [= <-] & _ & Hload).
  exact Hload.
Defined.

Lemma colon_keys_share_entry_witness :
  fst (DataPersistence.run string Some Some Samples.projectFile
         Samples.pathFile (λ _, true) "error.log" true Samples.logLine
         [ DataPersistence.Load 1 2
             (DataPersistence.PathFile "guitar" "general" "hta.json");
           DataPersistence.Load 3 4
             (DataPersistence.ProjectFile "guitar:general" "hta.json") ]
         (DataPersistence.fresh Samples.shelf))
  = [ DataPersistence.Loaded (Some "path"); DataPersistence.Loaded (Some "path") ]
  ∧ Samples.shelf !! Samples.projectFile "guitar:general" "hta.json"
    = Some "project".
Proof.
  split; [|reflexivity].
  refine (proj2 (colon_keys_share_entry string Some Some Samples.projectFile
                   Samples.pathFile (λ _, true) "error.log" true
                   Samples.logLine "guitar" "general" "hta.json" Samples.shelf
                   "path" 1 2 3 4 _ _ _ _)).
  - reflexivity.
  - reflexivity.
  - lia.
  - reflexivity.
Defined.

(** ** The time term of the score *)

Section TimeTerm.
Import JS Model TaskIntelligence Spec.

(** X22.  A candidate is never penalised for its length: the time rule of
    admission leaves only tasks of at most 1.2 times the time available,
    for which the time term of the score is +50 (the task fits) or +20, so
    the two penalties of the score, -20 and -100, are never applied by
    [selectOptimalTask].  The score of a candidate lies between its
    priority plus the energy term plus 20, and that plus 325. *)
Theorem candidates_are_not_penalised (htaData : HtaData)
    (timeAvailable contextFromMemory : string) (energyLevel : Z)
    (pc : ProjectContext) (task : Task) :
  task ∈ availableTasks htaData timeAvailable →
  let base :=
    orNum (priority task) 200
    + (5 - Z.abs (energyLevel - orNum (difficulty task) 3)) * 20 in
  let score :=
    calculateTaskScore task energyLevel (parseTimeToMinutes timeAvailable)
      contextFromMemory pc in
  base + 20 ≤ score ≤ base + 325
  ∧ (taskMinutesOf task ≤ parseTimeToMinutes timeAvailable →
     base + 50 ≤ score)
  ∧ (parseTimeToMinutes timeAvailable < taskMinutesOf task →
     score ≤ base + 295).
Proof.
  intros (_ & _ & _ & Hfit)%availableTasks_spec base score.
  pose proof (parseTimeToMinutes_nonneg (orStr (duration task) "30 minutes"))
    as Hpos.
  fold (taskMinutesOf task) in Hpos.
  subst base score. unfold calculateTaskScore.
  set (d := taskMinutesOf task) in *.
  set (time := parseTimeToMinutes timeAvailable) in *.
  destruct (Z.geb_spec time d) as [Hge | Hlt].
  - repeat case_match; lia.
  - destruct (Z.geb_spec (5 * time) (4 * d)) as [Hclose | Hfar]; [|lia].
    repeat case_match; lia.
Qed.

Lemma candidates_are_not_penalised_witness :
  Examples.twelve ∈ availableTasks Examples.shortSlot "10 minutes"
  ∧ 280 ≤ calculateTaskScore Examples.twelve 3 10 "" Examples.guitarContext
        ≤ 555.
Proof.
  assert (Hin : Examples.twelve ∈ availableTasks Examples.shortSlot "10 minutes")
    by (vm_compute; left).
  split; [exact Hin|].
  destruct (candidates_are_not_penalised Examples.shortSlot "10 minutes" "" 3
              Examples.guitarContext Examples.twelve Hin) as (Hbounds & _).
  exact Hbounds.
Defined.

End TimeTerm.

(** ** The counts of the status *)

Section StatusCounts.
Import JS Model TaskIntelligence Spec Status.

(** X23.  On a document without the fields [frontier_nodes] and
    [completed_nodes], the number of available tasks that [currentStatus]
    reports never exceeds the count of [evolveStrategy]: the status
    resolves a prerequisite by the id of a completed task only, not by its
    title.  The two agree when no prerequisite of an open task is the
    title of a completed task; the completed and total counts are those of
    [analyzeCurrentStrategy]. *)
Theorem status_counts_ids_only (htaData : HtaData) :
  let progress := treeProgress None None htaData in
  availableNodes progress ≤ getAvailableTasksCount htaData
  ∧ ((∀ node prereq n,
        node ∈ nodesOf htaData → completed node = false →
        prereq ∈ prerequisitesOf node →
        n ∈ nodesOf htaData → completed n = true →
        title n ≠ Some prereq) →
     availableNodes progress = getAvailableTasksCount htaData)
  ∧ ∀ now st projectId pathName feedback,
      loadPathHTA st projectId pathName = Some htaData →
      completedCount progress
      = completedTasks (analyzeCurrentStrategy now st projectId pathName
                          feedback)
      ∧ allTasks progress
        = totalTasks (analyzeCurrentStrategy now st projectId pathName
                        feedback).
Proof.
  intros progress. subst progress.
  unfold treeProgress, getAvailableTasksCount.
  cbn [availableNodes completedCount allTasks default].
  fold (nodesOf htaData).
  change (default [] None) with ([] : list Task).
  split; [|split].
  - apply inj_le, filter_length_le. intros node Hin.
    destruct (completed node); [done|].
    destruct (prerequisites node) as [[|p ps]|]; [done| |done].
    rewrite !forallb_forall. intros Hall prereq Hp.
    specialize (Hall prereq Hp). apply bool_decide_eq_true in Hall.
    apply orb_true_iff. left. by apply bool_decide_eq_true.
  - intros Htitles. f_equal. f_equal. apply List.filter_ext_in.
    intros node Hin%list_elem_of_In.
    destruct (completed node) eqn:Hopen; [done|].
    destruct (prerequisites node) as [[|p ps]|] eqn:Hpre; [done| |done].
    apply Bool.eq_true_iff_eq. rewrite !forallb_forall.
    apply forall_proper. intros prereq. apply forall_proper. intros Hp.
    cbn [fmap list_fmap app].
    destruct (existsb _ (nodesOf htaData)) eqn:Hex; [|by rewrite orb_false_r].
    apply existsb_exists in Hex as (n & Hn & Hnt).
    apply andb_true_iff in Hnt as [Ht%bool_decide_eq_true Hc].
    destruct (Htitles node prereq n); try done.
    + unfold prerequisitesOf. rewrite Hpre. by apply list_elem_of_In.
    + by apply list_elem_of_In.
  - intros now st projectId pathName feedback Hdoc.
    unfold analyzeCurrentStrategy. rewrite Hdoc.
    change (default emptyHta (Some htaData)) with htaData.
    cbn [completedTasks totalTasks]. unfold nodesOf.
    rewrite app_nil_r. split; [|done]. cbn [List.length]. lia.
Qed.

Lemma status_counts_ids_only_witness :
  availableNodes (treeProgress None None Examples.chords) = 2
  ∧ getAvailableTasksCount Examples.chords = 3
  ∧ availableNodes (treeProgress None None Examples.shortSlot)
    = getAvailableTasksCount Examples.shortSlot.
Proof.
  split; [reflexivity|]. split; [reflexivity|].
  apply (status_counts_ids_only Examples.shortSlot).
  intros node prereq n Hnode _ _ Hn Hdone.
  vm_compute in Hn.
  repeat (apply elem_of_cons in Hn as [-> | Hn]; [done|]).
  by apply elem_of_nil in Hn.
Defined.

End StatusCounts.

(** ** Loads and saves on the files *)

Section LoadsAndSaves.
Import JS DataPersistence.
Variable Data : Type.
Variable JSON_stringify : Data → option string.
Variable JSON_parse : string → option Data.
Variable writable : string → bool.
Variable logPath : string.
Variable loggable : bool.
Variable logEntry : string → string → Z → string.

(** What a load returns and leaves: the entry of the cache when it is
    valid; otherwise what the file parses to, which it then holds in the
    cache.  The files stay as they are. *)
Lemma loadFile_spec (now later : Z) (key path : string) (st : State Data) :
  let r := loadFile Data JSON_parse now later key path st in
  files (snd r) = files st
  ∧ fst r = (if isCacheValid Data now st key then cache st !! key
             else files st !! path ≫= JSON_parse)
  ∧ (∀ d, fst r = Some d → cache (snd r) !! key = Some d)
  ∧ (fst r = None → snd r = st)
  ∧ (∀ other, other ≠ key →
       cache (snd r) !! other = cache st !! other
       ∧ cacheTimestamps (snd r) !! other = cacheTimestamps st !! other)
  ∧ (isCacheValid Data now st key = true → snd r = st)
  ∧ (isCacheValid Data now st key = false → is_Some (fst r) →
     cacheTimestamps (snd r) !! key = Some later).
Proof.
  intros r. subst r. unfold loadFile.
  destruct (isCacheValid Data now st key) eqn:Hvalid; cbn [fst snd].
  - by repeat split.
  - destruct (files st !! path ≫= JSON_parse) as [parsed|];
      cbn [fst snd setCache files cache cacheTimestamps].
    + repeat split; try done.
      * intros d [= <-]. by rewrite lookup_insert_eq.
      * by rewrite lookup_insert_ne.
      * by rewrite lookup_insert_ne.
      * intros _. by rewrite lookup_insert_eq.
    + by repeat split.
Qed.

(** What a save returns and leaves: with a text for the data and a file
    that can be written, the file holds the text and the entry of the key
    is gone; otherwise a line is added to the error log and the cache
    stays as it is. *)
Lemma saveFile_spec (now : Z) (operation key path : string) (data : Data)
    (st : State Data) :
  let r := saveFile Data JSON_stringify writable logPath loggable logEntry
             now operation key path data st in
  match JSON_stringify data with
  | Some text =>
      if writable path then
        fst r = true
        ∧ files (snd r) = <[path := text]> (files st)
        ∧ cache (snd r) = delete key (cache st)
        ∧ cacheTimestamps (snd r) = delete key (cacheTimestamps st)
      else
        fst r = false
        ∧ snd r = logError Data logPath loggable logEntry st operation path now
  | None =>
      fst r = false
      ∧ snd r = logError Data logPath loggable logEntry st operation path now
  end.
Proof.
  intros r. subst r. unfold saveFile.
  destruct (JSON_stringify data) as [text|]; [|done].
  by destruct (writable path).
Qed.

(** A failed save leaves every file but the error log. *)
Lemma logError_files (st : State Data) (operation path : string) (now : Z)
    (file : string) :
  file ≠ logPath →
  files (logError Data logPath loggable logEntry st operation path now) !! file
  = files st !! file.
Proof.
  intros Hfile. cbn [logError files]. unfold appendLog.
  destruct loggable; [|done]. by rewrite lookup_insert_ne.
Qed.

(** An entry that has run out stays run out when the clock has not gone
    back. *)
Lemma isCacheValid_later (now now' : Z) (st : State Data) (key : string) :
  now ≤ now' →
  isCacheValid Data now st key = false →
  isCacheValid Data now' st key = false.
Proof.
  unfold isCacheValid. intros Hnow.
  destruct (cacheTimestamps st !! key) as [timestamp|]; [|done].
  destruct (truthyNum timestamp); [|done]. cbn [andb].
  rewrite !Z.ltb_ge. unfold cacheMaxAge. lia.
Qed.

End LoadsAndSaves.

Section OnServer.
Import JS Model DataPersistence Persisted.
Context {fs : FileSystem}.

(** A load of a configuration leaves the files and the entries for
    [hta.json]; the configuration it returns is held in the cache. *)
Lemma loadConfig_spec (time : LoadTime) (projectId : string) (sv : Server) :
  let r := loadConfig time projectId sv in
  activeProject (snd r) = activeProject sv
  ∧ Persisted.files (snd r) = Persisted.files sv
  ∧ htaCache (snd r) = htaCache sv
  ∧ htaStamps (snd r) = htaStamps sv
  ∧ ∀ config, fst r = Some config →
              configCache (snd r) !! configKey projectId = Some config.
Proof.
  intros r. subst r. unfold loadConfig, loadProjectData.
  pose proof (loadFile_spec ConfigDoc JSON_parse_config (checked time)
                (cached time) (getCacheKey projectId "config.json" None)
                (projectFile projectId "config.json") (configs sv))
    as (Hfiles & _ & Hheld & _).
  destruct (loadFile _ _ _ _ _ _ _) as [config st]. cbn [fst snd] in *.
  by repeat split.
Qed.

(** A load of a roadmap through the cache, under a key and from a file. *)
Lemma loadHta_spec (time : LoadTime) (key path : string) (sv : Server) :
  let r := loadFile HtaDoc JSON_parse_hta (checked time) (cached time) key
             path (htas sv) in
  let sv' := withHtas sv (snd r) in
  activeProject sv' = activeProject sv
  ∧ Persisted.files sv' = Persisted.files sv
  ∧ configCache sv' = configCache sv
  ∧ configStamps sv' = configStamps sv
  ∧ fst r = (if isCacheValid HtaDoc (checked time) (htas sv) key
             then htaCache sv !! key
             else Persisted.files sv !! path ≫= JSON_parse_hta)
  ∧ (∀ doc, fst r = Some doc → htaCache sv' !! key = Some doc)
  ∧ (fst r = None → sv' = sv)
  ∧ (∀ other, other ≠ key →
       htaCache sv' !! other = htaCache sv !! other
       ∧ htaStamps sv' !! other = htaStamps sv !! other)
  ∧ (isCacheValid HtaDoc (checked time) (htas sv) key = true → sv' = sv)
  ∧ (isCacheValid HtaDoc (checked time) (htas sv) key = false →
     is_Some (fst r) → htaStamps sv' !! key = Some (cached time)).
Proof.
  intros r sv'. subst r sv'.
  pose proof (loadFile_spec HtaDoc JSON_parse_hta (checked time) (cached time)
                key path (htas sv))
    as (Hfiles & Hr & Hheld & Hnone & Hother & Hvalid & Hstamp).
  destruct (loadFile _ _ _ _ _ _ _) as [doc st]. cbn [fst snd] in *.
  assert (Hsame : ∀ st', st' = htas sv → withHtas sv st' = sv)
    by (intros st' ->; by destruct sv).
  repeat split; try done.
  - intros Hd. by apply Hsame, Hnone.
  - by apply Hother.
  - by apply Hother.
  - intros Hv. by apply Hsame, Hvalid.
Qed.

Lemma loadProjectHta_eq (time : LoadTime) (projectId : string) (sv : Server) :
  loadProjectHta time projectId sv
  = let r := loadFile HtaDoc JSON_parse_hta (checked time) (cached time)
               (getCacheKey projectId "hta.json" None)
               (projectFile projectId "hta.json") (htas sv) in
    (fst r, withHtas sv (snd r)).
Proof.
  unfold loadProjectHta, loadProjectData. by destruct (loadFile _ _ _ _ _ _ _).
Qed.

Lemma loadPathHta_eq (time : LoadTime) (projectId pathName : string)
    (sv : Server) :
  loadPathHta time projectId pathName sv
  = let r := loadFile HtaDoc JSON_parse_hta (checked time) (cached time)
               (getCacheKey projectId "hta.json" (Some pathName))
               (pathFile projectId pathName "hta.json") (htas sv) in
    (fst r, withHtas sv (snd r)).
Proof.
  unfold loadPathHta, loadPathData. by destruct (loadFile _ _ _ _ _ _ _).
Qed.

(** [savePathHTA] writes the file of the path and drops its key, or adds a
    line to the error log. *)
Lemma savePathHTA_spec (now : Z) (sv : Server) (projectId pathName : string)
    (doc : HtaDoc) :
  let r := savePathHTA now sv projectId pathName doc in
  let written :=
    match JSON_stringify_hta doc with
    | Some text =>
        if writable (htaFile projectId pathName) then Some text else None
    | None => None
    end in
  activeProject (snd r) = activeProject sv
  ∧ configCache (snd r) = configCache sv
  ∧ configStamps (snd r) = configStamps sv
  ∧ match written with
    | Some text =>
        fst r = true
        ∧ Persisted.files (snd r)
          = <[htaFile projectId pathName := text]> (Persisted.files sv)
        ∧ htaCache (snd r) = delete (htaKey projectId pathName) (htaCache sv)
        ∧ htaStamps (snd r) = delete (htaKey projectId pathName) (htaStamps sv)
    | None =>
        fst r = false
        ∧ htaCache (snd r) = htaCache sv
        ∧ htaStamps (snd r) = htaStamps sv
        ∧ ∀ file, file ≠ logPath →
                  Persisted.files (snd r) !! file = Persisted.files sv !! file
    end.
Proof.
  intros r written. subst r written.
  unfold savePathHTA, htaFile, htaKey, htaTarget, saveProjectData,
    savePathData.
  case_bool_decide as Hg; cbn [fileOf keyOf].
  - pose proof (saveFile_spec HtaDoc JSON_stringify_hta writable logPath
                  loggable logEntry now "saveProjectData"
                  (getCacheKey projectId "hta.json" None)
                  (projectFile projectId "hta.json") doc (htas sv)) as Hs.
    destruct (saveFile _ _ _ _ _ _ _ _ _ _ _ _) as [ok st]. cbn [fst snd] in *.
    destruct (JSON_stringify_hta doc) as [text|];
      [destruct (writable (projectFile projectId "hta.json"))|].
    + destruct Hs as (-> & Hf & Hc & Ht). by repeat split.
    + destruct Hs as (-> & ->). repeat split; try done.
      intros file Hfile. by apply logError_files.
    + destruct Hs as (-> & ->). repeat split; try done.
      intros file Hfile. by apply logError_files.
  - pose proof (saveFile_spec HtaDoc JSON_stringify_hta writable logPath
                  loggable logEntry now "savePathData"
                  (getCacheKey projectId "hta.json" (Some pathName))
                  (pathFile projectId pathName "hta.json") doc (htas sv)) as Hs.
    destruct (saveFile _ _ _ _ _ _ _ _ _ _ _ _) as [ok st]. cbn [fst snd] in *.
    destruct (JSON_stringify_hta doc) as [text|];
      [destruct (writable (pathFile projectId pathName "hta.json"))|].
    + destruct Hs as (-> & Hf & Hc & Ht). by repeat split.
    + destruct Hs as (-> & ->). repeat split; try done.
      intros file Hfile. by apply logError_files.
    + destruct Hs as (-> & ->). repeat split; try done.
      intros file Hfile. by apply logError_files.
Qed.

Lemma saveConfig_spec (now : Z) (projectId : string) (config : ConfigDoc)
    (sv : Server) :
  let r := saveConfig now projectId config sv in
  let written :=
    match JSON_stringify_config config with
    | Some text => if writable (configFile projectId) then Some text else None
    | None => None
    end in
  activeProject (snd r) = activeProject sv
  ∧ htaCache (snd r) = htaCache sv
  ∧ htaStamps (snd r) = htaStamps sv
  ∧ match written with
    | Some text =>
        fst r = true
        ∧ Persisted.files (snd r)
          = <[configFile projectId := text]> (Persisted.files sv)
        ∧ configCache (snd r) = delete (configKey projectId) (configCache sv)
        ∧ configStamps (snd r)
          = delete (configKey projectId) (configStamps sv)
    | None =>
        fst r = false
        ∧ configCache (snd r) = configCache sv
        ∧ configStamps (snd r) = configStamps sv
        ∧ ∀ file, file ≠ logPath →
                  Persisted.files (snd r) !! file = Persisted.files sv !! file
    end.
Proof.
  intros r written. subst r written.
  unfold saveConfig, configFile, configKey, saveProjectData.
  pose proof (saveFile_spec ConfigDoc JSON_stringify_config writable logPath
                loggable logEntry now "saveProjectData"
                (getCacheKey projectId "config.json" None)
                (projectFile projectId "config.json") config (configs sv))
    as Hs.
  destruct (saveFile _ _ _ _ _ _ _ _ _ _ _ _) as [ok st]. cbn [fst snd] in *.
  destruct (JSON_stringify_config config) as [text|];
    [destruct (writable (projectFile projectId "config.json"))|].
  - destruct Hs as (-> & Hf & Hc & Ht). by repeat split.
  - destruct Hs as (-> & ->). repeat split; try done.
    intros file Hfile. by apply logError_files.
  - destruct Hs as (-> & ->). repeat split; try done.
    intros file Hfile. by apply logError_files.
Qed.

End OnServer.

(** ** Taking in generated tasks, on the files *)

Section TakingInOnFiles.
Import JS Model TaskIntelligence HtaTreeBuilder Spec Ingestion.
Import DataPersistence Persisted IngestionOnFiles.
Context {fs : FileSystem}.

(** The document after [takeIn]: the nodes appended, the entry added to
    the log. *)
Lemma takeIn_spec (nowIso sessionId : string) (branchTasks : list BranchTasks)
    (doc : HtaDoc) :
  let r := takeIn nowIso sessionId branchTasks doc in
  let old := nodesOf (roadmap doc) in
  let new := nodesFrom (Z.of_nat (List.length old) + 1) (flatten branchTasks) in
  frontierNodes (roadmap (fst r))
  = match flatten branchTasks with
    | [] => frontierNodes (roadmap doc)
    | _ :: _ => Some (old ++ new)
    end
  ∧ nodesOf (roadmap (fst r)) = old ++ new
  ∧ snd r = {| timestamp := nowIso; session_id := sessionId;
               tasks_count := Z.of_nat (List.length (flatten branchTasks));
               branches_populated := branch_name <$> branchTasks |}
  ∧ collaborative_sessions (fst r)
    = Some (default [] (collaborative_sessions doc) ++ [snd r]).
Proof.
  intros r old new. subst r old new. unfold takeIn, nodesOf.
  pose proof (storeBranch_loop branchTasks (strategicBranches (roadmap doc))
                (frontierNodes (roadmap doc))
                (Z.of_nat (List.length
                             (default [] (frontierNodes (roadmap doc)))) + 1))
    as Hloop.
  destruct (foldl storeBranch _ branchTasks) as [branches [nodes next]].
  cbn [fst snd] in *. injection Hloop as -> _.
  cbn [roadmap frontierNodes collaborative_sessions].
  rewrite countTasks_flatten. split; [done|]. split; [|done].
  destruct (flatten branchTasks) as [|named flat]; [|done].
  cbn. by rewrite app_nil_r.
Qed.

(** [CleanForestServer.loadPathHTA] leaves the files; the document it
    returns is held in the cache under the key it names. *)
Lemma loadPathHTA_spec (times : Times) (sv : Server)
    (projectId pathName : string) :
  let r := loadPathHTA times sv projectId pathName in
  activeProject (snd r) = activeProject sv
  ∧ Persisted.files (snd r) = Persisted.files sv
  ∧ configCache (snd r) = configCache sv
  ∧ configStamps (snd r) = configStamps sv
  ∧ ∀ l, fst r = Some l →
         htaCache (snd r) !! held_under l = Some (document l).
Proof.
  intros r. subst r. unfold loadPathHTA.
  rewrite loadPathHta_eq. cbv zeta.
  pose proof (loadHta_spec (path_loaded times)
                (getCacheKey projectId "hta.json" (Some pathName))
                (pathFile projectId pathName "hta.json") sv)
    as (Hp1 & Hf1 & Hc1 & Hs1 & _ & Hheld1 & _).
  cbv zeta in Hp1, Hf1, Hc1, Hs1, Hheld1.
  destruct (loadFile _ _ _ _ _ _ (htas sv)) as [pathHTA st1].
  cbn [fst snd] in *.
  case_bool_decide as Hg.
  - destruct pathHTA as [doc|].
    + cbn [fst snd]. repeat split; try done.
      intros l [= <-]. cbn [held_under document]. by apply Hheld1.
    + rewrite loadProjectHta_eq. cbv zeta.
      pose proof (loadHta_spec (project_loaded times)
                    (getCacheKey projectId "hta.json" None)
                    (projectFile projectId "hta.json") (withHtas sv st1))
        as (Hp2 & Hf2 & Hc2 & Hs2 & _ & Hheld2 & _).
      cbv zeta in Hp2, Hf2, Hc2, Hs2, Hheld2.
      destruct (loadFile _ _ _ _ _ _ (htas (withHtas sv st1))) as [doc st2].
      cbn [fst snd] in *.
      split; [congruence|]. split; [congruence|]. split; [congruence|].
      split; [congruence|].
      intros l Hl. destruct doc as [doc|]; [|done].
      injection Hl as <-. cbn [held_under document]. by apply Hheld2.
  - cbn [fst snd]. repeat split; try done.
    intros l Hl. destruct pathHTA as [doc|]; [|done].
    injection Hl as <-. cbn [held_under document]. by apply Hheld1.
Qed.

(** [storeGeneratedTasks] on a configured project, step by step. *)
Lemma storeGeneratedTasks_steps (times : Times) (nowIso sessionId : string)
    (branchTasks : list BranchTasks) (sv : Server) (projectId : string)
    (config : ConfigDoc) :
  activeProject sv = Some projectId →
  fst (loadConfig (config_loaded times) projectId sv) = Some config →
  let pathName := orStr (activePath (settings config)) "general" in
  let l := loadPathHTA times (snd (loadConfig (config_loaded times) projectId sv))
             projectId pathName in
  let taken :=
    takeIn nowIso sessionId branchTasks
           (default noDocument (document <$> fst l)) in
  let changed :=
    match fst l with
    | Some held => changedHta (held_under held) (fst taken) (snd l)
    | None => snd l
    end in
  storeGeneratedTasks times nowIso sessionId branchTasks sv
  = (match frontierNodes (roadmap (fst taken)) with
     | Some nodes =>
         inr {| stored_count := countTasks branchTasks;
                hta_frontier_count := Z.of_nat (List.length nodes);
                session := snd taken |}
     | None => inl TypeError
     end,
     snd (savePathHTA (hta_saved times) changed projectId pathName
            (fst taken))).
Proof.
  intros Hp Hc pathName l taken changed. subst l taken changed.
  unfold storeGeneratedTasks. rewrite Hp.
  destruct (loadConfig (config_loaded times) projectId sv) as [c sv1].
  cbn [fst snd] in *. subst c. fold pathName.
  destruct (loadPathHTA times sv1 projectId pathName) as [loaded sv2].
  cbn [fst snd].
  destruct (takeIn nowIso sessionId branchTasks _) as [doc sessionMeta].
  cbn [fst snd].
  destruct (savePathHTA _ _ projectId pathName doc) as [ok sv3].
  cbn [fst snd]. by destruct (frontierNodes (roadmap doc)).
Qed.

(** X17.  [storeGeneratedTasks] appends to the document that its load
    returns: the nodes of that document stay, in their order, and one node
    per task follows, in the order of the branches and of the tasks within
    them.  The new ids continue the count of the nodes (node_(n+1),
    node_(n+2), ... after n nodes), every new node is open, generated and
    of priority 200, and its difficulty is the proposed one, not brought
    into the band of the knowledge level.  The reply counts the nodes of
    the changed document, written or not: the file of the active path
    holds the text of the changed document when there is such a text and
    the file can be written, and stays as it was otherwise.  No other file
    changes but the error log. *)
Theorem ingested_tasks_are_appended (times : Times) (nowIso sessionId : string)
    (branchTasks : list BranchTasks) (sv : Server) (projectId : string)
    (config : ConfigDoc) :
  activeProject sv = Some projectId →
  fst (loadConfig (config_loaded times) projectId sv) = Some config →
  let pathName := orStr (activePath (settings config)) "general" in
  let loaded :=
    fst (loadPathHTA times
           (snd (loadConfig (config_loaded times) projectId sv))
           projectId pathName) in
  let before := default noDocument (document <$> loaded) in
  let old := nodesOf (roadmap before) in
  let new := nodesFrom (Z.of_nat (List.length old) + 1) (flatten branchTasks) in
  let after := fst (takeIn nowIso sessionId branchTasks before) in
  let r := storeGeneratedTasks times nowIso sessionId branchTasks sv in
  nodesOf (roadmap after) = old ++ new
  ∧ id <$> new
    = (λ k, "node_" +:+ pretty k)
      <$> seqZ (Z.of_nat (List.length old) + 1)
               (Z.of_nat (List.length (flatten branchTasks)))
  ∧ Forall2 (λ (named : string * AiTask) node,
               title node = ai_title named.2
               ∧ difficulty node = Some (orNum (ai_difficulty named.2) 1)
               ∧ priority node = Some 200
               ∧ generated node = true
               ∧ completed node = false)
            (flatten branchTasks) new
  ∧ (is_Some (frontierNodes (roadmap before)) ∨ flatten branchTasks ≠ [] →
     ∃ reply,
       fst r = inr reply
       ∧ stored_count reply = Z.of_nat (List.length new)
       ∧ hta_frontier_count reply = Z.of_nat (List.length (old ++ new)))
  ∧ (∀ file, file ≠ htaFile projectId pathName → file ≠ logPath →
             Persisted.files (snd r) !! file = Persisted.files sv !! file)
  ∧ match JSON_stringify_hta after with
    | Some text =>
        if writable (htaFile projectId pathName)
        then Persisted.files (snd r) !! htaFile projectId pathName = Some text
        else htaFile projectId pathName ≠ logPath →
             Persisted.files (snd r) !! htaFile projectId pathName
             = Persisted.files sv !! htaFile projectId pathName
    | None =>
        htaFile projectId pathName ≠ logPath →
        Persisted.files (snd r) !! htaFile projectId pathName
        = Persisted.files sv !! htaFile projectId pathName
    end.
Proof.
  intros Hp Hc pathName loaded before old new after r.
  pose proof (storeGeneratedTasks_steps times nowIso sessionId branchTasks sv
                projectId config Hp Hc) as Hsteps.
  cbv zeta in Hsteps. fold pathName loaded before after r in Hsteps.
  destruct (takeIn_spec nowIso sessionId branchTasks before)
    as (Hfrontier & Hnodes & _ & _).
  cbv zeta in Hfrontier, Hnodes. fold old new after in Hfrontier, Hnodes.
  destruct (loadConfig_spec (config_loaded times) projectId sv)
    as (_ & Hf1 & _).
  destruct (loadPathHTA_spec times
              (snd (loadConfig (config_loaded times) projectId sv))
              projectId pathName) as (_ & Hf2 & _).
  cbv zeta in Hf1, Hf2.
  set (changed :=
         match loaded with
         | Some held =>
             changedHta (held_under held) after
               (snd (loadPathHTA times
                       (snd (loadConfig (config_loaded times) projectId sv))
                       projectId pathName))
         | None =>
             snd (loadPathHTA times
                    (snd (loadConfig (config_loaded times) projectId sv))
                    projectId pathName)
         end) in *.
  assert (Hf3 : Persisted.files changed = Persisted.files sv).
  { subst changed. destruct loaded; cbn [changedHta Persisted.files];
      congruence. }
  pose proof (savePathHTA_spec (hta_saved times) changed projectId pathName
                after) as (_ & _ & _ & Hsave).
  cbv zeta in Hsave.
  assert (Hr2 : snd r = snd (savePathHTA (hta_saved times) changed projectId
                               pathName after))
    by by rewrite Hsteps.
  split; [exact Hnodes|]. split; [apply nodesFrom_ids|].
  split; [apply nodesFrom_shape|]. split; [|split].
  - intros Hsome. rewrite Hsteps. cbn [fst].
    assert (Hafter : frontierNodes (roadmap after) = Some (old ++ new)).
    { rewrite Hfrontier. destruct (flatten branchTasks) as [|named flat] eqn:Hflat;
        [|done].
      destruct Hsome as [[nodes Hsome] | Hne]; [|done].
      subst new old. unfold nodesOf. rewrite Hsome. cbn.
      by rewrite app_nil_r. }
    rewrite Hafter. eexists. split; [reflexivity|].
    cbn [stored_count hta_frontier_count]. split; [|done].
    rewrite countTasks_flatten. subst new. unfold nodesFrom.
    by rewrite length_mapi.
  - intros file Hfile Hlog. rewrite Hr2.
    destruct (JSON_stringify_hta after) as [text|];
      [destruct (writable (htaFile projectId pathName))|].
    + destruct Hsave as (_ & -> & _).
      rewrite lookup_insert_ne by (intros Heq; by apply Hfile).
      by rewrite Hf3.
    + destruct Hsave as (_ & _ & _ & Hfiles). rewrite Hfiles by done.
      by rewrite Hf3.
    + destruct Hsave as (_ & _ & _ & Hfiles). rewrite Hfiles by done.
      by rewrite Hf3.
  - rewrite Hr2.
    destruct (JSON_stringify_hta after) as [text|];
      [destruct (writable (htaFile projectId pathName))|].
    + destruct Hsave as (_ & -> & _). by rewrite lookup_insert_eq.
    + intros Hlog. destruct Hsave as (_ & _ & _ & Hfiles).
      rewrite Hfiles by done. by rewrite Hf3.
    + intros Hlog. destruct Hsave as (_ & _ & _ & Hfiles).
      rewrite Hfiles by done. by rewrite Hf3.
Qed.

Lemma append_length (a b : string) :
  String.length (a +:+ b) = (String.length a + String.length b)%nat.
Proof.
  induction a as [|x a IH]; [done|].
  change (S (String.length (a +:+ b))
          = S (String.length a + String.length b)%nat).
  by rewrite IH.
Qed.

(** The key of a file of a path is not the key of that file of the
    project. *)
Lemma path_key_differs (projectId pathName filename : string) :
  pathName ≠ "" →
  getCacheKey projectId filename (Some pathName)
  ≠ getCacheKey projectId filename None.
Proof.
  intros Hne. unfold getCacheKey, truthyStr.
  rewrite bool_decide_eq_false_2 by done. cbn [negb].
  intros Heq%(f_equal String.length). rewrite !append_length in Heq.
  cbn [String.length] in Heq. lia.
Qed.

(** What [loadPathHTA] returns depends on the files and on the entries
    for [hta.json] only. *)
Lemma loadPathHTA_ext (times : Times) (sv1 sv2 : Server)
    (projectId pathName : string) :
  htas sv1 = htas sv2 →
  fst (loadPathHTA times sv1 projectId pathName)
  = fst (loadPathHTA times sv2 projectId pathName).
Proof.
  intros Heq. unfold loadPathHTA. rewrite !loadPathHta_eq. cbv zeta.
  rewrite Heq.
  destruct (loadFile _ _ _ _ _ _ (htas sv2)) as [pathHTA st1].
  cbn [fst snd]. case_bool_decide; [|done].
  destruct pathHTA; [done|]. rewrite !loadProjectHta_eq. cbv zeta.
  by destruct (loadFile _ _ _ _ _ _ _).
Qed.

Lemma getGenerationHistory_steps (times : Times) (limit : Z) (sv : Server)
    (projectId : string) (config : ConfigDoc) :
  activeProject sv = Some projectId →
  fst (loadConfig (config_loaded times) projectId sv) = Some config →
  fst (getGenerationHistory times limit sv)
  = inr (sliceLast limit
           match fst (loadPathHTA times sv projectId
                        (orStr (activePath (settings config)) "general")) with
           | Some l => default [] (collaborative_sessions (document l))
           | None => []
           end).
Proof.
  intros Hp Hc. unfold getGenerationHistory. rewrite Hp.
  destruct (loadConfig_spec (config_loaded times) projectId sv)
    as (_ & Hf & Hcache & Hstamps & _).
  cbv zeta in Hf, Hcache, Hstamps.
  destruct (loadConfig (config_loaded times) projectId sv) as [c sv1].
  cbn [fst snd] in *. subst c.
  rewrite (loadPathHTA_ext times sv sv1)
    by (unfold htas; by rewrite Hf, Hcache, Hstamps).
  by destruct (loadPathHTA times sv1 projectId _) as [loaded sv2].
Qed.

(** The server after [storeGeneratedTasks]: the caller's changes to the
    loaded document, then the save. *)
Lemma storeGeneratedTasks_server (times : Times) (nowIso sessionId : string)
    (branchTasks : list BranchTasks) (sv : Server) (projectId : string)
    (config : ConfigDoc) :
  activeProject sv = Some projectId →
  fst (loadConfig (config_loaded times) projectId sv) = Some config →
  let pathName := orStr (activePath (settings config)) "general" in
  let l := loadPathHTA times (snd (loadConfig (config_loaded times) projectId sv))
             projectId pathName in
  let after :=
    fst (takeIn nowIso sessionId branchTasks
           (default noDocument (document <$> fst l))) in
  let sv' := snd (storeGeneratedTasks times nowIso sessionId branchTasks sv) in
  let written :=
    match JSON_stringify_hta after with
    | Some text =>
        if writable (htaFile projectId pathName) then Some text else None
    | None => None
    end in
  let held cache :=
    match fst l with
    | Some held => <[held_under held := after]> cache
    | None => cache
    end in
  activeProject sv' = Some projectId
  ∧ match written with
    | Some text =>
        Persisted.files sv'
        = <[htaFile projectId pathName := text]> (Persisted.files sv)
        ∧ htaCache sv'
          = delete (htaKey projectId pathName) (held (htaCache (snd l)))
        ∧ htaStamps sv'
          = delete (htaKey projectId pathName) (htaStamps (snd l))
    | None =>
        htaCache sv' = held (htaCache (snd l))
        ∧ htaStamps sv' = htaStamps (snd l)
        ∧ ∀ file, file ≠ logPath →
                  Persisted.files sv' !! file = Persisted.files sv !! file
    end.
Proof.
  intros Hp Hc pathName l after sv' written held.
  pose proof (storeGeneratedTasks_steps times nowIso sessionId branchTasks sv
                projectId config Hp Hc) as Hsteps.
  cbv zeta in Hsteps. fold pathName l after in Hsteps.
  subst sv'. rewrite Hsteps. cbn [snd].
  destruct (loadConfig_spec (config_loaded times) projectId sv)
    as (Hp1 & Hf1 & _).
  destruct (loadPathHTA_spec times
              (snd (loadConfig (config_loaded times) projectId sv))
              projectId pathName) as (Hp2 & Hf2 & _).
  cbv zeta in Hp1, Hf1, Hp2, Hf2. fold l in Hp2, Hf2.
  set (changed := match fst l with
                  | Some held => changedHta (held_under held) after (snd l)
                  | None => snd l
                  end).
  assert (Hchanged : activeProject changed = Some projectId
                     ∧ Persisted.files changed = Persisted.files sv
                     ∧ htaCache changed = held (htaCache (snd l))
                     ∧ htaStamps changed = htaStamps (snd l)).
  { subst changed held. destruct (fst l);
      cbn [changedHta activeProject Persisted.files htaCache htaStamps];
      repeat split; congruence. }
  destruct Hchanged as (Hp3 & Hf3 & Hc3 & Hs3).
  pose proof (savePathHTA_spec (hta_saved times) changed projectId pathName
                after) as (Hp4 & _ & _ & Hsave).
  cbv zeta in Hp4, Hsave. fold written in Hsave.
  split; [congruence|].
  destruct written as [text|].
  - destruct Hsave as (_ & -> & -> & ->). by rewrite Hf3, Hc3, Hs3.
  - destruct Hsave as (_ & -> & -> & Hfiles). split; [done|]. split; [done|].
    intros file Hfile. by rewrite Hfiles, Hf3.
Qed.

(** X19.  After [storeGeneratedTasks], [getGenerationHistory] with a
    positive limit returns the session of the call last, with at most
    limit - 1 of the latest earlier entries before it, in two cases.  One:
    the changed document was written and is read back, which for the path
    general needs that no [paths/general/hta.json] stands in front of the
    [hta.json] of the project.  Two: the path is general and the document
    came from [paths/general/hta.json]; the session is then written to the
    [hta.json] of the project and never to that file, but the cache holds
    the changed document under the key of that file, and the history shows
    the session for as long as that entry is valid.  Once it has run out,
    the history is the one of [paths/general/hta.json], which is as it
    was. *)
Theorem stored_session_is_latest (times later : Times)
    (nowIso sessionId : string) (branchTasks : list BranchTasks)
    (sv : Server) (projectId : string) (config config' : ConfigDoc)
    (limit : Z) :
  activeProject sv = Some projectId →
  fst (loadConfig (config_loaded times) projectId sv) = Some config →
  let pathName := orStr (activePath (settings config)) "general" in
  let sv1 := snd (loadConfig (config_loaded times) projectId sv) in
  let before :=
    default noDocument
            (document <$> fst (loadPathHTA times sv1 projectId pathName)) in
  let taken := takeIn nowIso sessionId branchTasks before in
  let sv' := snd (storeGeneratedTasks times nowIso sessionId branchTasks sv) in
  fst (loadConfig (config_loaded later) projectId sv') = Some config' →
  orStr (activePath (settings config')) "general" = pathName →
  0 < limit →
  let generalFile := pathFile projectId "general" "hta.json" in
  let generalKey := getCacheKey projectId "hta.json" (Some "general") in
  let history := fst (getGenerationHistory later limit sv') in
  let latest :=
    ∃ earlier,
      history = inr (earlier ++ [snd taken])
      ∧ Z.of_nat (List.length earlier) < limit
      ∧ earlier `suffix_of` default [] (collaborative_sessions before) in
  (∀ text,
     JSON_stringify_hta (fst taken) = Some text →
     writable (htaFile projectId pathName) = true →
     JSON_parse_hta text = Some (fst taken) →
     (pathName = "general" →
      Persisted.files sv !! generalFile ≫= JSON_parse_hta = None
      ∧ htaStamps sv !! generalKey = None
      ∧ generalFile ≠ projectFile projectId "hta.json") →
     latest)
  ∧ (pathName = "general" →
     ∀ doc,
       fst (loadPathHta (path_loaded times) projectId "general" sv1)
       = Some doc →
       before = doc
       ∧ htaCache sv' !! generalKey = Some (fst taken)
       ∧ htaStamps sv' !! generalKey
         = (if isCacheValid HtaDoc (checked (path_loaded times)) (htas sv)
                 generalKey
            then htaStamps sv !! generalKey
            else Some (cached (path_loaded times)))
       ∧ (isCacheValid HtaDoc (checked (path_loaded later)) (htas sv')
            generalKey = true →
          latest)
       ∧ (generalFile ≠ projectFile projectId "hta.json" →
          generalFile ≠ logPath →
          Persisted.files sv' !! generalFile = Persisted.files sv !! generalFile
          ∧ ∀ onFile,
              isCacheValid HtaDoc (checked (path_loaded later)) (htas sv')
                generalKey = false →
              Persisted.files sv !! generalFile ≫= JSON_parse_hta
              = Some onFile →
              history
              = inr (sliceLast limit
                       (default [] (collaborative_sessions onFile))))).
Proof.
  intros Hp Hc pathName sv1 before taken sv' Hc' Hpath Hlimit generalFile
    generalKey history latest.
  destruct (storeGeneratedTasks_server times nowIso sessionId branchTasks sv
              projectId config Hp Hc) as [Hp' Hafter].
  cbv zeta in Hp', Hafter.
  fold pathName sv1 before taken sv' in Hp', Hafter.
  destruct (takeIn_spec nowIso sessionId branchTasks before)
    as (_ & _ & _ & Hsessions).
  cbv zeta in Hsessions. fold taken in Hsessions.
  destruct (loadConfig_spec (config_loaded times) projectId sv)
    as (_ & Hf1 & Hcache1 & Hstamps1 & _).
  cbv zeta in Hf1, Hcache1, Hstamps1. fold sv1 in Hf1, Hcache1, Hstamps1.
  assert (Hhtas1 : htas sv1 = htas sv)
    by (unfold htas; by rewrite Hf1, Hcache1, Hstamps1).
  assert (Hhistory : history
            = inr (sliceLast limit
                     match fst (loadPathHTA later sv' projectId pathName) with
                     | Some l => default [] (collaborative_sessions (document l))
                     | None => []
                     end)).
  { subst history.
    rewrite (getGenerationHistory_steps later limit sv' projectId config')
      by done.
    by rewrite Hpath. }
  assert (Hlatest : ∀ key,
            fst (loadPathHTA later sv' projectId pathName)
            = Some {| held_under := key; document := fst taken |} →
            latest).
  { intros key Hload.
    destruct (sliceLast_snoc limit
                (default [] (collaborative_sessions before)) (snd taken)
                Hlimit) as (earlier & Hslice & Hlen & Hsuffix).
    exists earlier. split; [|done].
    rewrite Hhistory, Hload. cbn [document]. rewrite Hsessions.
    change (default ?d (Some ?x)) with x. by rewrite Hslice. }
  assert (Hkeys : generalKey ≠ getCacheKey projectId "hta.json" None)
    by by apply path_key_differs.
  split.
  - intros text Htext Hwritable Hparse Hfront.
    rewrite Htext, Hwritable in Hafter.
    destruct Hafter as (Hfiles & Hcache & Hstamps).
    unfold loadPathHTA in Hlatest. rewrite loadPathHta_eq in Hlatest.
    cbv zeta in Hlatest.
    destruct (decide (pathName = "general")) as [Hg | Hg].
    + destruct (Hfront Hg) as (Hnofile & Hnostamp & Hdistinct).
      rewrite Hg in *. fold generalKey generalFile in Hlatest.
      (* the loads of the call *)
      assert (Hfirst : loadPathHta (path_loaded times) projectId "general" sv1
                       = (None, sv1)).
      { rewrite loadPathHta_eq. cbv zeta. fold generalKey generalFile.
        destruct (loadHta_spec (path_loaded times) generalKey generalFile sv1)
          as (_ & _ & _ & _ & Hr & _ & Hnone & _).
        cbv zeta in Hr, Hnone.
        assert (Hr' : fst (loadFile HtaDoc JSON_parse_hta
                             (checked (path_loaded times))
                             (cached (path_loaded times)) generalKey
                             generalFile (htas sv1)) = None).
        { rewrite Hr. unfold isCacheValid. rewrite Hhtas1.
          cbn [htas cacheTimestamps DataPersistence.files].
          by rewrite Hnostamp, Hf1, Hnofile. }
        by rewrite Hr', (Hnone Hr'). }
      assert (Hstamp' : htaStamps sv' !! generalKey = None).
      { rewrite Hstamps. unfold htaKey, htaTarget.
        rewrite bool_decide_eq_true_2 by done. cbn [keyOf].
        rewrite lookup_delete_ne by done.
        unfold loadPathHTA. rewrite Hfirst.
        rewrite bool_decide_eq_true_2 by done.
        rewrite loadProjectHta_eq. cbv zeta.
        destruct (loadHta_spec (project_loaded times)
                    (getCacheKey projectId "hta.json" None)
                    (projectFile projectId "hta.json") sv1)
          as (_ & _ & _ & _ & _ & _ & _ & Hother & _).
        cbv zeta in Hother.
        destruct (loadFile _ _ _ _ _ _ (htas sv1)) as [doc st].
        cbn [fst snd] in *.
        destruct (Hother generalKey Hkeys) as [_ ->].
        by rewrite Hstamps1. }
      assert (Hfile' : Persisted.files sv' !! generalFile ≫= JSON_parse_hta
                       = None).
      { rewrite Hfiles. unfold htaFile, htaTarget.
        rewrite bool_decide_eq_true_2 by done. cbn [fileOf].
        by rewrite lookup_insert_ne. }
      destruct (loadHta_spec (path_loaded later) generalKey generalFile sv')
        as (_ & _ & _ & _ & Hr & _ & Hnone & _).
      cbv zeta in Hr, Hnone.
      assert (Hr' : fst (loadFile HtaDoc JSON_parse_hta
                           (checked (path_loaded later))
                           (cached (path_loaded later)) generalKey generalFile
                           (htas sv')) = None).
      { rewrite Hr. unfold isCacheValid.
        cbn [htas cacheTimestamps DataPersistence.files].
        by rewrite Hstamp', Hfile'. }
      specialize (Hnone Hr').
      apply (Hlatest (getCacheKey projectId "hta.json" None)).
      rewrite Hr', Hnone. rewrite bool_decide_eq_true_2 by done.
      rewrite loadProjectHta_eq. cbv zeta.
      destruct (loadHta_spec (project_loaded later)
                  (getCacheKey projectId "hta.json" None)
                  (projectFile projectId "hta.json") sv')
        as (_ & _ & _ & _ & Hr2 & _).
      cbv zeta in Hr2. cbn [fst]. rewrite Hr2. unfold isCacheValid.
      cbn [htas cacheTimestamps DataPersistence.files].
      rewrite Hstamps, Hfiles. unfold htaKey, htaFile, htaTarget.
      rewrite bool_decide_eq_true_2 by done. cbn [keyOf fileOf].
      rewrite lookup_delete_eq, lookup_insert_eq. cbn [mbind option_bind].
      by rewrite Hparse.
    + apply (Hlatest (getCacheKey projectId "hta.json" (Some pathName))).
      rewrite bool_decide_eq_false_2 by done.
      destruct (loadHta_spec (path_loaded later)
                  (getCacheKey projectId "hta.json" (Some pathName))
                  (pathFile projectId pathName "hta.json") sv')
        as (_ & _ & _ & _ & Hr & _).
      cbv zeta in Hr. cbn [fst]. rewrite Hr. unfold isCacheValid.
      cbn [htas cacheTimestamps DataPersistence.files].
      rewrite Hstamps, Hfiles. unfold htaKey, htaFile, htaTarget.
      rewrite bool_decide_eq_false_2 by done. cbn [keyOf fileOf].
      rewrite lookup_delete_eq, lookup_insert_eq. cbn [mbind option_bind].
      by rewrite Hparse.
  - intros Hg doc Hdoc. rewrite Hg in *.
    assert (Hloaded : loadPathHTA times sv1 projectId "general"
              = (Some {| held_under := generalKey; document := doc |},
                 snd (loadPathHta (path_loaded times) projectId "general"
                        sv1))).
    { unfold loadPathHTA.
      destruct (loadPathHta (path_loaded times) projectId "general" sv1)
        as [pathHTA sv2].
      cbn [fst snd] in *. subst pathHTA.
      by rewrite bool_decide_eq_true_2. }
    assert (Hbefore : before = doc)
      by (subst before; by rewrite Hg, Hloaded).
    rewrite Hloaded in Hafter. cbn [fst snd held_under] in Hafter.
    rewrite loadPathHta_eq in Hafter, Hdoc. cbv zeta in Hafter, Hdoc.
    fold generalKey generalFile in Hafter, Hdoc.
    destruct (loadHta_spec (path_loaded times) generalKey generalFile sv1)
      as (_ & _ & _ & _ & _ & _ & _ & _ & Hvalid & Hfresh).
    cbv zeta in Hvalid, Hfresh. cbn [fst] in Hdoc.
    assert (Hv1 : isCacheValid HtaDoc (checked (path_loaded times)) (htas sv1)
                    generalKey
                  = isCacheValid HtaDoc (checked (path_loaded times)) (htas sv)
                      generalKey) by by rewrite Hhtas1.
    rewrite Hv1 in Hvalid, Hfresh.
    set (sv2 := withHtas sv1
                  (snd (loadFile HtaDoc JSON_parse_hta
                          (checked (path_loaded times))
                          (cached (path_loaded times)) generalKey generalFile
                          (htas sv1)))) in *.
    assert (Hstamp2 : htaStamps sv2 !! generalKey
              = (if isCacheValid HtaDoc (checked (path_loaded times)) (htas sv)
                      generalKey
                 then htaStamps sv !! generalKey
                 else Some (cached (path_loaded times)))).
    { destruct (isCacheValid HtaDoc (checked (path_loaded times)) (htas sv)
                  generalKey) eqn:Hv.
      - rewrite (Hvalid eq_refl). by rewrite Hstamps1.
      - apply Hfresh; [done|]. rewrite Hdoc. by eexists. }
    assert (Hheld : htaCache sv' !! generalKey = Some (fst taken)
                    ∧ htaStamps sv' !! generalKey = htaStamps sv2 !! generalKey
                    ∧ (generalFile ≠ projectFile projectId "hta.json" →
                       generalFile ≠ logPath →
                       Persisted.files sv' !! generalFile
                       = Persisted.files sv !! generalFile)).
    { unfold htaKey, htaFile, htaTarget in Hafter.
      rewrite bool_decide_eq_true_2 in Hafter by done.
      cbn [keyOf fileOf] in Hafter.
      destruct (JSON_stringify_hta (fst taken)) as [text|];
        [destruct (writable (projectFile projectId "hta.json"))|].
      - destruct Hafter as (-> & -> & ->).
        rewrite !lookup_delete_ne, lookup_insert_eq by done.
        split; [done|]. split; [done|]. intros Hd _.
        by rewrite lookup_insert_ne.
      - destruct Hafter as (-> & -> & Hfiles). rewrite lookup_insert_eq.
        split; [done|]. split; [done|]. intros _ Hlog. by apply Hfiles.
      - destruct Hafter as (-> & -> & Hfiles). rewrite lookup_insert_eq.
        split; [done|]. split; [done|]. intros _ Hlog. by apply Hfiles. }
    destruct Hheld as (Hcache' & Hstamp' & Hfile').
    split; [exact Hbefore|]. split; [exact Hcache'|].
    split; [by rewrite Hstamp'|].
    unfold loadPathHTA in Hlatest, Hhistory.
    rewrite loadPathHta_eq in Hlatest, Hhistory. cbv zeta in Hlatest, Hhistory.
    fold generalKey generalFile in Hlatest, Hhistory.
    rewrite bool_decide_eq_true_2 in Hlatest, Hhistory by done.
    destruct (loadHta_spec (path_loaded later) generalKey generalFile sv')
      as (_ & _ & _ & _ & Hr & _).
    cbv zeta in Hr.
    split.
    + intros Hv. apply (Hlatest generalKey).
      destruct (loadFile _ _ _ _ _ _ (htas sv')) as [found st].
      cbn [fst snd] in *. rewrite Hr, Hv, Hcache'. done.
    + intros Hd Hlog. split; [by apply Hfile'|].
      intros onFile Hv HonFile. rewrite Hhistory.
      destruct (loadFile _ _ _ _ _ _ (htas sv')) as [found st].
      cbn [fst snd] in *. rewrite Hr, Hv, (Hfile' Hd Hlog), HonFile. done.
Qed.

End TakingInOnFiles.

(** ** Building the tree, on the files *)

Section BuildingOnFiles.
Import JS Model TaskIntelligence HtaTreeBuilder Spec TaskResponse TreeBuild.
Import DataPersistence Persisted TreeBuildOnFiles.
Context {O : Type} `{LlmInterface O} {fs : FileSystem}.
Variable JSON_parse_strings : string → Parsed string.

Lemma builder_loadPathHTA_eq (time : LoadTime) (sv : Server)
    (projectId pathName : string) :
  loadPathHTA time sv projectId pathName
  = let r := loadFile HtaDoc JSON_parse_hta (checked time) (cached time)
               (htaKey projectId pathName) (htaFile projectId pathName)
               (htas sv) in
    (fst r, withHtas sv (snd r)).
Proof.
  unfold loadPathHTA, htaKey, htaFile, htaTarget.
  case_bool_decide; cbn [keyOf fileOf].
  - apply loadProjectHta_eq.
  - apply loadPathHta_eq.
Qed.

(** A build that gets as far as the saves, step by step. *)
Lemma buildHTATree_steps (times : Times) (nowIso : string)
    (pathName : option string) (learningStyle : string)
    (focusAreas : list string) (sv sv' : Server) (b b' : Builder O)
    (reply : BuildReply) :
  buildHTATree JSON_parse_strings times nowIso pathName learningStyle
    focusAreas sv b = (inr reply, sv', b') →
  reply ≠ NeedsContext →
  ∃ projectId config,
    activeProject sv = Some projectId
    ∧ fst (loadConfig (config_loaded times) projectId sv) = Some config
    ∧ contextMissing (settings config) = false
    ∧ let targetPath :=
        orStr pathName (orStr (activePath (settings config)) "general") in
      let sv1 := snd (loadConfig (config_loaded times) projectId sv) in
      let l := loadPathHTA (hta_loaded times) sv1 projectId targetPath in
      let built :=
        generateHTAFramework JSON_parse_strings nowIso b (settings config)
          targetPath learningStyle focusAreas (roadmap <$> fst l) in
      let config' :=
        {| settings := withActivePath (settings config) targetPath;
           learning_paths := learning_paths config |} in
      pathExists config targetPath = true
      ∧ b' = snd built
      ∧ sv' = snd (saveConfig (config_saved times) projectId config'
                     (changedConfig (configKey projectId) config'
                        (snd (savePathHTA (hta_saved times) (snd l) projectId
                                targetPath
                                {| roadmap := fst built;
                                   collaborative_sessions := None |}))))
      ∧ reply = match pendingClaudeRequests b with
                | pending :: _ => PendingClaude pending
                | [] => Built (fst built) targetPath
                end.
Proof.
  unfold buildHTATree.
  destruct (activeProject sv) as [projectId|] eqn:Hp; [|intros [=]].
  destruct (loadConfig (config_loaded times) projectId sv) as [config sv1]
    eqn:Hload.
  destruct config as [config|]; [|intros [=]].
  destruct (contextMissing (settings config)) eqn:Hctx.
  { intros [= <- <- <-]. done. }
  set (targetPath :=
         orStr pathName (orStr (activePath (settings config)) "general")).
  destruct (pathExists config targetPath) eqn:Hpath; cbn [negb];
    [|intros [=]].
  destruct (loadPathHTA (hta_loaded times) sv1 projectId targetPath)
    as [existingHTA sv2] eqn:Hl.
  destruct (generateHTAFramework_frontier JSON_parse_strings nowIso b
              (settings config) targetPath learningStyle focusAreas
              (roadmap <$> existingHTA)) as [Hfrontier Hqueue].
  destruct (generateHTAFramework JSON_parse_strings nowIso b (settings config)
              targetPath learningStyle focusAreas (roadmap <$> existingHTA))
    as [htaData b1] eqn:Hgen.
  cbn [fst snd] in *.
  destruct (savePathHTA (hta_saved times) sv2 projectId targetPath _)
    as [ok sv3] eqn:Hsave.
  destruct (saveConfig (config_saved times) projectId _ _) as [ok' sv4]
    eqn:Hsaved.
  rewrite Hfrontier, Hqueue. cbn [default List.length].
  change (Z.of_nat 0 =? 0) with true. cbn iota.
  intros Hres _. exists projectId, config. cbn zeta. fold targetPath.
  rewrite Hload. cbn [fst snd]. rewrite Hl. cbn [fst snd].
  rewrite Hgen. cbn [fst snd]. rewrite Hsave. cbn [snd].
  rewrite Hsaved. cbn [snd].
  split; [done|]. split; [done|]. split; [done|].
  split; [done|].
  destruct (pendingClaudeRequests b) as [|pending rest];
    injection Hres as <- <- <-; done.
Qed.

(** X15.  A build that replies with a roadmap, or with the request it
    queued, has made a roadmap without tasks for the target path, which is
    general or one of the learning paths of the project.  When that
    roadmap has a JSON text and its file can be written, the file holds
    the text and every later load of the path reads it: whatever frontier
    the path had, completed tasks included, is gone, and [getNextTask] on
    the documents as then loaded finds no actionable task.  When the write
    fails the file stays as it was and the reply is the same.  The
    configuration with the target path as the active path is written in
    the same way; when that write fails the cache still holds it.  No
    other file changes but the error log. *)
Theorem rebuild_discards_frontier (times : Times) (nowIso : string)
    (pathName : option string) (learningStyle : string)
    (focusAreas : list string) (sv sv' : Server) (b b' : Builder O)
    (reply : BuildReply) :
  buildHTATree JSON_parse_strings times nowIso pathName learningStyle
    focusAreas sv b = (inr reply, sv', b') →
  reply ≠ NeedsContext →
  ∃ projectId config built,
    activeProject sv = Some projectId
    ∧ fst (loadConfig (config_loaded times) projectId sv) = Some config
    ∧ let targetPath :=
        orStr pathName (orStr (activePath (settings config)) "general") in
      let config' :=
        {| settings := withActivePath (settings config) targetPath;
           learning_paths := learning_paths config |} in
      (targetPath = "general"
       ∨ ∃ names, learning_paths config = Some names ∧ targetPath ∈ names)
      ∧ frontierNodes built = Some []
      ∧ reply = match pendingClaudeRequests b with
                | pending :: _ => PendingClaude pending
                | [] => Built built targetPath
                end
      ∧ (∀ file,
           file ≠ htaFile projectId targetPath → file ≠ configFile projectId →
           file ≠ logPath →
           Persisted.files sv' !! file = Persisted.files sv !! file)
      ∧ (htaFile projectId targetPath ≠ configFile projectId →
         htaFile projectId targetPath ≠ logPath →
         match JSON_stringify_hta
                 {| roadmap := built; collaborative_sessions := None |} with
         | Some text =>
             if writable (htaFile projectId targetPath) then
               Persisted.files sv' !! htaFile projectId targetPath = Some text
               ∧ ∀ time,
                   fst (loadPathHTA time sv' projectId targetPath)
                   = JSON_parse_hta text
             else
               Persisted.files sv' !! htaFile projectId targetPath
               = Persisted.files sv !! htaFile projectId targetPath
         | None =>
             Persisted.files sv' !! htaFile projectId targetPath
             = Persisted.files sv !! htaFile projectId targetPath
         end)
      ∧ match JSON_stringify_config config' with
        | Some text =>
            if writable (configFile projectId) then
              Persisted.files sv' !! configFile projectId = Some text
              ∧ ∀ time,
                  fst (loadConfig time projectId sv')
                  = JSON_parse_config text
            else configCache sv' !! configKey projectId = Some config'
        | None => configCache sv' !! configKey projectId = Some config'
        end
      ∧ ∀ (st : Store) maxStringLength contextFromMemory energyLevel
          timeAvailable,
          Model.activeProject st = Some projectId →
          Model.configs st !! projectId = Some (settings config') →
          Model.htas st !! (projectId, targetPath) = Some built →
          getNextTaskReply maxStringLength contextFromMemory energyLevel
            timeAvailable st
          = (inr (NoActionableTasks, None), st).
Proof.
  intros Hbuild Hreply.
  destruct (buildHTATree_steps _ _ _ _ _ _ _ _ _ _ Hbuild Hreply)
    as (projectId & config & Hp & Hc & Hctx & Hsteps).
  cbv zeta in Hsteps.
  set (targetPath :=
         orStr pathName (orStr (activePath (settings config)) "general")) in *.
  set (sv1 := snd (loadConfig (config_loaded times) projectId sv)) in *.
  set (l := loadPathHTA (hta_loaded times) sv1 projectId targetPath) in *.
  destruct (generateHTAFramework_frontier JSON_parse_strings nowIso b
              (settings config) targetPath learningStyle focusAreas
              (roadmap <$> fst l)) as [Hfrontier _].
  set (built := fst (generateHTAFramework JSON_parse_strings nowIso b
                       (settings config) targetPath learningStyle focusAreas
                       (roadmap <$> fst l))) in *.
  set (doc := {| roadmap := built; collaborative_sessions := None |}) in *.
  set (config' := {| settings := withActivePath (settings config) targetPath;
                     learning_paths := learning_paths config |}) in *.
  destruct Hsteps as (Hpath & _ & Hsv' & Hr).
  exists projectId, config, built. split; [done|]. split; [done|]. cbv zeta.
  fold targetPath config' doc.
  assert (Hne : targetPath ≠ "")
    by by apply orStr_nonempty, orStr_nonempty.
  (* the states on the way *)
  destruct (loadConfig_spec (config_loaded times) projectId sv)
    as (_ & Hf1 & _).
  cbv zeta in Hf1. fold sv1 in Hf1.
  assert (Hf2 : Persisted.files (snd l) = Persisted.files sv).
  { subst l. rewrite builder_loadPathHTA_eq. cbv zeta. cbn [snd].
    destruct (loadHta_spec (hta_loaded times) (htaKey projectId targetPath)
                (htaFile projectId targetPath) sv1) as (_ & -> & _).
    exact Hf1. }
  pose proof (savePathHTA_spec (hta_saved times) (snd l) projectId targetPath
                doc) as (_ & _ & _ & Hsave).
  cbv zeta in Hsave.
  set (sv3 := snd (savePathHTA (hta_saved times) (snd l) projectId targetPath
                     doc)) in *.
  pose proof (saveConfig_spec (config_saved times) projectId config'
                (changedConfig (configKey projectId) config' sv3))
    as (_ & Hcache4 & Hstamps4 & Hsaved).
  cbv zeta in Hcache4, Hstamps4, Hsaved. rewrite <- Hsv' in *.
  cbn [changedConfig htaCache htaStamps Persisted.files configCache
         configStamps] in *.
  split.
  { unfold pathExists in Hpath. apply orb_true_iff in Hpath as [Hin | Hg].
    - right. destruct (learning_paths config) as [names|]; [|done].
      exists names. split; [done|]. by apply bool_decide_eq_true in Hin.
    - left. by apply bool_decide_eq_true in Hg. }
  split; [exact Hfrontier|]. split; [exact Hr|].
  (* the files after the two saves *)
  assert (Hfiles3 : ∀ file, file ≠ htaFile projectId targetPath →
                            file ≠ logPath →
                            Persisted.files sv3 !! file
                            = Persisted.files sv !! file).
  { intros file Hfile Hlog.
    destruct (JSON_stringify_hta doc) as [text|];
      [destruct (writable (htaFile projectId targetPath))|].
    - destruct Hsave as (_ & -> & _).
      rewrite lookup_insert_ne by (intros Heq; by apply Hfile).
      by rewrite Hf2.
    - destruct Hsave as (_ & _ & _ & Hsame). rewrite Hsame by done.
      by rewrite Hf2.
    - destruct Hsave as (_ & _ & _ & Hsame). rewrite Hsame by done.
      by rewrite Hf2. }
  assert (Hfiles4 : ∀ file, file ≠ configFile projectId → file ≠ logPath →
                            Persisted.files sv' !! file
                            = Persisted.files sv3 !! file).
  { intros file Hfile Hlog.
    destruct (JSON_stringify_config config') as [text|];
      [destruct (writable (configFile projectId))|].
    - destruct Hsaved as (_ & -> & _).
      by rewrite lookup_insert_ne by (intros Heq; by apply Hfile).
    - destruct Hsaved as (_ & _ & _ & Hsame). by apply Hsame.
    - destruct Hsaved as (_ & _ & _ & Hsame). by apply Hsame. }
  split.
  { intros file Hhta Hcfg Hlog. rewrite Hfiles4 by done. by apply Hfiles3. }
  split.
  { intros Hcfg Hlog.
    destruct (JSON_stringify_hta doc) as [text|];
      [destruct (writable (htaFile projectId targetPath))|].
    - destruct Hsave as (_ & Hf3 & Hcache3 & Hstamps3).
      assert (Hfile : Persisted.files sv' !! htaFile projectId targetPath
                      = Some text).
      { rewrite Hfiles4 by done. by rewrite Hf3, lookup_insert_eq. }
      split; [exact Hfile|]. intros time. rewrite builder_loadPathHTA_eq. cbv zeta.
      cbn [fst].
      destruct (loadHta_spec time (htaKey projectId targetPath)
                  (htaFile projectId targetPath) sv')
        as (_ & _ & _ & _ & -> & _).
      unfold isCacheValid. cbn [htas cacheTimestamps].
      rewrite Hstamps4, Hstamps3, lookup_delete_eq, Hfile. done.
    - destruct Hsave as (_ & _ & _ & Hsame). rewrite Hfiles4 by done.
      rewrite Hsame by done. by rewrite Hf2.
    - destruct Hsave as (_ & _ & _ & Hsame). rewrite Hfiles4 by done.
      rewrite Hsame by done. by rewrite Hf2. }
  split.
  { destruct (JSON_stringify_config config') as [text|];
      [destruct (writable (configFile projectId))|].
    - destruct Hsaved as (_ & Hf4 & Hc4 & Hs4).
      assert (Hfile : Persisted.files sv' !! configFile projectId = Some text)
        by by rewrite Hf4, lookup_insert_eq.
      split; [exact Hfile|]. intros time.
      unfold loadConfig, loadProjectData.
      pose proof (loadFile_spec ConfigDoc JSON_parse_config (checked time)
                    (cached time) (getCacheKey projectId "config.json" None)
                    (projectFile projectId "config.json") (configs sv'))
        as (_ & Hload & _).
      cbv zeta in Hload.
      destruct (loadFile _ _ _ _ _ _ _) as [found st]. cbn [fst] in *.
      rewrite Hload. unfold isCacheValid. cbn [configs cacheTimestamps].
      fold (configKey projectId). rewrite Hs4, lookup_delete_eq.
      cbn [DataPersistence.files configs]. fold (configFile projectId).
      by rewrite Hfile.
    - destruct Hsaved as (_ & -> & _). by rewrite lookup_insert_eq.
    - destruct Hsaved as (_ & -> & _). by rewrite lookup_insert_eq. }
  intros st maxStringLength contextFromMemory energyLevel timeAvailable
    Hproject Hconfig Hdoc.
  unfold getNextTaskReply, getNextTaskTry, requireActiveProject,
    TaskIntelligence.loadConfig, TaskIntelligence.loadPathHTA.
  rewrite Hproject. cbn [bind ret]. rewrite Hconfig. cbn [bind ret].
  cbn [pc_activePath config' settings withActivePath activePath].
  rewrite orStr_Some_nonempty by done. by rewrite Hdoc, Hfrontier.
Qed.

End BuildingOnFiles.

Lemma rebuild_discards_frontier_witness :
  ∃ sv' b',
    TreeBuildOnFiles.buildHTATree (H := Examples.deferring)
      (fs := FileSamples.onDisk) Examples.noStrings (FileSamples.buildAt 1)
      FileSamples.instant None "mixed" []
      (Persisted.started (Some "guitar") FileSamples.project)
      Examples.freshBuilder
    = (inr (TreeBuild.Built (Persisted.roadmap FileSamples.rebuilt) "general"),
       sv', b')
    ∧ Spec.nodesOf Examples.chords ≠ []
    ∧ Model.frontierNodes (Persisted.roadmap FileSamples.rebuilt) = Some []
    ∧ Persisted.files sv' !! "guitar/hta.json" = Some "rebuilt".
Proof.
  destruct (TreeBuildOnFiles.buildHTATree (H := Examples.deferring)
              (fs := FileSamples.onDisk) Examples.noStrings
              (FileSamples.buildAt 1) FileSamples.instant None "mixed" []
              (Persisted.started (Some "guitar") FileSamples.project)
              Examples.freshBuilder) as [[result sv'] b'] eqn:Hbuild.
  assert (Hresult : result
            = inr (TreeBuild.Built (Persisted.roadmap FileSamples.rebuilt)
                     "general")).
  { apply (f_equal (λ r, fst (fst r))) in Hbuild. cbn [fst] in Hbuild.
    rewrite <- Hbuild. by vm_compute. }
  subst result. exists sv', b'. split; [done|]. split; [done|].
  destruct (rebuild_discards_frontier (H := Examples.deferring)
              (fs := FileSamples.onDisk) Examples.noStrings _ _ _ _ _ _ _ _ _
              _ Hbuild ltac:(done))
    as (projectId & config & built & Hp & Hc & _ & Hfrontier & Hreply & _
        & Hwritten & _).
  injection Hp as <-. cbn [HtaTreeBuilder.pendingClaudeRequests Examples.freshBuilder] in Hreply.
  injection Hreply as <-. split; [exact Hfrontier|].
  assert (Hconfig : config = FileSamples.guitar).
  { vm_compute in Hc. by injection Hc as <-. }
  subst config.
  by destruct (Hwritten ltac:(by vm_compute) ltac:(by vm_compute)) as [Hfile _].
Defined.

Lemma ingested_tasks_are_appended_witness :
  Model.id <$> Spec.nodesOf (Persisted.roadmap FileSamples.extended)
  = ["A"; "B"; "C"; "D"; "E"; "F"; "node_7"; "node_8"]
  ∧ Persisted.files
      (snd (IngestionOnFiles.storeGeneratedTasks (fs := FileSamples.onDisk)
              (FileSamples.callAt 1) FileSamples.instant "sess_1"
              Samples.proposals
              (Persisted.started (Some "guitar") FileSamples.project)))
    !! "guitar/hta.json" = Some "extended"
  ∧ Persisted.files
      (snd (IngestionOnFiles.storeGeneratedTasks (fs := FileSamples.readOnly)
              (FileSamples.callAt 1) FileSamples.instant "sess_1"
              Samples.proposals
              (Persisted.started (Some "guitar") FileSamples.project)))
    !! "guitar/hta.json" = Some "chords".
Proof.
  split; [reflexivity|]. split.
  - destruct (ingested_tasks_are_appended (fs := FileSamples.onDisk)
                (FileSamples.callAt 1) FileSamples.instant "sess_1"
                Samples.proposals
                (Persisted.started (Some "guitar") FileSamples.project)
                "guitar" FileSamples.guitar eq_refl ltac:(by vm_compute))
      as (_ & _ & _ & _ & _ & Hwritten).
    exact Hwritten.
  - destruct (ingested_tasks_are_appended (fs := FileSamples.readOnly)
                (FileSamples.callAt 1) FileSamples.instant "sess_1"
                Samples.proposals
                (Persisted.started (Some "guitar") FileSamples.project)
                "guitar" FileSamples.guitar eq_refl ltac:(by vm_compute))
      as (_ & _ & _ & _ & _ & Hkept).
    exact (Hkept ltac:(by vm_compute)).
Defined.

Lemma stored_session_is_latest_witness :
  fst (IngestionOnFiles.getGenerationHistory (fs := FileSamples.onDisk)
         (FileSamples.callAt 2) 10 FileSamples.afterTakingIn)
  = inr [FileSamples.firstSession]
  ∧ fst (IngestionOnFiles.getGenerationHistory (fs := FileSamples.onDisk)
           (FileSamples.callAt 300001) 10 FileSamples.afterTakingIn)
    = inr []
  ∧ Persisted.files FileSamples.afterTakingIn
    !! "guitar/paths/general/hta.json" = Some "chords"
  ∧ Persisted.files FileSamples.afterTakingIn !! "guitar/hta.json"
    = Some "extended".
Proof.
  destruct (stored_session_is_latest (fs := FileSamples.onDisk)
              (FileSamples.callAt 1) (FileSamples.callAt 2)
              FileSamples.instant "sess_1" Samples.proposals
              (Persisted.started (Some "guitar") FileSamples.shadowed)
              "guitar" FileSamples.guitar FileSamples.guitar 10 eq_refl
              ltac:(by vm_compute) ltac:(by vm_compute) eq_refl ltac:(lia))
    as [_ Hshadowed].
  destruct (Hshadowed eq_refl FileSamples.chords ltac:(by vm_compute))
    as (_ & _ & _ & Hvalid & _).
  destruct (Hvalid ltac:(by vm_compute)) as (earlier & Hhistory & _ & Hsuffix).
  split.
  { apply suffix_nil_inv in Hsuffix as ->. exact Hhistory. }
  destruct (stored_session_is_latest (fs := FileSamples.onDisk)
              (FileSamples.callAt 1) (FileSamples.callAt 300001)
              FileSamples.instant "sess_1" Samples.proposals
              (Persisted.started (Some "guitar") FileSamples.shadowed)
              "guitar" FileSamples.guitar FileSamples.guitar 10 eq_refl
              ltac:(by vm_compute) ltac:(by vm_compute) eq_refl ltac:(lia))
    as [_ Hlater].
  destruct (Hlater eq_refl FileSamples.chords ltac:(by vm_compute))
    as (_ & _ & _ & _ & Hexpired).
  destruct (Hexpired ltac:(by vm_compute) ltac:(by vm_compute))
    as [Hfile Hhistory'].
  split.
  { exact (Hhistory' FileSamples.chords ltac:(by vm_compute)
             ltac:(by vm_compute)). }
  split; [etrans; [exact Hfile | by vm_compute]|]. by vm_compute.
Defined.
